(** * SimpleNVGPUInfo: a shallow embedding of [main.cpp]

    The program polls NVAPI once per second and prints, for every physical
    GPU, its clocks, temperature, fan speed and memory usage.  This file
    embeds the C++ code of [SimpleNVGPUInfo/main.cpp] function by function:

    - the two formatters [FormatClockSpeed] and [FormatSizeKB] are pure
      functions on single-precision numbers (IEEE 754 binary32, taken from
      the [SpecFloat] specification of the standard library) followed by the
      C runtime's ["%.2f"] conversion;
    - every function that talks to the driver or to a stream is a computation
      in a small state-and-trace monad: the state is the (opaque) state of
      the outside world, the trace is the ordered list of the NVAPI calls
      made, with their status, and of the chunks written to [stdout] and
      [stderr];
    - [main] is a transition system on program points, because its
      [for (;;)] loop does not terminate. *)

From Stdlib Require Import ZArith Lia List Bool Ascii String.
From Stdlib Require Import Floats.SpecFloat.
Import ListNotations.

Local Open Scope string_scope.
Local Open Scope Z_scope.

(** ** Text *)

Module Text.

(** The first [n] characters of [s]: what is left of a text that is written
    into a buffer with room for [n] characters and a terminator. *)
Fixpoint truncate (n : nat) (s : string) : string :=
  match n, s with
  | O, _ => EmptyString
  | S _, EmptyString => EmptyString
  | S k, String c r => String c (truncate k r)
  end.

(** [_snprintf_s (buf, size, _TRUNCATE, ...)]: the formatted text, cut to the
    [size - 1] characters that fit in front of the terminating zero. *)
Definition snprintf_s (size : nat) (formatted : string) : string :=
  truncate (size - 1) formatted.

(** [s] without its first [n] characters. *)
Fixpoint drop (n : nat) (s : string) : string :=
  match n, s with
  | O, _ => s
  | S _, EmptyString => EmptyString
  | S k, String _ r => drop k r
  end.

(** Does [s] end with [suffix]? *)
Definition ends_with (suffix s : string) : bool :=
  String.eqb (drop (String.length s - String.length suffix) s) suffix.

(** Does [s] start with [p]? *)
Fixpoint starts_with (p s : string) : bool :=
  match p, s with
  | EmptyString, _ => true
  | String _ _, EmptyString => false
  | String a p', String b s' => Ascii.eqb a b && starts_with p' s'
  end.

(** A decimal digit, [0 <= d < 10], as a character. *)
Definition digit_char (d : Z) : ascii := ascii_of_nat (48 + Z.to_nat d).

Definition is_digit (c : ascii) : bool :=
  (48 <=? nat_of_ascii c)%nat && (nat_of_ascii c <=? 57)%nat.

Fixpoint all_digits (s : string) : bool :=
  match s with
  | EmptyString => true
  | String c r => is_digit c && all_digits r
  end.

(** The decimal digits of [n >= 0], most significant first, in front of
    [acc]; at most [fuel] of them. *)
Fixpoint dec_digits (fuel : nat) (n : Z) (acc : string) : string :=
  match fuel with
  | O => acc
  | S f =>
      let acc' := String (digit_char (n mod 10)) acc in
      if n <? 10 then acc' else dec_digits f (n / 10) acc'
  end.

(** ["%u"]: a number has no more decimal digits than binary ones. *)
Definition fmt_u (n : Z) : string :=
  dec_digits (S (Z.to_nat (Z.log2 n))) n "".

(** ["%d"]. *)
Definition fmt_d (n : Z) : string :=
  if n <? 0 then "-" ++ fmt_u (- n) else fmt_u n.

(** An uppercase hexadecimal digit. *)
Definition hex_char (d : Z) : ascii :=
  if d <? 10 then ascii_of_nat (48 + Z.to_nat d)
  else ascii_of_nat (55 + Z.to_nat d).

Definition hex_digit_at (n : Z) (i : Z) : ascii :=
  hex_char (Z.land (Z.shiftr n (4 * i)) 15).

(** ["%08X"] of a 32-bit unsigned value: exactly eight digits. *)
Definition fmt_08X (n : Z) : string :=
  String (hex_digit_at n 7) (String (hex_digit_at n 6)
  (String (hex_digit_at n 5) (String (hex_digit_at n 4)
  (String (hex_digit_at n 3) (String (hex_digit_at n 2)
  (String (hex_digit_at n 1) (String (hex_digit_at n 0) ""))))))).

(** The value of a text of decimal digits (used to read a rendering back). *)
Fixpoint dec_value_from (acc : Z) (s : string) : Z :=
  match s with
  | EmptyString => acc
  | String c r => dec_value_from (10 * acc + (Z.of_nat (nat_of_ascii c) - 48)) r
  end.

Definition dec_value (s : string) : Z := dec_value_from 0 s.

End Text.

(** ** Machine integers *)

(** [NvU32]: an unsigned 32-bit integer is a [Z] in [0, 2^32). *)
Definition NvU32 := Z.

Definition u32_modulus : Z := 2 ^ 32.

Definition is_u32 (x : Z) : Prop := 0 <= x < u32_modulus.

(** Subtraction of two [NvU32] values wraps around modulo [2^32]. *)
Definition u32_sub (a b : NvU32) : NvU32 := (a - b) mod u32_modulus.

(** [static_cast<unsigned int>] of a 32-bit [int]. *)
Definition to_unsigned (x : Z) : Z := x mod u32_modulus.

(** [static_cast<int>] of a 32-bit value: two's complement. *)
Definition to_int (x : Z) : Z :=
  let u := x mod u32_modulus in
  if u <? 2 ^ 31 then u else u - u32_modulus.

(** ** Single-precision arithmetic and ["%.2f"] *)

Module Float32.

(** IEEE 754 binary32: 24 significand bits, infinities at exponent 128. *)
Definition prec : Z := 24.
Definition emax : Z := 128.

(** [static_cast<float>(n)] for an unsigned integer [n]: the nearest
    binary32 number, ties to even. *)
Definition of_u32 (n : NvU32) : spec_float := binary_normalize prec emax n 0 false.

(** [x / y] on [float] operands. *)
Definition div (x y : spec_float) : spec_float := SFdiv prec emax x y.

(** The literals [1000.0f], [1024.0f] and [1048576.0f]. *)
Definition lit_1000 : spec_float := Eval cbv in of_u32 1000.
Definition lit_1024 : spec_float := Eval cbv in of_u32 1024.
Definition lit_1048576 : spec_float := Eval cbv in of_u32 1048576.

End Float32.

(** What the C runtime does with a value that lies exactly half way between
    two neighbouring decimal renderings.  The Universal CRT of current
    Windows versions follows IEEE 754 and rounds such a tie to the even
    neighbour; older runtimes round it away from zero. *)
Inductive tie_break : Type := TieToEven | TieAwayFromZero.

(** The part of the C runtime the formatters depend on. *)
Class CRuntime : Type := { printf_ties : tie_break }.

Module Printf.

Import Text.

(** The integer nearest to [a / b], for [0 <= a] and [0 < b]. *)
Definition round_div (ties : tie_break) (a b : Z) : Z :=
  let q := a / b in
  let r := a mod b in
  match 2 * r ?= b with
  | Lt => q
  | Gt => q + 1
  | Eq => match ties with
          | TieToEven => if Z.even q then q else q + 1
          | TieAwayFromZero => q + 1
          end
  end.

(** The number of hundredths nearest to the magnitude [m * 2^e]. *)
Definition hundredths (ties : tie_break) (m : positive) (e : Z) : Z :=
  match e with
  | Zneg k => round_div ties (100 * Zpos m) (2 ^ Zpos k)
  | _ => 100 * Zpos m * 2 ^ e
  end.

(** A number of hundredths [n >= 0] written with two decimals. *)
Definition fixed2 (negative : bool) (n : Z) : string :=
  (if negative then "-" else "") ++ fmt_u (n / 100) ++ "."
  ++ String (digit_char (n / 10 mod 10)) (String (digit_char (n mod 10)) "").

(** ["%.2f"].  The [float] argument is promoted to [double], which changes
    nothing of its value; the conversion rounds the exact binary value to
    two decimals. *)
Definition fmt_f2 {crt : CRuntime} (x : spec_float) : string :=
  match x with
  | S754_zero s => fixed2 s 0
  | S754_finite s m e => fixed2 s (hundredths printf_ties m e)
  | S754_infinity s => if s then "-inf" else "inf"
  | S754_nan => "nan"
  end.

End Printf.

(** ** The data of [nvapi.h] that the program touches *)

(** [NvAPI_Status] is an enumeration of [int] values; [NVAPI_OK] is zero and
    every other value reports a failure. *)
Definition NvAPI_Status := Z.

(** [NvPhysicalGpuHandle] is an opaque pointer. *)
Definition NvPhysicalGpuHandle := Z.

(** The clock types of [NV_GPU_CLOCK_FREQUENCIES::ClockType]. *)
Inductive NV_GPU_CLOCK_FREQUENCIES_CLOCK_TYPE : Type :=
  | NV_GPU_CLOCK_FREQUENCIES_CURRENT_FREQ
  | NV_GPU_CLOCK_FREQUENCIES_BASE_CLOCK
  | NV_GPU_CLOCK_FREQUENCIES_BOOST_CLOCK.

(** One entry of [NV_GPU_CLOCK_FREQUENCIES::domain]: a one-bit presence
    flag and a frequency in kHz. *)
Record NV_GPU_CLOCK_DOMAIN : Type := {
  bIsPresent : bool;
  frequency : NvU32
}.

Record NV_GPU_CLOCK_FREQUENCIES : Type := {
  ClockType : NV_GPU_CLOCK_FREQUENCIES_CLOCK_TYPE;
  domain : list NV_GPU_CLOCK_DOMAIN
}.

(** An entry of a zero-initialised ([= {}]) structure. *)
Definition zero_domain : NV_GPU_CLOCK_DOMAIN :=
  {| bIsPresent := false; frequency := 0 |}.

(** [frequencies.domain[d]]; an entry the driver did not fill is still
    zero. *)
Definition domain_at (frequencies : NV_GPU_CLOCK_FREQUENCIES) (d : NvU32)
  : NV_GPU_CLOCK_DOMAIN :=
  nth (Z.to_nat d) (domain frequencies) zero_domain.

Record NV_GPU_THERMAL_SENSOR : Type := { currentTemp : Z }.

Record NV_GPU_THERMAL_SETTINGS : Type := {
  count : NvU32;
  sensor : list NV_GPU_THERMAL_SENSOR
}.

Definition zero_sensor : NV_GPU_THERMAL_SENSOR := {| currentTemp := 0 |}.

Record NV_DISPLAY_DRIVER_MEMORY_INFO : Type := {
  curAvailableDedicatedVideoMemory : NvU32
}.

(** The outcome of one NVAPI call: the contents of its output parameter
    when it returns [NVAPI_OK], its status otherwise (a status different
    from [NVAPI_OK]; the output parameter is then left as the caller
    initialised it). *)
Inductive NvResult (A : Type) : Type :=
  | NvOk (a : A)
  | NvErr (status : NvAPI_Status).

Arguments NvOk {A} a.
Arguments NvErr {A} status.

(** The driver and the operating system.  [world] is their state: each call
    may change it, and [Sleep] lets time pass.  The two clock domain
    indices are the values of the enumeration constants of [nvapi.h]. *)
Class Provider (world : Type) : Type := {
  NVAPI_GPU_PUBLIC_CLOCK_GRAPHICS : NvU32;
  NVAPI_GPU_PUBLIC_CLOCK_MEMORY : NvU32;
  NvAPI_Initialize : world -> NvResult unit * world;
  NvAPI_Unload : world -> NvResult unit * world;
  NvAPI_EnumPhysicalGPUs : world -> NvResult (list NvPhysicalGpuHandle) * world;
  NvAPI_GPU_GetFullName : NvPhysicalGpuHandle -> world -> NvResult string * world;
  NvAPI_GPU_GetPhysicalFrameBufferSize :
    NvPhysicalGpuHandle -> world -> NvResult NvU32 * world;
  NvAPI_GPU_GetAllClockFrequencies :
    NvPhysicalGpuHandle -> NV_GPU_CLOCK_FREQUENCIES_CLOCK_TYPE -> world ->
    NvResult NV_GPU_CLOCK_FREQUENCIES * world;
  NvAPI_GPU_GetThermalSettings :
    NvPhysicalGpuHandle -> world -> NvResult NV_GPU_THERMAL_SETTINGS * world;
  NvAPI_GPU_GetTachReading : NvPhysicalGpuHandle -> world -> NvResult NvU32 * world;
  NvAPI_GPU_GetMemoryInfo :
    NvPhysicalGpuHandle -> world -> NvResult NV_DISPLAY_DRIVER_MEMORY_INFO * world;
  Sleep : Z -> world -> world
}.

(** ** What the program does to the outside *)

Inductive api : Type :=
  | ApiInitialize
  | ApiUnload
  | ApiEnumPhysicalGPUs
  | ApiGetFullName (h : NvPhysicalGpuHandle)
  | ApiGetPhysicalFrameBufferSize (h : NvPhysicalGpuHandle)
  | ApiGetAllClockFrequencies (h : NvPhysicalGpuHandle)
      (t : NV_GPU_CLOCK_FREQUENCIES_CLOCK_TYPE)
  | ApiGetThermalSettings (h : NvPhysicalGpuHandle)
  | ApiGetTachReading (h : NvPhysicalGpuHandle)
  | ApiGetMemoryInfo (h : NvPhysicalGpuHandle).

Inductive outcome : Type :=
  | Succeeded
  | Failed (status : NvAPI_Status).

Inductive event : Type :=
  | Called (a : api) (o : outcome)
  | Stdout (text : string)
  | Stderr (text : string)
  | Slept (milliseconds : Z).

Definition trace := list event.

Definition outcome_of {A : Type} (r : NvResult A) : outcome :=
  match r with
  | NvOk _ => Succeeded
  | NvErr status => Failed status
  end.

(** ** The record of [main.cpp] *)

Record GPUInfo : Type := {
  physical_gpu : NvPhysicalGpuHandle;
  name : string;
  vram_in_kb : NvU32
}.

Definition EXIT_SUCCESS : Z := 0.
Definition EXIT_FAILURE : Z := 1.

(** ** The formatters *)

Section Formatters.

Context {crt : CRuntime}.

(** [FormatClockSpeed], lines 31-40. *)
Definition FormatClockSpeed (frequencies : NV_GPU_CLOCK_FREQUENCIES) (domain : NvU32)
  : string :=
  if negb (bIsPresent (domain_at frequencies domain)) then "<not present>"
  else
    Text.snprintf_s 128
      (Printf.fmt_f2
         (Float32.div (Float32.of_u32 (frequency (domain_at frequencies domain)))
            Float32.lit_1000)
       ++ " MHz").

(** [FormatSizeKB], lines 42-52. *)
Definition FormatSizeKB (size_in_kb : NvU32) : string :=
  if size_in_kb >? 1048576 then
    Text.snprintf_s 128
      (Printf.fmt_f2 (Float32.div (Float32.of_u32 size_in_kb) Float32.lit_1048576)
       ++ " GiB")
  else if size_in_kb >? 1024 then
    Text.snprintf_s 128
      (Printf.fmt_f2 (Float32.div (Float32.of_u32 size_in_kb) Float32.lit_1024)
       ++ " MiB")
  else
    Text.snprintf_s 128 (Text.fmt_u (to_unsigned size_in_kb) ++ " KiB").

End Formatters.

(** ** Computations *)

Section Code.

Context {world : Type} {nv : Provider world} {crt : CRuntime}.

(** A computation reads and changes the state of the outside world and
    appends to the trace. *)
Definition M (A : Type) : Type := world -> A * world * trace.

Definition ret {A : Type} (a : A) : M A := fun w => (a, w, []).

Definition bind {A B : Type} (m : M A) (k : A -> M B) : M B :=
  fun w =>
    let '(a, w1, t1) := m w in
    let '(b, w2, t2) := k a w1 in
    (b, w2, (t1 ++ t2)%list).

Definition emit (e : event) : M unit := fun w => (tt, w, [e]).

(** An NVAPI call: the driver answers, the call and its status are
    recorded. *)
Definition call {A : Type} (a : api) (f : world -> NvResult A * world)
  : M (NvResult A) :=
  fun w => let '(r, w1) := f w in (r, w1, [Called a (outcome_of r)]).

Definition sleep (milliseconds : Z) : M unit :=
  fun w => (tt, Sleep milliseconds w, [Slept milliseconds]).

Definition result_of {A : Type} (m : M A) (w : world) : A := fst (fst (m w)).
Definition world_after {A : Type} (m : M A) (w : world) : world := snd (fst (m w)).
Definition trace_of {A : Type} (m : M A) (w : world) : trace := snd (m w).

End Code.

Declare Scope monad_scope.
Delimit Scope monad_scope with monad.
Notation "x <- m ;; k" := (bind m (fun x => k))
  (at level 61, m at next level, right associativity) : monad_scope.
Notation "m ;; k" := (bind m (fun _ => k))
  (at level 61, right associativity) : monad_scope.

Section Program.

Context {world : Type} {nv : Provider world} {crt : CRuntime}.

Local Open Scope monad_scope.

(** [for (const T& x : l) body(x);] *)
Fixpoint for_each {A : Type} (l : list A) (body : A -> M (world := world) unit)
  : M unit :=
  match l with
  | [] => ret tt
  | x :: rest => body x ;; for_each rest body
  end.

(** A loop over [l] whose body updates a local variable of type [S]. *)
Fixpoint for_each_with {A S : Type} (l : list A)
  (body : A -> S -> M (world := world) S) (s : S) : M S :=
  match l with
  | [] => ret s
  | x :: rest => s1 <- body x s ;; for_each_with rest body s1
  end.

Definition newline : string := String "010" "".
Definition tab : string := String "009" "".

(** The contents of [buf] in [PrintError], lines 23-25. *)
Definition PrintError_buf (error : NvAPI_Status) (msg : string) : string :=
  Text.snprintf_s 256
    (msg ++ "Error 0x" ++ Text.fmt_08X (to_unsigned error) ++ newline).

(** [PrintError], lines 18-29. *)
Definition PrintError (error : NvAPI_Status) (msg : string) : M (world := world) unit :=
  emit (Stderr (PrintError_buf error msg)).

Definition divider : string := "-------------------------------" ++ newline.

(** [PrintGPUClockInfo], lines 54-84. *)
Definition PrintGPUClockInfo (gpu : GPUInfo) : M (world := world) unit :=
  r <- call (ApiGetAllClockFrequencies (physical_gpu gpu) NV_GPU_CLOCK_FREQUENCIES_BASE_CLOCK)
         (NvAPI_GPU_GetAllClockFrequencies (physical_gpu gpu)
            NV_GPU_CLOCK_FREQUENCIES_BASE_CLOCK) ;;
  match r with
  | NvErr status => PrintError status "NvAPI_GPU_GetAllClockFrequencies failed:"
  | NvOk base_frequencies =>
      b <- call (ApiGetAllClockFrequencies (physical_gpu gpu)
                   NV_GPU_CLOCK_FREQUENCIES_BOOST_CLOCK)
             (NvAPI_GPU_GetAllClockFrequencies (physical_gpu gpu)
                NV_GPU_CLOCK_FREQUENCIES_BOOST_CLOCK) ;;
      let PrintClock (type : string) (domain : NvU32) : M unit :=
        emit (Stdout (type ++ ": " ++ FormatClockSpeed base_frequencies domain)) ;;
        match b with
        | NvOk boost_frequencies =>
            emit (Stdout (" (boost " ++ FormatClockSpeed boost_frequencies domain ++ ")"))
        | NvErr _ => ret tt
        end ;;
        emit (Stdout newline) in
      PrintClock "Graphics clock speed" NVAPI_GPU_PUBLIC_CLOCK_GRAPHICS ;;
      PrintClock "Memory clock speed" NVAPI_GPU_PUBLIC_CLOCK_MEMORY
  end.

(** [PrintGPUInfo], lines 86-92. *)
Definition PrintGPUInfo (gpu : GPUInfo) : M (world := world) unit :=
  emit (Stdout ("GPU: " ++ name gpu ++ newline)) ;;
  emit (Stdout divider) ;;
  PrintGPUClockInfo gpu.

(** [PrintGPUCurrentClocks], lines 94-114. *)
Definition PrintGPUCurrentClocks (gpu : GPUInfo) : M (world := world) unit :=
  r <- call (ApiGetAllClockFrequencies (physical_gpu gpu)
               NV_GPU_CLOCK_FREQUENCIES_CURRENT_FREQ)
         (NvAPI_GPU_GetAllClockFrequencies (physical_gpu gpu)
            NV_GPU_CLOCK_FREQUENCIES_CURRENT_FREQ) ;;
  match r with
  | NvErr status => PrintError status "NvAPI_GPU_GetAllClockFrequencies failed:"
  | NvOk frequencies =>
      let PrintClock (type : string) (domain : NvU32) : M unit :=
        emit (Stdout (type ++ ": " ++ FormatClockSpeed frequencies domain)) ;;
        emit (Stdout tab) in
      PrintClock "Graphics clock speed" NVAPI_GPU_PUBLIC_CLOCK_GRAPHICS ;;
      PrintClock "Memory clock speed" NVAPI_GPU_PUBLIC_CLOCK_MEMORY
  end.

(** [PrintGPUCurrentTemperature], lines 116-133. *)
Definition PrintGPUCurrentTemperature (gpu : GPUInfo) : M (world := world) unit :=
  r <- call (ApiGetThermalSettings (physical_gpu gpu))
         (NvAPI_GPU_GetThermalSettings (physical_gpu gpu)) ;;
  match r with
  | NvErr status => PrintError status "NvAPI_GPU_GetAllClockFrequencies failed:"
  | NvOk thermal =>
      if count thermal >? 0 then
        emit (Stdout ("Temperature: "
                      ++ Text.fmt_d (to_int (currentTemp (nth 0 (sensor thermal) zero_sensor)))
                      ++ "C")) ;;
        emit (Stdout tab)
      else ret tt
  end.

(** [PrintGPUCurrentFanSpeed], lines 135-141. *)
Definition PrintGPUCurrentFanSpeed (gpu : GPUInfo) : M (world := world) unit :=
  let fan_speed : NvU32 := 0 in
  r <- call (ApiGetTachReading (physical_gpu gpu))
         (NvAPI_GPU_GetTachReading (physical_gpu gpu)) ;;
  let fan_speed := match r with NvOk value => value | NvErr _ => fan_speed end in
  emit (Stdout ("Fan speed: " ++ Text.fmt_u (to_unsigned fan_speed) ++ " RPM" ++ tab)).

(** [PrintGPUCurrentMemoryUsage], lines 143-158. *)
Definition PrintGPUCurrentMemoryUsage (gpu : GPUInfo) : M (world := world) unit :=
  r <- call (ApiGetMemoryInfo (physical_gpu gpu))
         (NvAPI_GPU_GetMemoryInfo (physical_gpu gpu)) ;;
  match r with
  | NvErr status => PrintError status "NvAPI_GPU_GetAllClockFrequencies failed:"
  | NvOk memory_info =>
      let used_memory := u32_sub (vram_in_kb gpu)
                           (curAvailableDedicatedVideoMemory memory_info) in
      emit (Stdout ("Memory usage: " ++ FormatSizeKB used_memory ++ " / "
                    ++ FormatSizeKB (vram_in_kb gpu))) ;;
      emit (Stdout tab)
  end.

(** [PrintGPUStatus], lines 160-177. *)
Definition PrintGPUStatus (gpu : GPUInfo) : M (world := world) unit :=
  emit (Stdout ("GPU: " ++ name gpu ++ newline)) ;;
  emit (Stdout divider) ;;
  PrintGPUCurrentClocks gpu ;;
  emit (Stdout newline) ;;
  PrintGPUCurrentTemperature gpu ;;
  PrintGPUCurrentFanSpeed gpu ;;
  emit (Stdout newline) ;;
  PrintGPUCurrentMemoryUsage gpu ;;
  emit (Stdout newline) ;;
  emit (Stdout divider) ;;
  emit (Stdout newline).

(** The body of the loop of [EnumerateGPUs], lines 193-215: [gpus] is the
    vector built so far; a [continue] leaves it as it is. *)
Definition EnumerateGPUs_body (handle : NvPhysicalGpuHandle) (gpus : list GPUInfo)
  : M (world := world) (list GPUInfo) :=
  r <- call (ApiGetFullName handle) (NvAPI_GPU_GetFullName handle) ;;
  match r with
  | NvErr status => PrintError status "NvAPI_GPU_GetFullName failed: " ;; ret gpus
  | NvOk str =>
      r2 <- call (ApiGetPhysicalFrameBufferSize handle)
              (NvAPI_GPU_GetPhysicalFrameBufferSize handle) ;;
      match r2 with
      | NvErr status =>
          PrintError status "NvAPI_GPU_GetPhysicalFrameBufferSize failed: " ;; ret gpus
      | NvOk vram_size_kb =>
          ret (gpus ++ [ {| physical_gpu := handle; name := str;
                            vram_in_kb := vram_size_kb |} ])%list
      end
  end.

(** [EnumerateGPUs], lines 179-218.  The driver's answer is the first
    [num_gpus] entries of [gpu_handles]. *)
Definition EnumerateGPUs : M (world := world) (list GPUInfo) :=
  r <- call ApiEnumPhysicalGPUs NvAPI_EnumPhysicalGPUs ;;
  match r with
  | NvErr status => PrintError status "NvAPI_EnumPhysicalGPUs failed: " ;; ret []
  | NvOk gpu_handles => for_each_with gpu_handles EnumerateGPUs_body []
  end.

(** *** [main], lines 220-250 *)

(** The points of [main] between which something observable happens. *)
Inductive program_point : Type :=
  | AtEntry
  | InLoop (gpus : list GPUInfo)
  | AfterLoop
  | Exited (code : Z).

(** Lines 222-238: from the entry to the first test of the loop, or to a
    [return]. *)
Definition main_startup : M (world := world) program_point :=
  r <- call ApiInitialize NvAPI_Initialize ;;
  match r with
  | NvErr status =>
      PrintError status "NVAPI_Initialize failed: " ;; ret (Exited EXIT_FAILURE)
  | NvOk _ =>
      gpus <- EnumerateGPUs ;;
      match gpus with
      | [] =>
          emit (Stderr ("No GPUs found." ++ newline)) ;;
          _ <- call ApiUnload NvAPI_Unload ;;
          ret (Exited EXIT_FAILURE)
      | _ :: _ =>
          for_each gpus PrintGPUInfo ;;
          ret (InLoop gpus)
      end
  end.

(** Lines 242-245: one pass of the loop body. *)
Definition sampling_pass (gpus : list GPUInfo) : M (world := world) unit :=
  for_each gpus PrintGPUStatus ;;
  sleep 1000.

(** One transition of [main].  The loop [for (;;)] has no condition and its
    body has no [break], [return] or [goto]: the end of the body leads back
    to its beginning.  Lines 248-249 follow the loop in the text. *)
Definition main_step (pc : program_point) : M (world := world) program_point :=
  match pc with
  | AtEntry => main_startup
  | InLoop gpus => sampling_pass gpus ;; ret (InLoop gpus)
  | AfterLoop => _ <- call ApiUnload NvAPI_Unload ;; ret (Exited EXIT_SUCCESS)
  | Exited code => ret (Exited code)
  end.

(** Is the process over? *)
Definition terminal (pc : program_point) : bool :=
  match pc with
  | Exited _ => true
  | _ => false
  end.

(** At most [n] transitions from [pc]; a process that has exited makes no
    further transition. *)
Fixpoint main_steps (n : nat) (pc : program_point) : M (world := world) program_point :=
  match n with
  | O => ret pc
  | S k =>
      if terminal pc then ret pc
      else pc1 <- main_step pc ;; main_steps k pc1
  end.

(** [main] observed for [n] transitions. *)
Definition main (n : nat) : M (world := world) program_point := main_steps n AtEntry.

End Program.

(** ** A driver to run the program on *)

Module Sample.

(** What a simulated driver answers.  Its world is the time in
    milliseconds since the start. *)
Record scenario : Type := {
  initialize_status : NvAPI_Status;
  listing : NvResult (list NvPhysicalGpuHandle);
  full_name : NvPhysicalGpuHandle -> NvResult string;
  frame_buffer : NvPhysicalGpuHandle -> NvResult NvU32;
  clocks : NvPhysicalGpuHandle -> NV_GPU_CLOCK_FREQUENCIES_CLOCK_TYPE -> Z ->
           NvResult NV_GPU_CLOCK_FREQUENCIES;
  thermal : NvPhysicalGpuHandle -> Z -> NvResult NV_GPU_THERMAL_SETTINGS;
  tach : NvPhysicalGpuHandle -> Z -> NvResult NvU32;
  memory : NvPhysicalGpuHandle -> Z -> NvResult NV_DISPLAY_DRIVER_MEMORY_INFO
}.

Definition driver (s : scenario) : Provider Z := {|
  NVAPI_GPU_PUBLIC_CLOCK_GRAPHICS := 0;
  NVAPI_GPU_PUBLIC_CLOCK_MEMORY := 4;
  NvAPI_Initialize := fun w =>
    (if initialize_status s =? 0 then NvOk tt else NvErr (initialize_status s), w);
  NvAPI_Unload := fun w => (NvOk tt, w);
  NvAPI_EnumPhysicalGPUs := fun w => (listing s, w);
  NvAPI_GPU_GetFullName := fun h w => (full_name s h, w);
  NvAPI_GPU_GetPhysicalFrameBufferSize := fun h w => (frame_buffer s h, w);
  NvAPI_GPU_GetAllClockFrequencies := fun h t w => (clocks s h t w, w);
  NvAPI_GPU_GetThermalSettings := fun h w => (thermal s h w, w);
  NvAPI_GPU_GetTachReading := fun h w => (tach s h w, w);
  NvAPI_GPU_GetMemoryInfo := fun h w => (memory s h w, w);
  Sleep := fun ms w => w + ms
|}.

Definition current_crt : CRuntime := {| printf_ties := TieToEven |}.
Definition legacy_crt : CRuntime := {| printf_ties := TieAwayFromZero |}.

(** A clock table with the graphics domain (index 0) at [graphics] kHz and
    the memory domain (index 4) at [memory_clock] kHz. *)
Definition clock_table (t : NV_GPU_CLOCK_FREQUENCIES_CLOCK_TYPE)
  (graphics memory_clock : NvU32) : NV_GPU_CLOCK_FREQUENCIES :=
  {| ClockType := t;
     domain := [ {| bIsPresent := true; frequency := graphics |};
                 zero_domain; zero_domain; zero_domain;
                 {| bIsPresent := true; frequency := memory_clock |} ] |}.

(** Three boards.  The second one refuses the query of its current clocks
    (status -1, [NVAPI_ERROR]), the third one has no thermal sensor and no
    tachometer. *)
Definition three_boards : scenario := {|
  initialize_status := 0;
  listing := NvOk [11; 22; 33];
  full_name := fun h =>
    if h =? 11 then NvOk "GeForce A"
    else if h =? 22 then NvOk "GeForce B" else NvOk "GeForce C";
  frame_buffer := fun h => if h =? 11 then NvOk 8388608 else NvOk 2097152;
  clocks := fun h t w =>
    match t with
    | NV_GPU_CLOCK_FREQUENCIES_CURRENT_FREQ =>
        if h =? 22 then NvErr (-1) else NvOk (clock_table t (1815000 + w) 7000000)
    | _ => NvOk (clock_table t 1500000 7000000)
    end;
  thermal := fun h w =>
    if h =? 33 then NvOk {| count := 0; sensor := [] |}
    else NvOk {| count := 1; sensor := [ {| currentTemp := 61 |} ] |};
  tach := fun h w => if h =? 33 then NvErr (-3) else NvOk 1350;
  memory := fun h w =>
    NvOk {| curAvailableDedicatedVideoMemory := 1048576 |}
|}.

(** The listing succeeds, but no board gives both its name and its
    memory size. *)
Definition unusable_boards : scenario := {|
  initialize_status := 0;
  listing := NvOk [11; 22];
  full_name := fun h => if h =? 11 then NvErr (-6) else NvOk "GeForce B";
  frame_buffer := fun h => NvErr (-1);
  clocks := fun h t w => NvErr (-1);
  thermal := fun h w => NvErr (-1);
  tach := fun h w => NvErr (-1);
  memory := fun h w => NvErr (-1)
|}.

(** The driver is not there at all. *)
Definition no_driver : scenario := {|
  initialize_status := -2;
  listing := NvErr (-4);
  full_name := fun h => NvErr (-4);
  frame_buffer := fun h => NvErr (-4);
  clocks := fun h t w => NvErr (-4);
  thermal := fun h w => NvErr (-4);
  tach := fun h w => NvErr (-4);
  memory := fun h w => NvErr (-4)
|}.

(** One board in the cold: ten degrees below zero, and a tachometer stuck
    at the largest reading. *)
Definition cold_board : scenario := {|
  initialize_status := 0;
  listing := NvOk [7];
  full_name := fun h => NvOk "GeForce D";
  frame_buffer := fun h => NvOk 4194304;
  clocks := fun h t w => NvOk (clock_table t 300000 405000);
  thermal := fun h w =>
    NvOk {| count := 2; sensor := [ {| currentTemp := -10 |}; {| currentTemp := 35 |} ] |};
  tach := fun h w => NvOk 4294967295;
  memory := fun h w => NvOk {| curAvailableDedicatedVideoMemory := 4194304 |}
|}.

Definition cold_gpu : GPUInfo :=
  {| physical_gpu := 7; name := "GeForce D"; vram_in_kb := 4194304 |}.

(** A message that fills the buffer of [PrintError] on its own. *)
Definition long_message : string :=
  string_of_list_ascii (List.repeat "x"%char 300).

(** The catalog [EnumerateGPUs] builds for [three_boards]. *)
Definition three_gpus : list GPUInfo :=
  [ {| physical_gpu := 11; name := "GeForce A"; vram_in_kb := 8388608 |};
    {| physical_gpu := 22; name := "GeForce B"; vram_in_kb := 2097152 |};
    {| physical_gpu := 33; name := "GeForce C"; vram_in_kb := 2097152 |} ].

(** A clock table whose graphics domain holds the largest 32-bit
    frequency. *)
Definition extreme_clocks : NV_GPU_CLOCK_FREQUENCIES :=
  clock_table NV_GPU_CLOCK_FREQUENCIES_CURRENT_FREQ 4294967295 7000000.

End Sample.

(** ** Vocabulary of the properties *)

Module Shape.

Import Text.

(** Digits, a point and two digits: [1815.00]. *)
Fixpoint two_decimals_from (seen_digit : bool) (s : string) : bool :=
  match s with
  | EmptyString => false
  | String c r =>
      if is_digit c then two_decimals_from true r
      else if Ascii.eqb c "." then
        seen_digit &&
        match r with
        | String d1 (String d2 EmptyString) => is_digit d1 && is_digit d2
        | _ => false
        end
      else false
  end.

Definition two_decimals (s : string) : bool := two_decimals_from false s.

(** What is in front of a four-character unit suffix. *)
Definition number_part (s : string) : string := truncate (String.length s - 4) s.

(** A number with two decimals followed by the given unit. *)
Definition scaled_text (unit_suffix s : string) : bool :=
  ends_with unit_suffix s && two_decimals (number_part s).

Definition GiB_text (s : string) : bool := scaled_text " GiB" s.
Definition MiB_text (s : string) : bool := scaled_text " MiB" s.
Definition MHz_text (s : string) : bool := scaled_text " MHz" s.

(** A whole number followed by [" KiB"]. *)
Definition KiB_text (s : string) : bool :=
  ends_with " KiB" s && all_digits (number_part s)
  && negb (String.eqb (number_part s) "").

(** Is [text] the exact quotient [num / den] written with two decimals, the
    last one rounded down or up? *)
Definition rendered_to_two_decimals (num den : Z) (text : string) : bool :=
  let q := 100 * num / den in
  String.eqb text (Printf.fixed2 false q) || String.eqb text (Printf.fixed2 false (q + 1)).

End Shape.

Module Rounding.

(** Where the rational [a / b] lies between [m] and [m + 1]: on [m], below,
    on or above the middle. *)
Definition location_of (a b m : Z) : location :=
  if a - m * b =? 0 then loc_Exact else loc_Inexact (2 * (a - m * b) ?= b).

(** The record [r] of the rounding procedure of [SpecFloat] stands for the
    rational [a / b]: its integer part, and the position of the rest. *)
Definition represents (r : shr_record) (a b : Z) : Prop :=
  0 < b /\ 0 <= shr_m r /\ shr_m r * b <= a < (shr_m r + 1) * b /\
  loc_of_shr_record r = location_of a b (shr_m r).

End Rounding.

Module Observe.

(** How many events of a trace satisfy [p]. *)
Definition occurrences (p : event -> bool) (t : trace) : nat :=
  List.length (filter p t).

Definition stdout_of (t : trace) : list string :=
  flat_map (fun e => match e with Stdout s => [s] | _ => [] end) t.

Definition stderr_of (t : trace) : list string :=
  flat_map (fun e => match e with Stderr s => [s] | _ => [] end) t.

Definition stdout_starting (p : string) (e : event) : bool :=
  match e with
  | Stdout s => Text.starts_with p s
  | _ => false
  end.

(** The chunks of a status report. *)
Definition is_name_line : event -> bool := stdout_starting "GPU: ".
Definition is_graphics_clock_field : event -> bool :=
  stdout_starting "Graphics clock speed: ".
Definition is_memory_clock_field : event -> bool :=
  stdout_starting "Memory clock speed: ".
Definition is_temperature_field : event -> bool := stdout_starting "Temperature: ".
Definition is_fan_field : event -> bool := stdout_starting "Fan speed: ".
Definition is_memory_usage_field : event -> bool := stdout_starting "Memory usage: ".

(** A line on [stderr]. *)
Definition is_diagnostic (e : event) : bool :=
  match e with
  | Stderr s => Text.ends_with newline s
  | _ => false
  end.

(** The four queries of a status report. *)
Inductive metric : Type := CurrentClocks | Thermal | FanSpeed | MemoryUsage.

Definition metric_of (a : api) : option metric :=
  match a with
  | ApiGetAllClockFrequencies _ NV_GPU_CLOCK_FREQUENCIES_CURRENT_FREQ => Some CurrentClocks
  | ApiGetThermalSettings _ => Some Thermal
  | ApiGetTachReading _ => Some FanSpeed
  | ApiGetMemoryInfo _ => Some MemoryUsage
  | _ => None
  end.

Definition metric_eqb (x y : metric) : bool :=
  match x, y with
  | CurrentClocks, CurrentClocks | Thermal, Thermal
  | FanSpeed, FanSpeed | MemoryUsage, MemoryUsage => true
  | _, _ => false
  end.

Definition is_query (m : metric) (e : event) : bool :=
  match e with
  | Called a _ =>
      match metric_of a with
      | Some m' => metric_eqb m m'
      | None => false
      end
  | _ => false
  end.

Definition is_failed_query (m : metric) (e : event) : bool :=
  match e with
  | Called a (Failed _) =>
      match metric_of a with
      | Some m' => metric_eqb m m'
      | None => false
      end
  | _ => false
  end.

(** The two queries that resolve a listed device. *)
Definition is_resolution (e : event) : bool :=
  match e with
  | Called (ApiGetFullName _) _ | Called (ApiGetPhysicalFrameBufferSize _) _ => true
  | _ => false
  end.

Definition is_failed_resolution (e : event) : bool :=
  match e with
  | Called (ApiGetFullName _) (Failed _)
  | Called (ApiGetPhysicalFrameBufferSize _) (Failed _) => true
  | _ => false
  end.

(** Something only a sampling pass does: a query of a live metric, or the
    wait between two passes. *)
Definition is_sampling (e : event) : bool :=
  match e with
  | Called a _ => match metric_of a with Some _ => true | None => false end
  | Slept _ => true
  | _ => false
  end.

Definition is_sleep (e : event) : bool :=
  match e with
  | Slept _ => true
  | _ => false
  end.

(** The release of the driver. *)
Definition is_teardown (e : event) : bool :=
  match e with
  | Called ApiUnload _ => true
  | _ => false
  end.

(** [l1] is [l2] with some elements left out, the others in their order. *)
Fixpoint subsequence (l1 l2 : list Z) : bool :=
  match l1, l2 with
  | [], _ => true
  | _ :: _, [] => false
  | x :: r1, y :: r2 => if x =? y then subsequence r1 r2 else subsequence l1 r2
  end.

End Observe.

(** ** Further vocabulary: reading texts back, and the calls of a trace *)

Module Readback.

(** The value of an uppercase hexadecimal digit. *)
Definition hex_digit_value (c : ascii) : Z :=
  let n := Z.of_nat (nat_of_ascii c) in
  if n <=? 57 then n - 48 else n - 55.

(** The value of a text of hexadecimal digits. *)
Fixpoint hex_value_from (acc : Z) (s : string) : Z :=
  match s with
  | EmptyString => acc
  | String c r => hex_value_from (16 * acc + hex_digit_value c) r
  end.

Definition hex_value (s : string) : Z := hex_value_from 0 s.

End Readback.

Module Calls.

(** The NVAPI calls of a trace, in order. *)
Definition calls_of (t : trace) : list (api * outcome) :=
  flat_map (fun e => match e with Called a o => [(a, o)] | _ => [] end) t.

Definition is_call (p : api -> bool) (e : event) : bool :=
  match e with
  | Called a _ => p a
  | _ => false
  end.

Definition is_failed_call (p : api -> bool) (e : event) : bool :=
  match e with
  | Called a (Failed _) => p a
  | _ => false
  end.

Definition initialize_api (a : api) : bool :=
  match a with ApiInitialize => true | _ => false end.

Definition listing_api (a : api) : bool :=
  match a with ApiEnumPhysicalGPUs => true | _ => false end.

Definition name_api (a : api) : bool :=
  match a with ApiGetFullName _ => true | _ => false end.

Definition size_api (a : api) : bool :=
  match a with ApiGetPhysicalFrameBufferSize _ => true | _ => false end.

Definition base_clock_api (a : api) : bool :=
  match a with
  | ApiGetAllClockFrequencies _ NV_GPU_CLOCK_FREQUENCIES_BASE_CLOCK => true
  | _ => false
  end.

Definition boost_clock_api (a : api) : bool :=
  match a with
  | ApiGetAllClockFrequencies _ NV_GPU_CLOCK_FREQUENCIES_BOOST_CLOCK => true
  | _ => false
  end.

(** A chunk of [stdout] that ends a line. *)
Definition is_stdout_line_end (e : event) : bool :=
  match e with
  | Stdout s => String.eqb s newline
  | _ => false
  end.

(** A tab written on its own, and a divider line. *)
Definition is_tab_chunk (e : event) : bool :=
  match e with
  | Stdout s => String.eqb s tab
  | _ => false
  end.

Definition is_divider (e : event) : bool :=
  match e with
  | Stdout s => String.eqb s divider
  | _ => false
  end.

(** The boost part of a line of the static report. *)
Definition is_boost_note : event -> bool := Observe.stdout_starting " (boost ".

(** The line a report starts with. *)
Definition name_line (gpu : GPUInfo) : event :=
  Stdout ("GPU: " ++ name gpu ++ newline).

(** What the enumeration keeps of one handle when the driver answers
    [name_of] and [size_of] for it. *)
Definition resolved (name_of : NvPhysicalGpuHandle -> NvResult string)
  (size_of : NvPhysicalGpuHandle -> NvResult NvU32) (handle : NvPhysicalGpuHandle)
  : list GPUInfo :=
  match name_of handle, size_of handle with
  | NvOk str, NvOk vram_size_kb =>
      [ {| physical_gpu := handle; name := str; vram_in_kb := vram_size_kb |} ]
  | _, _ => []
  end.

(** The device an NVAPI call is about. *)
Definition api_handle (a : api) : option NvPhysicalGpuHandle :=
  match a with
  | ApiInitialize | ApiUnload | ApiEnumPhysicalGPUs => None
  | ApiGetFullName h | ApiGetPhysicalFrameBufferSize h
  | ApiGetAllClockFrequencies h _ | ApiGetThermalSettings h
  | ApiGetTachReading h | ApiGetMemoryInfo h => Some h
  end.

(** Is the call about one of the devices [handles]? *)
Definition about (handles : list NvPhysicalGpuHandle) (a : api) : bool :=
  match api_handle a with
  | Some h => existsb (Z.eqb h) handles
  | None => false
  end.

Definition live_metric_api (a : api) : bool :=
  match Observe.metric_of a with
  | Some _ => true
  | None => false
  end.

(** What the enumeration of [handles] may do: list, resolve one of the
    listed handles, complain on [stderr]. *)
Definition enumeration_event (handles : list NvPhysicalGpuHandle) (e : event) : bool :=
  match e with
  | Called a _ => listing_api a || ((name_api a || size_api a) && about handles a)
  | Stderr s => Text.starts_with "NvAPI_" s
  | Stdout _ | Slept _ => false
  end.

(** What the static reports of [handles] may do. *)
Definition static_report_event (handles : list NvPhysicalGpuHandle) (e : event) : bool :=
  match e with
  | Called a _ => (base_clock_api a || boost_clock_api a) && about handles a
  | Stderr s => Text.starts_with "NvAPI_GPU_GetAllClockFrequencies failed:" s
  | Stdout _ => true
  | Slept _ => false
  end.

(** What a sampling pass over [handles] may do. *)
Definition pass_event (handles : list NvPhysicalGpuHandle) (e : event) : bool :=
  match e with
  | Called a _ => live_metric_api a && about handles a
  | Stderr s => Text.starts_with "NvAPI_GPU_GetAllClockFrequencies failed:" s
  | Stdout _ => true
  | Slept milliseconds => milliseconds =? 1000
  end.

(** The complaint of [main] about an empty catalog. *)
Definition is_no_gpus_found (e : event) : bool :=
  match e with
  | Stderr s => String.eqb s ("No GPUs found." ++ newline)
  | _ => false
  end.

(** The fields of a status report that are written without their tab: all
    but the fan's. *)
Definition is_tabbed_field (e : event) : bool :=
  Observe.is_graphics_clock_field e || Observe.is_memory_clock_field e
  || Observe.is_temperature_field e || Observe.is_memory_usage_field e.

(** In [t], what comes directly after each of these fields is a tab written
    on its own, and no tab is written on its own anywhere else. *)
Fixpoint tabs_follow_fields (t : trace) : bool :=
  match t with
  | [] => true
  | e :: r =>
      if is_tabbed_field e then
        match r with
        | e' :: r' => is_tab_chunk e' && tabs_follow_fields r'
        | [] => false
        end
      else negb (is_tab_chunk e) && tabs_follow_fields r
  end.

End Calls.

(** ** The states of the driver along a pass *)

Section PassStates.

Context {world : Type} {nv : Provider world}.

(** The state of the driver after the four queries of the status report of
    [h], made one after the other from [w] on. *)
Definition after_status_queries (h : NvPhysicalGpuHandle) (w : world) : world :=
  let w1 := snd (NvAPI_GPU_GetAllClockFrequencies h NV_GPU_CLOCK_FREQUENCIES_CURRENT_FREQ w) in
  let w2 := snd (NvAPI_GPU_GetThermalSettings h w1) in
  let w3 := snd (NvAPI_GPU_GetTachReading h w2) in
  snd (NvAPI_GPU_GetMemoryInfo h w3).

(** The devices of a pass, each with the state of the driver its report
    starts from. *)
Fixpoint report_states (gpus : list GPUInfo) (w : world) : list (GPUInfo * world) :=
  match gpus with
  | [] => []
  | gpu :: rest => (gpu, w) :: report_states rest (after_status_queries (physical_gpu gpu) w)
  end.

End PassStates.

(** * Proofs *)

(** Split the conjunctions of the goal, and nothing else. *)
Ltac split_and := repeat match goal with |- _ /\ _ => split end.

(** The texts inside the chunks of a trace do not matter for counting
    them. *)
Ltac forget_texts :=
  repeat match goal with
  | |- context [ FormatClockSpeed ?a ?b ] => generalize (FormatClockSpeed a b); intro
  | |- context [ FormatSizeKB ?a ] => generalize (FormatSizeKB a); intro
  | |- context [ Text.fmt_d ?a ] => generalize (Text.fmt_d a); intro
  | |- context [ Text.fmt_u ?a ] => generalize (Text.fmt_u a); intro
  | |- context [ Text.hex_digit_at ?a ?i ] => generalize (Text.hex_digit_at a i); intro
  | |- context [ name ?g ] => generalize (name g); intro
  end.

(** ** Texts and decimal numerals *)

Section TextFacts.

Import Text.

Lemma append_assoc (a b c : string) : (a ++ b) ++ c = a ++ (b ++ c).
Proof. induction a as [ | x a IH]; simpl; [reflexivity | rewrite IH; reflexivity]. Qed.

Lemma length_append (a b : string) :
  String.length (a ++ b) = (String.length a + String.length b)%nat.
Proof. induction a as [ | x a IH]; simpl; [reflexivity | rewrite IH; reflexivity]. Qed.

Lemma truncate_fits (n : nat) (s : string) :
  (String.length s <= n)%nat -> truncate n s = s.
Proof.
  revert n; induction s as [ | c s IH]; intros [ | n] Hn; simpl in *; try reflexivity; try lia.
  rewrite IH by lia. reflexivity.
Qed.

Lemma snprintf_s_fits (size : nat) (s : string) :
  (String.length s < size)%nat -> snprintf_s size s = s.
Proof. intros Hs. unfold snprintf_s. apply truncate_fits. lia. Qed.

Lemma truncate_append (a b : string) : truncate (String.length a) (a ++ b) = a.
Proof. induction a as [ | x a IH]; simpl; [destruct b; reflexivity | rewrite IH; reflexivity]. Qed.

Lemma drop_append (a b : string) : drop (String.length a) (a ++ b) = b.
Proof. induction a as [ | x a IH]; simpl; [reflexivity | exact IH]. Qed.

Lemma suffix_of_append (a b : string) :
  drop (String.length (a ++ b) - String.length b) (a ++ b) = b.
Proof.
  rewrite length_append. replace (String.length a + String.length b - String.length b)%nat
    with (String.length a) by lia.
  apply drop_append.
Qed.

(** A text ends with the suffix it was given, and with no other suffix of
    the same length. *)
Lemma ends_with_append (a b suffix : string) :
  String.length suffix = String.length b ->
  ends_with suffix (a ++ b) = String.eqb b suffix.
Proof.
  intros Hl. unfold ends_with. rewrite Hl, suffix_of_append. reflexivity.
Qed.

Lemma number_part_append (a unit_suffix : string) :
  String.length unit_suffix = 4%nat -> Shape.number_part (a ++ unit_suffix) = a.
Proof.
  intros Hl. unfold Shape.number_part. rewrite length_append, Hl.
  replace (String.length a + 4 - 4)%nat with (String.length a) by lia.
  apply truncate_append.
Qed.

Lemma is_digit_digit_char (d : Z) : 0 <= d < 10 -> is_digit (digit_char d) = true.
Proof.
  intros Hd.
  assert (H : d = 0 \/ d = 1 \/ d = 2 \/ d = 3 \/ d = 4 \/ d = 5 \/ d = 6 \/ d = 7 \/ d = 8 \/ d = 9)
    by lia.
  repeat (destruct H as [-> | H]; [reflexivity | ]). subst d. reflexivity.
Qed.

Lemma digit_char_value (d : Z) :
  0 <= d < 10 -> Z.of_nat (nat_of_ascii (digit_char d)) - 48 = d.
Proof.
  intros Hd.
  assert (H : d = 0 \/ d = 1 \/ d = 2 \/ d = 3 \/ d = 4 \/ d = 5 \/ d = 6 \/ d = 7 \/ d = 8 \/ d = 9)
    by lia.
  repeat (destruct H as [-> | H]; [reflexivity | ]). subst d. reflexivity.
Qed.

Lemma dec_digits_length (fuel : nat) (n : Z) (acc : string) :
  (1 <= fuel)%nat ->
  (String.length acc < String.length (dec_digits fuel n acc)
   <= fuel + String.length acc)%nat.
Proof.
  revert n acc; induction fuel as [ | f IH]; intros n acc Hf; [lia | ].
  cbn [dec_digits]. destruct (n <? 10).
  - simpl. lia.
  - destruct f as [ | f].
    + simpl. lia.
    + specialize (IH (n / 10) (String (digit_char (n mod 10)) acc) ltac:(lia)).
      cbn [String.length] in IH. lia.
Qed.

Lemma dec_digits_all_digits (fuel : nat) (n : Z) (acc : string) :
  0 <= n -> all_digits acc = true -> all_digits (dec_digits fuel n acc) = true.
Proof.
  revert n acc; induction fuel as [ | f IH]; intros n acc Hn Hacc; [exact Hacc | ].
  cbn [dec_digits].
  assert (Hd : all_digits (String (digit_char (n mod 10)) acc) = true).
  { cbn [all_digits]. rewrite is_digit_digit_char, Hacc by (apply Z.mod_pos_bound; lia).
    reflexivity. }
  destruct (n <? 10); [exact Hd | ].
  apply IH; [apply Z.div_pos; lia | exact Hd].
Qed.

(** Reading the digits back gives the number, when the fuel suffices. *)
Lemma dec_digits_value (fuel : nat) (n : Z) (acc : string) :
  0 <= n < 10 ^ Z.of_nat fuel ->
  dec_value (dec_digits fuel n acc) = dec_value_from n acc.
Proof.
  revert n acc; induction fuel as [ | f IH]; intros n acc Hn.
  - change (10 ^ Z.of_nat 0) with 1 in Hn. assert (n = 0) by lia. subst n. reflexivity.
  - cbn [dec_digits]. rewrite Nat2Z.inj_succ, Z.pow_succ_r in Hn by lia.
    pose proof (Z.div_mod n 10 ltac:(lia)) as Hdm.
    pose proof (Z.mod_pos_bound n 10 ltac:(lia)) as Hmod.
    destruct (Z.ltb_spec n 10) as [Hlt | Hge].
    + unfold dec_value. cbn [dec_value_from].
      rewrite digit_char_value by assumption.
      rewrite Z.mod_small by lia. f_equal.
    + rewrite IH.
      * cbn [dec_value_from]. rewrite digit_char_value by assumption. f_equal. lia.
      * split; [apply Z.div_pos; lia | ]. apply Z.div_lt_upper_bound; lia.
Qed.

Lemma fuel_suffices (n : Z) : 0 <= n -> n < 10 ^ Z.of_nat (S (Z.to_nat (Z.log2 n))).
Proof.
  intros Hn. destruct (Z.eq_dec n 0) as [-> | Hnz].
  - reflexivity.
  - pose proof (Z.log2_spec n ltac:(lia)) as [_ Hlt].
    pose proof (Z.log2_nonneg n) as Hl.
    rewrite Nat2Z.inj_succ, Z2Nat.id by assumption.
    assert (2 ^ Z.succ (Z.log2 n) <= 10 ^ Z.succ (Z.log2 n))
      by (apply Z.pow_le_mono_l; lia).
    lia.
Qed.

Lemma fmt_u_value (n : Z) : 0 <= n -> dec_value (fmt_u n) = n.
Proof.
  intros Hn. unfold fmt_u. rewrite dec_digits_value; [reflexivity | ].
  split; [assumption | apply fuel_suffices; assumption].
Qed.

Lemma fmt_u_all_digits (n : Z) : 0 <= n -> all_digits (fmt_u n) = true.
Proof. intros Hn. apply dec_digits_all_digits; [assumption | reflexivity]. Qed.

Lemma fmt_u_length (n k : Z) :
  1 <= k -> 0 <= n < 2 ^ k ->
  (1 <= String.length (fmt_u n) <= Z.to_nat k)%nat.
Proof.
  intros Hk Hn. unfold fmt_u.
  pose proof (dec_digits_length (S (Z.to_nat (Z.log2 n))) n "" ltac:(lia)) as H.
  cbn [String.length] in H.
  destruct (Z.eq_dec n 0) as [-> | Hnz].
  - change (Z.log2 0) with 0 in *. simpl in *. lia.
  - assert (Z.log2 n < k) by (apply Z.log2_lt_pow2; lia).
    pose proof (Z.log2_nonneg n). lia.
Qed.

Lemma fmt_u_nonempty (n : Z) : fmt_u n <> "".
Proof.
  unfold fmt_u.
  pose proof (dec_digits_length (S (Z.to_nat (Z.log2 n))) n "" ltac:(lia)) as H.
  intros E. rewrite E in H. simpl in H. lia.
Qed.

End TextFacts.

(** ** Single precision: conversion and division are correctly rounded *)

Section FloatFacts.

Import Rounding.

Lemma iter_pos_nat {A : Type} (f : A -> A) (p : positive) (x : A) :
  iter_pos f p x = Nat.iter (Pos.to_nat p) f x.
Proof.
  revert x; induction p as [p IH | p IH | ]; intro x; cbn [iter_pos].
  - rewrite !IH, Pos2Nat.inj_xI.
    replace (S (2 * Pos.to_nat p)) with (Pos.to_nat p + S (Pos.to_nat p))%nat by lia.
    rewrite Nat.iter_add, Nat.iter_succ_r. reflexivity.
  - rewrite !IH, Pos2Nat.inj_xO.
    replace (2 * Pos.to_nat p)%nat with (Pos.to_nat p + Pos.to_nat p)%nat by lia.
    rewrite Nat.iter_add. reflexivity.
  - reflexivity.
Qed.

Lemma location_of_cases (a b m : Z) :
  0 < b -> m * b <= a < (m + 1) * b ->
  (a = m * b /\ location_of a b m = loc_Exact) \/
  (0 < 2 * (a - m * b) < b /\ location_of a b m = loc_Inexact Lt) \/
  (2 * (a - m * b) = b /\ location_of a b m = loc_Inexact Eq) \/
  (b < 2 * (a - m * b) /\ location_of a b m = loc_Inexact Gt).
Proof.
  intros Hb Hm. unfold location_of.
  destruct (Z.eqb_spec (a - m * b) 0) as [E | E].
  - left. split; [lia | reflexivity].
  - right. destruct (Z.compare_spec (2 * (a - m * b)) b) as [C | C | C].
    + right. left. split; [lia | reflexivity].
    + left. split; [lia | reflexivity].
    + right. right. split; [lia | reflexivity].
Qed.

Lemma shr_1_eq (m : Z) (rb sb : bool) :
  0 <= m ->
  shr_1 (Build_shr_record m rb sb) = Build_shr_record (Z.div2 m) (Z.odd m) (rb || sb).
Proof.
  intros Hm. destruct m as [ | [p | p | ] | p ]; try reflexivity; lia.
Qed.

Lemma shr_1_represents (r : shr_record) (a b : Z) :
  represents r a b -> represents (shr_1 r) a (2 * b).
Proof.
  destruct r as [m rb sb]. unfold represents. cbn [shr_m].
  intros (Hb & Hm & Hab & Hloc).
  rewrite shr_1_eq by assumption. cbn [shr_m].
  pose proof (Z.div2_odd m) as Hdiv. set (h := Z.div2 m) in *.
  destruct (location_of_cases a b m Hb Hab) as [(H1 & L) | [(H1 & L) | [(H1 & L) | (H1 & L)]]];
    rewrite L in Hloc;
    destruct rb, sb; simpl in Hloc; try discriminate; clear Hloc L;
    destruct (Z.odd m); cbn [Z.b2z orb] in *;
    (split; [lia | split; [lia | split; [lia | ]]]);
    unfold location_of, loc_of_shr_record;
    repeat match goal with
    | |- context [ ?x =? 0 ] => destruct (Z.eqb_spec x 0); try lia
    | |- context [ ?x ?= ?y ] => destruct (Z.compare_spec x y); try lia
    end; try reflexivity.
Qed.

Lemma shr_iter_represents (k : nat) (r : shr_record) (a b : Z) :
  represents r a b -> represents (Nat.iter k shr_1 r) a (2 ^ Z.of_nat k * b).
Proof.
  intros Hr. induction k as [ | k IH].
  - change (2 ^ Z.of_nat 0) with 1. rewrite Z.mul_1_l. assumption.
  - rewrite Nat2Z.inj_succ, Z.pow_succ_r by lia. cbn [Nat.iter].
    replace (2 * 2 ^ Z.of_nat k * b) with (2 * (2 ^ Z.of_nat k * b)) by lia.
    apply shr_1_represents. assumption.
Qed.

Lemma shr_represents (r : shr_record) (e n : Z) (a b : Z) :
  0 <= n -> represents r a b ->
  represents (fst (shr r e n)) a (2 ^ n * b) /\ snd (shr r e n) = e + n.
Proof.
  intros Hn Hr. unfold shr. destruct n as [ | p | p ]; try lia.
  - cbn [fst snd]. change (2 ^ 0) with 1. rewrite Z.mul_1_l. split; [assumption | lia].
  - cbn [fst snd]. split; [ | reflexivity].
    rewrite iter_pos_nat. rewrite <- (positive_nat_Z p).
    apply shr_iter_represents. assumption.
Qed.

Lemma digits2_pos_size (p : positive) : digits2_pos p = Pos.size p.
Proof. induction p; simpl; congruence. Qed.

Lemma Zdigits2_log2 (m : Z) : 0 < m -> Zdigits2 m = Z.log2 m + 1.
Proof.
  destruct m as [ | p | p]; try lia. intros _. simpl.
  rewrite digits2_pos_size. destruct p; simpl; lia.
Qed.

Lemma Zdigits2_spec (m : Z) :
  0 < m -> 2 ^ (Zdigits2 m - 1) <= m < 2 ^ Zdigits2 m.
Proof.
  intros Hm. rewrite Zdigits2_log2 by assumption.
  replace (Z.log2 m + 1 - 1) with (Z.log2 m) by lia.
  apply Z.log2_spec. assumption.
Qed.

Lemma Zdigits2_unique (m d : Z) :
  0 < d -> 2 ^ (d - 1) <= m < 2 ^ d -> Zdigits2 m = d.
Proof.
  intros Hd Hm.
  assert (0 < m) by (pose proof (Z.pow_pos_nonneg 2 (d - 1)); lia).
  rewrite Zdigits2_log2 by assumption.
  rewrite (Z.log2_unique m (d - 1)); try lia.
  replace (Z.succ (d - 1)) with d by lia. assumption.
Qed.

Lemma loc_of_shr_record_of_loc (m : Z) (l : location) :
  loc_of_shr_record (shr_record_of_loc m l) = l /\ shr_m (shr_record_of_loc m l) = m.
Proof. destruct l as [ | [ | | ]]; split; reflexivity. Qed.

Lemma round_nearest_even_bound (m a b : Z) :
  0 < b -> m * b <= a < (m + 1) * b ->
  let m' := round_nearest_even m (location_of a b m) in
  m <= m' <= m + 1 /\ - b <= 2 * (m' * b - a) <= b /\ (a = m * b -> m' = m).
Proof.
  intros Hb Hm.
  destruct (location_of_cases a b m Hb Hm) as [(H1 & L) | [(H1 & L) | [(H1 & L) | (H1 & L)]]];
    rewrite L; cbn [round_nearest_even]; try destruct (Z.even m); lia.
Qed.

Lemma binary_round_aux_spec (mx ex : Z) (lx : location) (a b : Z) :
  0 < b -> 0 < mx -> mx * b <= a < (mx + 1) * b -> lx = location_of a b mx ->
  24 <= Zdigits2 mx -> -149 <= Zdigits2 mx + ex - 24 -> Zdigits2 mx + ex <= 127 ->
  exists (mz : positive) (n : Z),
    binary_round_aux 24 128 false mx ex lx = S754_finite false mz (ex + n) /\
    Zdigits2 mx - 24 <= n <= Zdigits2 mx - 23 /\
    2 ^ 23 <= Zpos mz < 2 ^ 24 /\
    - (2 ^ n * b) <= 2 * (Zpos mz * (2 ^ n * b) - a) <= 2 ^ n * b /\
    ((exists k, a = k * (2 ^ (Zdigits2 mx - 24) * b)) ->
     n = Zdigits2 mx - 24 /\ Zpos mz * (2 ^ n * b) = a).
Proof.
  intros Hb Hmx Hab Hlx Hd Hlo Hhi.
  pose proof (Zdigits2_spec mx Hmx) as Hdig.
  set (d := Zdigits2 mx) in *.
  unfold binary_round_aux, shr_fexp. fold d.
  assert (Hf : fexp 24 128 (d + ex) - ex = d - 24).
  { unfold fexp, emin. lia. }
  rewrite Hf.
  assert (Hr0 : represents (shr_record_of_loc mx lx) a b).
  { destruct (loc_of_shr_record_of_loc mx lx) as [E1 E2].
    unfold represents. rewrite E1, E2. repeat split; try lia. assumption. }
  destruct (shr_represents _ ex (d - 24) a b ltac:(lia) Hr0) as [Hr1 He1].
  destruct (shr (shr_record_of_loc mx lx) ex (d - 24)) as [r1 e1].
  cbn [fst snd] in Hr1, He1. subst e1.
  destruct Hr1 as (HB & Hm1 & Hab1 & Hloc1).
  set (m1 := shr_m r1) in *. set (B := 2 ^ (d - 24) * b) in *.
  assert (HP : 0 < 2 ^ (d - 24)) by (apply Z.pow_pos_nonneg; lia).
  assert (Hd1 : 2 ^ d = 2 ^ 24 * 2 ^ (d - 24)).
  { rewrite <- Z.pow_add_r by lia. f_equal. lia. }
  assert (Hd2 : 2 ^ (d - 1) = 2 ^ 23 * 2 ^ (d - 24)).
  { rewrite <- Z.pow_add_r by lia. f_equal. lia. }
  assert (Hm1b : 2 ^ 23 <= m1 < 2 ^ 24).
  { unfold B in Hab1. set (P := 2 ^ (d - 24)) in *.
    rewrite Hd1, Hd2 in Hdig. change (2 ^ 23) with 8388608 in *.
    change (2 ^ 24) with 16777216 in *. nia. }
  rewrite Hloc1.
  pose proof (round_nearest_even_bound m1 a B HB Hab1) as (Hm2 & Hbound & Hexact).
  assert (Hdiv : (exists k, a = k * B) -> a = m1 * B).
  { intros [k Hk]. assert (k = m1) by nia. subst k. exact Hk. }
  set (m2 := round_nearest_even m1 (location_of a B m1)) in *.
  destruct (Z.eq_dec m2 (2 ^ 24)) as [Hcarry | Hnocarry].
  - (* the rounding carried into the next binade *)
    rewrite Hcarry.
    exists (2 ^ 23)%positive, (d - 23).
    change (Zdigits2 (2 ^ 24)) with 25.
    replace (fexp 24 128 (25 + (ex + (d - 24))) - (ex + (d - 24))) with 1
      by (unfold fexp, emin; lia).
    cbn [shr_record_of_loc shr iter_pos shr_1 shr_m].
    change (2 ^ 24) with 16777216. cbn [shr_1 shr_m fst snd].
    replace (ex + (d - 24) + 1 <=? 128 - 24) with true by (symmetry; apply Z.leb_le; lia).
    replace (ex + (d - 24) + 1) with (ex + (d - 23)) by lia.
    split; [reflexivity | ]. split; [lia | ]. split; [cbn; lia | ].
    replace (2 ^ (d - 23)) with (2 * 2 ^ (d - 24))
      by (rewrite <- Z.pow_succ_r by lia; f_equal; lia).
    change (Z.pos (2 ^ 23)) with 8388608.
    rewrite Hcarry in Hbound. change (2 ^ 24) with 16777216 in *.
    split.
    + unfold B in *. set (P := 2 ^ (d - 24)) in *. nia.
    + intros Hk. specialize (Hexact (Hdiv Hk)). lia.
  - assert (Hm2b : 2 ^ 23 <= m2 < 2 ^ 24) by lia.
    assert (Hdm2 : Zdigits2 m2 = 24) by (apply Zdigits2_unique; [lia | exact Hm2b]).
    rewrite Hdm2.
    replace (fexp 24 128 (24 + (ex + (d - 24))) - (ex + (d - 24))) with 0
      by (unfold fexp, emin; lia).
    cbn [shr_record_of_loc shr shr_m fst snd].
    destruct m2 as [ | p | p] eqn:Em2; try (change (2 ^ 23) with 8388608 in *; lia).
    exists p, (d - 24).
    replace (ex + (d - 24) <=? 128 - 24) with true by (symmetry; apply Z.leb_le; lia).
    split; [reflexivity | ]. split; [lia | ]. split; [exact Hm2b | ].
    fold B. split; [lia | ].
    intros Hk. specialize (Hexact (Hdiv Hk)). split; [reflexivity | ].
    rewrite (Hdiv Hk). rewrite <- Hexact. reflexivity.
Qed.

Lemma pos_iter_xO (p k : positive) : Zpos (Pos.iter xO p k) = Zpos p * 2 ^ Zpos k.
Proof.
  induction k as [ | k IH] using Pos.peano_ind.
  - simpl. lia.
  - rewrite Pos.iter_succ, Pos2Z.inj_xO, IH, Pos2Z.inj_succ, Z.pow_succ_r by lia. lia.
Qed.

Lemma new_location_spec (a b : Z) :
  0 < b -> 0 <= a ->
  new_location b (a mod b) = location_of a b (a / b).
Proof.
  intros Hb Ha.
  pose proof (Z.div_mod a b ltac:(lia)) as Hdm.
  pose proof (Z.mod_pos_bound a b Hb) as Hr.
  unfold location_of. replace (a - a / b * b) with (a mod b) by lia.
  unfold new_location, new_location_even, new_location_odd.
  destruct (Z.even b) eqn:Eb.
  - reflexivity.
  - destruct (Z.eqb_spec (a mod b) 0); [reflexivity | ].
    f_equal.
    assert (Hodd : Z.odd b = true) by (rewrite <- Z.negb_even, Eb; reflexivity).
    apply Z.odd_spec in Hodd. destruct Hodd as [k Hk].
    destruct (Z.compare_spec (2 * (a mod b) + 1) b);
      destruct (Z.compare_spec (2 * (a mod b)) b); try reflexivity; lia.
Qed.

Lemma of_u32_spec (v : Z) :
  0 < v < 2 ^ 32 ->
  exists (m : positive) (e : Z),
    Float32.of_u32 v = S754_finite false m e /\
    2 ^ 23 <= Zpos m < 2 ^ 24 /\ -23 <= e <= 9 /\
    (v < 2 ^ 24 -> e <= 0 /\ Zpos m = v * 2 ^ (- e)) /\
    (2 ^ 24 <= v -> 1 <= e /\ - 2 ^ e <= 2 * (Zpos m * 2 ^ e - v) <= 2 ^ e).
Proof.
  intros Hv. destruct v as [ | p | p]; try lia.
  unfold Float32.of_u32, Float32.prec, Float32.emax, binary_normalize, binary_round.
  pose proof (Zdigits2_spec (Zpos p) ltac:(lia)) as Hdig.
  change (Z.pos (digits2_pos p)) with (Zdigits2 (Zpos p)).
  set (d := Zdigits2 (Zpos p)) in *.
  assert (Hd0 : 1 <= d <= 32).
  { assert (0 < d) by (unfold d; simpl; lia). split; [lia | ].
    destruct (Z_le_gt_dec d 32) as [ | Hgt]; [assumption | exfalso].
    assert (2 ^ 32 <= 2 ^ (d - 1)) by (apply Z.pow_le_mono_r; lia). lia. }
  rewrite Z.add_0_r.
  assert (Hf : fexp 24 128 d = d - 24) by (unfold fexp, emin; lia).
  rewrite Hf. unfold shl_align. rewrite Z.sub_0_r.
  destruct (d - 24) as [ | k | k] eqn:Ek.
  - (* exactly 24 digits *)
    destruct (binary_round_aux_spec (Zpos p) 0 loc_Exact (Zpos p) 1) as (mz & n & E & Hn & Hmz & Hb & Hex);
      fold d; try lia.
    { unfold location_of. replace (Z.pos p - Z.pos p * 1) with 0 by lia. reflexivity. }
    fold d in Hex. destruct Hex as [Hn0 Hval].
    { exists (Zpos p). replace (d - 24) with 0 by lia. simpl. lia. }
    exists mz, n. rewrite E. split; [reflexivity | ]. split; [assumption | ].
    assert (Hn00 : n = 0) by lia. clear Hn0 Hn. subst n. change (2 ^ 0) with 1 in *.
    split; [lia | ]. split.
    + intros _. split; [lia | ]. replace (2 ^ (- (0 + 0))) with 1 by reflexivity. lia.
    + intros Hge. replace d with 24 in Hdig by lia. lia.
  - (* more than 24 digits: the low bits are rounded away *)
    destruct (binary_round_aux_spec (Zpos p) 0 loc_Exact (Zpos p) 1) as (mz & n & E & Hn & Hmz & Hb & _);
      fold d; try lia.
    { unfold location_of. replace (Z.pos p - Z.pos p * 1) with 0 by lia. reflexivity. }
    fold d in Hn. exists mz, n. rewrite E. split; [reflexivity | ]. split; [assumption | ].
    split; [lia | ]. split.
    + intros Hlt. assert (2 ^ 24 <= 2 ^ (d - 1)) by (apply Z.pow_le_mono_r; lia). lia.
    + intros _. split; [lia | ]. rewrite !Z.mul_1_r in Hb. simpl. simpl in Hb. lia.
  - (* fewer than 24 digits: the significand is shifted left *)
    set (m0 := Pos.iter xO p k).
    assert (Hm0 : Zpos m0 = Zpos p * 2 ^ Zpos k) by apply pos_iter_xO.
    assert (Hk : Zpos k = 24 - d) by lia.
    assert (Hpow : 2 ^ 24 = 2 ^ d * 2 ^ Zpos k).
    { rewrite <- Z.pow_add_r by lia. f_equal. lia. }
    assert (Hpow' : 2 ^ 23 = 2 ^ (d - 1) * 2 ^ Zpos k).
    { rewrite <- Z.pow_add_r by lia. f_equal. lia. }
    assert (HP : 0 < 2 ^ Zpos k) by (apply Z.pow_pos_nonneg; lia).
    assert (Hm0b : 2 ^ 23 <= Zpos m0 < 2 ^ 24).
    { rewrite Hm0, Hpow, Hpow'. nia. }
    assert (Hdm0 : Zdigits2 (Zpos m0) = 24) by (apply Zdigits2_unique; [lia | exact Hm0b]).
    destruct (binary_round_aux_spec (Zpos m0) (Z.neg k) loc_Exact (Zpos m0) 1) as (mz & n & E & Hn & Hmz & Hb & Hex);
      rewrite ?Hdm0; try lia.
    { unfold location_of. replace (Z.pos m0 - Z.pos m0 * 1) with 0 by lia. reflexivity. }
    rewrite Hdm0 in Hex. destruct Hex as [Hn0 Hval].
    { exists (Zpos m0). change (2 ^ (24 - 24)) with 1. lia. }
    exists mz, (Z.neg k). replace (Z.neg k + n) with (Z.neg k) in E by lia.
    rewrite E. split; [reflexivity | ]. split; [assumption | ].
    split; [lia | ]. split.
    + intros _. split; [lia | ]. subst n. change (2 ^ (24 - 24)) with 1 in Hval.
      change (- Z.neg k) with (Zpos k). lia.
    + intros Hge. assert (2 ^ d <= 2 ^ 24) by (apply Z.pow_le_mono_r; lia). lia.
Qed.

Lemma div_unfold (mx my : positive) (ex ey : Z) :
  2 ^ 23 <= Zpos mx < 2 ^ 24 -> 2 ^ 23 <= Zpos my < 2 ^ 24 -> -125 <= ex - ey ->
  Float32.div (S754_finite false mx ex) (S754_finite false my ey) =
  binary_round_aux 24 128 false (Zpos mx * 2 ^ 24 / Zpos my) (ex - ey - 24)
    (location_of (Zpos mx * 2 ^ 24) (Zpos my) (Zpos mx * 2 ^ 24 / Zpos my)).
Proof.
  intros Hmx Hmy He.
  unfold Float32.div, Float32.prec, Float32.emax, SFdiv, SFdiv_core_binary.
  rewrite (Zdigits2_unique (Zpos mx) 24), (Zdigits2_unique (Zpos my) 24) by (lia || assumption).
  replace (Z.min (fexp 24 128 (24 + ex - (24 + ey))) (ex - ey)) with (ex - ey - 24)
    by (unfold fexp, emin; lia).
  replace (ex - ey - (ex - ey - 24)) with 24 by lia.
  rewrite Z.shiftl_mul_pow2 by lia.
  rewrite <- new_location_spec by lia.
  unfold Z.div, Z.modulo.
  destruct (Z.div_eucl (Z.pos mx * 2 ^ 24) (Z.pos my)) as [q r].
  reflexivity.
Qed.

Lemma div_spec (mx my : positive) (ex ey : Z) :
  2 ^ 23 <= Zpos mx < 2 ^ 24 -> 2 ^ 23 <= Zpos my < 2 ^ 24 -> -100 <= ex - ey <= 100 ->
  exists (mz : positive) (n : Z),
    Float32.div (S754_finite false mx ex) (S754_finite false my ey) =
      S754_finite false mz (ex - ey - 24 + n) /\
    0 <= n <= 2 /\ 2 ^ 23 <= Zpos mz < 2 ^ 24 /\
    - (2 ^ n * Zpos my) <= 2 * (Zpos mz * (2 ^ n * Zpos my) - Zpos mx * 2 ^ 24) <= 2 ^ n * Zpos my.
Proof.
  intros Hmx Hmy He. rewrite div_unfold by (assumption || lia).
  set (a := Zpos mx * 2 ^ 24). set (q := a / Zpos my).
  assert (Ha : 0 <= a) by (unfold a; lia).
  pose proof (Z.div_mod a (Zpos my) ltac:(lia)) as Hdm.
  pose proof (Z.mod_pos_bound a (Zpos my) ltac:(lia)) as Hr. fold q in Hdm.
  assert (Hq : 2 ^ 23 <= q < 2 ^ 25).
  { unfold a in *. change (2 ^ 23) with 8388608 in *. change (2 ^ 24) with 16777216 in *.
    change (2 ^ 25) with 33554432. nia. }
  assert (Hdq : 24 <= Zdigits2 q <= 25).
  { destruct (Z_lt_ge_dec q (2 ^ 24)).
    - rewrite (Zdigits2_unique q 24); [lia | lia | ]. change (24 - 1) with 23. lia.
    - rewrite (Zdigits2_unique q 25); [lia | lia | ]. change (25 - 1) with 24. lia. }
  assert (Hq0 : 0 < q) by (change (2 ^ 23) with 8388608 in *; lia).
  assert (Hqa : q * Zpos my <= a < (q + 1) * Zpos my) by lia.
  destruct (binary_round_aux_spec q (ex - ey - 24) (location_of a (Zpos my) q) a (Zpos my)
              ltac:(lia) Hq0 Hqa eq_refl ltac:(lia) ltac:(lia) ltac:(lia))
    as (mz & n & E & Hn & Hmz & Hb & _).
  exists mz, n. rewrite E. repeat split; try lia.
Qed.

(** Dividing by a power of two only changes the exponent. *)
Lemma div_pow2 (mx : positive) (ex ey : Z) :
  2 ^ 23 <= Zpos mx < 2 ^ 24 -> -100 <= ex - ey <= 100 ->
  Float32.div (S754_finite false mx ex) (S754_finite false (2 ^ 23) ey) =
  S754_finite false mx (ex - ey - 23).
Proof.
  intros Hmx He. rewrite div_unfold by (try assumption; try lia; cbn; lia).
  change (Z.pos (2 ^ 23)) with (2 ^ 23).
  replace (Zpos mx * 2 ^ 24 / 2 ^ 23) with (2 * Zpos mx).
  2: { change (2 ^ 24) with (2 * 2 ^ 23). rewrite Z.mul_assoc, Z.div_mul by lia. lia. }
  assert (Hdq : Zdigits2 (2 * Zpos mx) = 25).
  { apply Zdigits2_unique; [lia | ]. change (2 ^ (25 - 1)) with (2 * 2 ^ 23).
    change (2 ^ 25) with (2 * 2 ^ 24). lia. }
  assert (Hqa : 2 * Zpos mx * 2 ^ 23 <= Zpos mx * 2 ^ 24 < (2 * Zpos mx + 1) * 2 ^ 23).
  { change (2 ^ 24) with 16777216. change (2 ^ 23) with 8388608. lia. }
  destruct (binary_round_aux_spec (2 * Zpos mx) (ex - ey - 24)
              (location_of (Zpos mx * 2 ^ 24) (2 ^ 23) (2 * Zpos mx))
              (Zpos mx * 2 ^ 24) (2 ^ 23)
              ltac:(reflexivity) ltac:(lia) Hqa eq_refl ltac:(lia) ltac:(lia) ltac:(lia))
    as (mz & n & E & Hn & Hmz & Hb & Hex).
  rewrite Hdq in Hex. destruct Hex as [Hn1 Hval].
  { exists (Zpos mx). change (2 ^ (25 - 24) * 2 ^ 23) with (2 ^ 24). reflexivity. }
  rewrite E. subst n. change (2 ^ (25 - 24) * 2 ^ 23) with (2 ^ 24) in Hval.
  assert (Zpos mz = Zpos mx) by (change (2 ^ 24) with 16777216 in Hval; lia).
  f_equal; [congruence | lia].
Qed.

End FloatFacts.

(** ** The ["%.2f"] conversion *)

Section PrintfFacts.

Import Text Printf.

Lemma round_div_bound (ties : tie_break) (a b : Z) :
  0 <= a -> 0 < b ->
  a / b <= round_div ties a b <= a / b + 1 /\
  - b <= 2 * (round_div ties a b * b - a) <= b.
Proof.
  intros Ha Hb. unfold round_div.
  pose proof (Z.div_mod a b ltac:(lia)) as Hdm.
  pose proof (Z.mod_pos_bound a b Hb) as Hr.
  destruct (Z.compare_spec (2 * (a mod b)) b); [destruct ties; [destruct (Z.even (a / b)) | ] | | ];
    nia.
Qed.

Lemma round_div_nonneg (ties : tie_break) (a b : Z) :
  0 <= a -> 0 < b -> 0 <= round_div ties a b.
Proof.
  intros Ha Hb. pose proof (round_div_bound ties a b Ha Hb) as [H _].
  pose proof (Z.div_pos a b Ha Hb). lia.
Qed.

(** The numerator and the denominator can be scaled together. *)
Lemma round_div_scale (ties : tie_break) (a b k : Z) :
  0 < b -> 0 < k -> round_div ties (a * k) (b * k) = round_div ties a b.
Proof.
  intros Hb Hk. unfold round_div.
  rewrite Z.div_mul_cancel_r by lia.
  rewrite Zmult_mod_distr_r.
  replace (2 * (a mod b * k)) with (2 * (a mod b) * k) by lia.
  rewrite Z.mul_comm, (Z.mul_comm b k).
  rewrite <- Zmult_compare_compat_l by lia.
  reflexivity.
Qed.

Lemma hundredths_negative_exponent (ties : tie_break) (m : positive) (e : Z) :
  e < 0 -> hundredths ties m e = round_div ties (100 * Zpos m) (2 ^ (- e)).
Proof. intros He. destruct e; try lia. reflexivity. Qed.

Lemma hundredths_nonneg (ties : tie_break) (m : positive) (e : Z) :
  0 <= hundredths ties m e.
Proof.
  destruct e as [ | p | p]; cbn [hundredths].
  - lia.
  - pose proof (Z.pow_pos_nonneg 2 (Zpos p)). lia.
  - apply round_div_nonneg; [lia | apply Z.pow_pos_nonneg; lia].
Qed.

Lemma two_decimals_from_digits (a : string) (seen : bool) (d1 d2 : ascii) :
  all_digits a = true ->
  Shape.two_decimals_from seen (a ++ String "." (String d1 (String d2 ""))) =
  (seen || negb (String.eqb a "")) && (is_digit d1 && is_digit d2).
Proof.
  revert seen; induction a as [ | c a IH]; intros seen Ha.
  - cbn. rewrite orb_false_r. reflexivity.
  - cbn [all_digits] in Ha. apply andb_prop in Ha. destruct Ha as [Hc Ha].
    cbn [append Shape.two_decimals_from]. rewrite Hc, IH by assumption.
    cbn. rewrite orb_true_r. reflexivity.
Qed.

Lemma fixed2_two_decimals (n : Z) : 0 <= n -> Shape.two_decimals (fixed2 false n) = true.
Proof.
  intros Hn. unfold Shape.two_decimals, fixed2. cbn [append].
  change ("." ++ ?x) with (String "." x).
  rewrite two_decimals_from_digits by (apply fmt_u_all_digits; apply Z.div_pos; lia).
  rewrite !is_digit_digit_char by (apply Z.mod_pos_bound; lia).
  destruct (String.eqb_spec (fmt_u (n / 100)) "") as [E | E]; [ | reflexivity].
  exfalso. exact (fmt_u_nonempty _ E).
Qed.

Lemma fixed2_length (n k : Z) :
  1 <= k -> 0 <= n < 100 * 2 ^ k ->
  (String.length (fixed2 false n) <= Z.to_nat k + 3)%nat.
Proof.
  intros Hk Hn. unfold fixed2. cbn [append]. rewrite length_append.
  assert (Hq : 0 <= n / 100 < 2 ^ k).
  { split; [apply Z.div_pos; lia | apply Z.div_lt_upper_bound; lia]. }
  pose proof (fmt_u_length (n / 100) k Hk Hq). simpl. lia.
Qed.

End PrintfFacts.

(** ** The texts of the formatters *)

Section FormatterFacts.

Context {crt : CRuntime}.

Import Text Printf.

(** A 32-bit size divided by [2^k] and printed with ["%.2f"]: the text is
    the correctly rounded quotient of the single-precision image [v'] of
    [v]. *)
Lemma scaled_by_pow2 (v k : Z) :
  0 < v < 2 ^ 32 -> 10 <= k <= 20 ->
  exists v' : Z,
    (v < 2 ^ 24 -> v' = v) /\ -256 <= v' - v <= 256 /\
    fmt_f2 (Float32.div (Float32.of_u32 v) (S754_finite false (2 ^ 23) (k - 23))) =
    fixed2 false (round_div printf_ties (100 * v') (2 ^ k)).
Proof.
  intros Hv Hk.
  destruct (of_u32_spec v Hv) as (m & e & E & Hm & He & Hsmall & Hbig).
  rewrite E, div_pow2 by (assumption || lia).
  replace (e - (k - 23) - 23) with (e - k) by lia.
  cbn [fmt_f2]. rewrite hundredths_negative_exponent by lia.
  destruct (Z_lt_ge_dec v (2 ^ 24)) as [Hlt | Hge].
  - destruct (Hsmall Hlt) as [He0 Hmv]. exists v.
    split; [reflexivity | ]. split; [lia | ]. f_equal.
    rewrite Hmv.
    replace (- (e - k)) with (k + - e) by lia. rewrite Z.pow_add_r by lia.
    rewrite Z.mul_assoc. apply round_div_scale; apply Z.pow_pos_nonneg; lia.
  - destruct (Hbig ltac:(lia)) as [He1 Hbound]. exists (Zpos m * 2 ^ e).
    split; [lia | ].
    assert (2 ^ e <= 2 ^ 9) by (apply Z.pow_le_mono_r; lia).
    change (2 ^ 9) with 512 in *.
    split; [lia | ]. f_equal.
    replace (2 ^ k) with (2 ^ (- (e - k)) * 2 ^ e)
      by (rewrite <- Z.pow_add_r by lia; f_equal; lia).
    rewrite Z.mul_assoc. symmetry.
    apply round_div_scale; apply Z.pow_pos_nonneg; lia.
Qed.

Lemma scaled_text_fits (v' k : Z) (unit_suffix : string) :
  0 <= v' <= 2 ^ 32 + 256 -> 10 <= k <= 20 -> String.length unit_suffix = 4%nat ->
  snprintf_s 128 (fixed2 false (round_div printf_ties (100 * v') (2 ^ k)) ++ unit_suffix)
  = fixed2 false (round_div printf_ties (100 * v') (2 ^ k)) ++ unit_suffix.
Proof.
  intros Hv Hk Hl. apply snprintf_s_fits. rewrite length_append, Hl.
  assert (HP : 0 < 2 ^ k) by (apply Z.pow_pos_nonneg; lia).
  pose proof (round_div_bound printf_ties (100 * v') (2 ^ k) ltac:(lia) HP) as [[Hlo Hhi] _].
  assert (2 ^ 10 <= 2 ^ k) by (apply Z.pow_le_mono_r; lia).
  assert (100 * v' / 2 ^ k <= 100 * v' / 2 ^ 10).
  { apply Z.div_le_compat_l; lia. }
  assert (100 * v' / 2 ^ 10 < 100 * 2 ^ 23 - 1).
  { apply Z.div_lt_upper_bound; [lia | ]. change (2 ^ 32) with 4294967296 in Hv.
    change (2 ^ 10) with 1024. change (2 ^ 23) with 8388608. lia. }
  pose proof (Z.div_pos (100 * v') (2 ^ k) ltac:(lia) HP).
  assert (Hn : 0 <= round_div printf_ties (100 * v') (2 ^ k) < 100 * 2 ^ 23) by lia.
  pose proof (fixed2_length (round_div printf_ties (100 * v') (2 ^ k)) 23 ltac:(lia) Hn) as Hlen.
  change (Z.to_nat 23) with 23%nat in Hlen. lia.
Qed.

Lemma FormatSizeKB_GiB (v : Z) :
  is_u32 v -> 1048576 < v ->
  exists v' : Z,
    (v < 2 ^ 24 -> v' = v) /\ -256 <= v' - v <= 256 /\
    FormatSizeKB v = fixed2 false (round_div printf_ties (100 * v') 1048576) ++ " GiB".
Proof.
  intros Hv Hgt. unfold is_u32, u32_modulus in Hv. unfold FormatSizeKB.
  replace (v >? 1048576) with true by (symmetry; apply Z.gtb_lt; lia).
  destruct (scaled_by_pow2 v 20 ltac:(lia) ltac:(lia)) as (v' & Hsame & Hnear & E).
  exists v'. split; [assumption | ]. split; [assumption | ].
  change Float32.lit_1048576 with (S754_finite false (2 ^ 23) (20 - 23)).
  rewrite E. apply (scaled_text_fits v' 20 " GiB"); [lia | lia | reflexivity].
Qed.

Lemma FormatSizeKB_MiB (v : Z) :
  1024 < v <= 1048576 ->
  FormatSizeKB v = fixed2 false (round_div printf_ties (100 * v) 1024) ++ " MiB".
Proof.
  intros Hv. unfold FormatSizeKB.
  replace (v >? 1048576) with false by (symmetry; rewrite Z.gtb_ltb; apply Z.ltb_ge; lia).
  replace (v >? 1024) with true by (symmetry; apply Z.gtb_lt; lia).
  destruct (scaled_by_pow2 v 10 ltac:(change (2 ^ 32) with 4294967296; lia) ltac:(lia))
    as (v' & Hsame & Hnear & E).
  rewrite Hsame in E by (change (2 ^ 24) with 16777216; lia).
  change Float32.lit_1024 with (S754_finite false (2 ^ 23) (10 - 23)).
  rewrite E. apply (scaled_text_fits v 10 " MiB"); [ | lia | reflexivity].
  change (2 ^ 32) with 4294967296. lia.
Qed.

Lemma FormatSizeKB_KiB (v : Z) :
  0 <= v <= 1024 -> FormatSizeKB v = fmt_u v ++ " KiB".
Proof.
  intros Hv. unfold FormatSizeKB.
  replace (v >? 1048576) with false by (symmetry; rewrite Z.gtb_ltb; apply Z.ltb_ge; lia).
  replace (v >? 1024) with false by (symmetry; rewrite Z.gtb_ltb; apply Z.ltb_ge; lia).
  unfold to_unsigned, u32_modulus. rewrite Z.mod_small by (change (2 ^ 32) with 4294967296; lia).
  apply snprintf_s_fits. rewrite length_append.
  pose proof (fmt_u_length v 11 ltac:(lia) ltac:(change (2 ^ 11) with 2048; lia)) as Hlen.
  change (Z.to_nat 11) with 11%nat in Hlen. simpl. lia.
Qed.

(** A clock of [freq] kHz divided by [1000.0f] and printed with ["%.2f"]. *)
Lemma clock_text (freq : Z) :
  0 <= freq < 2 ^ 32 ->
  exists n : Z,
    0 <= n < 100 * 2 ^ 26 /\
    fmt_f2 (Float32.div (Float32.of_u32 freq) Float32.lit_1000) = fixed2 false n /\
    (freq < 2 ^ 24 -> -5 <= 10 * n - freq <= 5).
Proof.
  intros Hf. destruct (Z.eq_dec freq 0) as [-> | Hnz].
  - exists 0. split; [cbn; lia | ]. split; [reflexivity | lia].
  - destruct (of_u32_spec freq ltac:(lia)) as (m & e & E & Hm & He & Hsmall & _).
    rewrite E. unfold Float32.lit_1000.
    destruct (div_spec m 16384000 e (-14) Hm ltac:(cbn; lia) ltac:(lia))
      as (mz & n & Ed & Hn & Hmz & Hb).
    rewrite Ed. cbn [fmt_f2].
    set (ez := e - -14 - 24 + n) in *.
    set (N := hundredths printf_ties mz ez).
    exists N. change (2 ^ 23) with 8388608 in *. change (2 ^ 24) with 16777216 in *.
    split; [ | split; [reflexivity | ]].
    + split; [apply hundredths_nonneg | ].
      change (2 ^ 26) with 67108864.
      destruct (Z_lt_ge_dec ez 0) as [Hneg | Hpos].
      * unfold N. rewrite hundredths_negative_exponent by assumption.
        assert (HK : 2 ^ 1 <= 2 ^ (- ez)) by (apply Z.pow_le_mono_r; lia).
        change (2 ^ 1) with 2 in HK.
        pose proof (round_div_bound printf_ties (100 * Zpos mz) (2 ^ (- ez))
                      ltac:(lia) ltac:(lia)) as [[_ Hhi] _].
        assert (100 * Zpos mz / 2 ^ (- ez) <= 100 * Zpos mz / 2)
          by (apply Z.div_le_compat_l; lia).
        assert (100 * Zpos mz / 2 <= 100 * Zpos mz) by (apply Z.div_le_upper_bound; lia).
        lia.
      * assert (Hez : ez = 0 \/ ez = 1) by (unfold ez in *; lia).
        unfold N. destruct Hez as [-> | ->]; cbn [hundredths]; lia.
    + intros Hlt. destruct (Hsmall Hlt) as [He0 Hmv].
      assert (Hneg : ez < 0) by (unfold ez; lia).
      unfold N. rewrite hundredths_negative_exponent by assumption.
      set (K := 2 ^ (- ez)). set (P := 2 ^ (- e)) in *. set (Q := 2 ^ n) in *.
      assert (HKQ : K * Q = 1024 * P).
      { unfold K, Q, P. rewrite <- Z.pow_add_r by (unfold ez; lia).
        change 1024 with (2 ^ 10). rewrite <- Z.pow_add_r by lia.
        f_equal. unfold ez. lia. }
      assert (HQ : 0 < Q) by (apply Z.pow_pos_nonneg; lia).
      assert (HK : 0 < K) by (apply Z.pow_pos_nonneg; lia).
      assert (HfK : freq * K * Q = 1024 * (freq * P)) by (rewrite <- Z.mul_assoc, HKQ; ring).
      rewrite Hmv in Hb.
      assert (E1 : -500 <= 1000 * Zpos mz - freq * K <= 500).
      { change (Z.pos 16384000) with 16384000 in Hb.
        replace (freq * P * 16777216) with (16384 * (freq * K * Q)) in Hb by lia.
        nia. }
      assert (HK500 : 500 <= K) by nia.
      assert (HK512 : 512 <= K).
      { destruct (Z_lt_ge_dec (- ez) 9) as [Hsm | Hbg].
        - assert (K <= 2 ^ 8) by (apply Z.pow_le_mono_r; lia).
          change (2 ^ 8) with 256 in *. lia.
        - change 512 with (2 ^ 9). apply Z.pow_le_mono_r; lia. }
      pose proof (round_div_bound printf_ties (100 * Zpos mz) K ltac:(lia) HK) as [_ H3].
      fold K in H3. set (R := round_div printf_ties (100 * Z.pos mz) K) in *.
      nia.
Qed.

Lemma FormatClockSpeed_absent (frequencies : NV_GPU_CLOCK_FREQUENCIES) (d : NvU32) :
  bIsPresent (domain_at frequencies d) = false ->
  FormatClockSpeed frequencies d = "<not present>".
Proof. intros Hp. unfold FormatClockSpeed. rewrite Hp. reflexivity. Qed.

End FormatterFacts.

(** ** The formatters: C1, C4, C9 *)

Section FormatterTheorems.

Context {crt : CRuntime}.

Import Text Printf Shape.

Lemma scaled_text_intro (n : Z) (unit_suffix : string) :
  0 <= n -> String.length unit_suffix = 4%nat ->
  scaled_text unit_suffix (fixed2 false n ++ unit_suffix) = true.
Proof.
  intros Hn Hl. unfold scaled_text.
  rewrite ends_with_append by reflexivity. rewrite String.eqb_refl.
  rewrite number_part_append by assumption.
  apply fixed2_two_decimals. assumption.
Qed.

Lemma scaled_text_other (a unit_suffix other : string) :
  String.length unit_suffix = String.length other -> other <> unit_suffix ->
  scaled_text unit_suffix (a ++ other) = false.
Proof.
  intros Hl Hne. unfold scaled_text. rewrite ends_with_append by assumption.
  apply String.eqb_neq in Hne. rewrite Hne. reflexivity.
Qed.

Lemma KiB_text_intro (n : Z) : 0 <= n -> KiB_text (fmt_u n ++ " KiB") = true.
Proof.
  intros Hn. unfold KiB_text.
  rewrite ends_with_append by reflexivity.
  rewrite number_part_append by reflexivity.
  rewrite fmt_u_all_digits by assumption.
  destruct (String.eqb_spec (fmt_u n) "") as [E | E]; [ | reflexivity].
  exfalso. exact (fmt_u_nonempty _ E).
Qed.

Lemma KiB_text_other (a other : string) :
  String.length other = 4%nat -> other <> " KiB" -> KiB_text (a ++ other) = false.
Proof.
  intros Hl Hne. unfold KiB_text. rewrite ends_with_append by (symmetry; assumption).
  apply String.eqb_neq in Hne. rewrite Hne. reflexivity.
Qed.

(** A number of hundredths less than one hundredth away from the exact
    quotient is the quotient rounded down or up. *)
Lemma rendered_nearby (num den n : Z) :
  0 <= num -> 0 < den ->
  - den < n * den - 100 * num < den ->
  rendered_to_two_decimals num den (fixed2 false n) = true.
Proof.
  intros Hnum Hden Hn. unfold rendered_to_two_decimals. cbv zeta.
  pose proof (Z.div_mod (100 * num) den ltac:(lia)) as Hdm.
  pose proof (Z.mod_pos_bound (100 * num) den Hden) as Hr.
  set (q := 100 * num / den) in *.
  assert (Hq : n = q \/ n = q + 1) by nia.
  destruct Hq as [-> | ->]; rewrite String.eqb_refl; [reflexivity | apply orb_true_r].
Qed.

(** The three shapes of the text of [FormatSizeKB], decided by the size. *)
Lemma FormatSizeKB_shape (size_in_kb : NvU32) :
  is_u32 size_in_kb ->
  GiB_text (FormatSizeKB size_in_kb) = (1048576 <? size_in_kb) /\
  MiB_text (FormatSizeKB size_in_kb)
    = (1024 <? size_in_kb) && (size_in_kb <=? 1048576) /\
  KiB_text (FormatSizeKB size_in_kb) = (size_in_kb <=? 1024).
Proof.
  intros Hv. pose proof Hv as [Hv0 Hv1].
  assert (Hcases : 1048576 < size_in_kb \/ 1024 < size_in_kb <= 1048576 \/ size_in_kb <= 1024)
    by lia.
  destruct Hcases as [Hc | [Hc | Hc]].
  - destruct (FormatSizeKB_GiB size_in_kb Hv Hc) as (v' & _ & Hnear & E). rewrite E.
    assert (0 <= round_div printf_ties (100 * v') 1048576)
      by (apply round_div_nonneg; lia).
    unfold GiB_text, MiB_text. rewrite scaled_text_intro by (assumption || reflexivity).
    rewrite scaled_text_other by (reflexivity || discriminate).
    rewrite KiB_text_other by (reflexivity || discriminate).
    split_and; symmetry.
    + apply Z.ltb_lt; lia.
    + apply andb_false_iff. right. apply Z.leb_gt; lia.
    + apply Z.leb_gt; lia.
  - rewrite (FormatSizeKB_MiB size_in_kb Hc).
    assert (0 <= round_div printf_ties (100 * size_in_kb) 1024)
      by (apply round_div_nonneg; lia).
    unfold GiB_text, MiB_text. rewrite scaled_text_intro by (assumption || reflexivity).
    rewrite scaled_text_other by (reflexivity || discriminate).
    rewrite KiB_text_other by (reflexivity || discriminate).
    split_and; symmetry.
    + apply Z.ltb_ge; lia.
    + apply andb_true_iff. split; [apply Z.ltb_lt | apply Z.leb_le]; lia.
    + apply Z.leb_gt; lia.
  - rewrite (FormatSizeKB_KiB size_in_kb ltac:(lia)).
    unfold GiB_text, MiB_text. rewrite !scaled_text_other by (reflexivity || discriminate).
    rewrite KiB_text_intro by assumption.
    split_and; symmetry.
    + apply Z.ltb_ge; lia.
    + apply andb_false_iff. left. apply Z.ltb_ge; lia.
    + apply Z.leb_le; lia.
Qed.

Lemma length_scaled (n k : Z) (unit_suffix : string) :
  1 <= k -> 0 <= n < 100 * 2 ^ k -> String.length unit_suffix = 4%nat ->
  (String.length (fixed2 false n ++ unit_suffix) <= Z.to_nat k + 7)%nat.
Proof.
  intros Hk Hn Hl. rewrite length_append, Hl.
  pose proof (fixed2_length n k Hk Hn). lia.
Qed.

(** The text of [FormatSizeKB] is short. *)
Lemma FormatSizeKB_length (size_in_kb : NvU32) :
  is_u32 size_in_kb -> (String.length (FormatSizeKB size_in_kb) <= 30)%nat.
Proof.
  intros Hs. pose proof Hs as [Hs0 Hs1]. unfold u32_modulus in Hs1.
  assert (Hcases : 1048576 < size_in_kb \/ 1024 < size_in_kb <= 1048576 \/ size_in_kb <= 1024)
    by lia.
  destruct Hcases as [Hc | [Hc | Hc]].
  - destruct (FormatSizeKB_GiB size_in_kb Hs Hc) as (v' & _ & Hnear & E). rewrite E.
    assert (Hn : 0 <= round_div printf_ties (100 * v') 1048576 < 100 * 2 ^ 23).
    { pose proof (round_div_bound printf_ties (100 * v') 1048576 ltac:(lia) ltac:(lia))
        as [[Hlo Hhi] _].
      pose proof (Z.div_pos (100 * v') 1048576 ltac:(lia) ltac:(lia)).
      assert (100 * v' / 1048576 < 100 * 2 ^ 23 - 1).
      { apply Z.div_lt_upper_bound; [lia | ]. change (2 ^ 32) with 4294967296 in Hs1.
        change (2 ^ 23) with 8388608. lia. }
      lia. }
    pose proof (length_scaled _ 23 " GiB" ltac:(lia) Hn eq_refl) as Hlen.
    change (Z.to_nat 23) with 23%nat in Hlen. lia.
  - rewrite (FormatSizeKB_MiB size_in_kb Hc).
    assert (Hn : 0 <= round_div printf_ties (100 * size_in_kb) 1024 < 100 * 2 ^ 23).
    { pose proof (round_div_bound printf_ties (100 * size_in_kb) 1024 ltac:(lia) ltac:(lia))
        as [[Hlo Hhi] _].
      pose proof (Z.div_pos (100 * size_in_kb) 1024 ltac:(lia) ltac:(lia)).
      assert (100 * size_in_kb / 1024 < 100 * 2 ^ 23 - 1).
      { apply Z.div_lt_upper_bound; [lia | ]. change (2 ^ 23) with 8388608. lia. }
      lia. }
    pose proof (length_scaled _ 23 " MiB" ltac:(lia) Hn eq_refl) as Hlen.
    change (Z.to_nat 23) with 23%nat in Hlen. lia.
  - rewrite (FormatSizeKB_KiB size_in_kb ltac:(lia)), length_append.
    pose proof (fmt_u_length size_in_kb 11 ltac:(lia) ltac:(change (2 ^ 11) with 2048; lia))
      as Hlen.
    change (Z.to_nat 11) with 11%nat in Hlen. simpl. lia.
Qed.

(** The text of a present clock: a number of hundredths [n], which for a
    frequency below 2^24 kHz is within half a hundredth of the exact
    quotient. *)
Lemma FormatClockSpeed_present (frequencies : NV_GPU_CLOCK_FREQUENCIES) (d : NvU32) :
  bIsPresent (domain_at frequencies d) = true ->
  is_u32 (frequency (domain_at frequencies d)) ->
  exists n : Z,
    0 <= n < 100 * 2 ^ 26 /\
    FormatClockSpeed frequencies d = fixed2 false n ++ " MHz" /\
    fmt_f2 (Float32.div (Float32.of_u32 (frequency (domain_at frequencies d)))
              Float32.lit_1000)
    = fixed2 false n /\
    (frequency (domain_at frequencies d) < 2 ^ 24 ->
     -5 <= 10 * n - frequency (domain_at frequencies d) <= 5).
Proof.
  intros Hp Hf. destruct (clock_text _ Hf) as (n & Hn & E & Hacc).
  exists n. split; [exact Hn | ]. split; [ | split; [exact E | exact Hacc]].
  unfold FormatClockSpeed. rewrite Hp. cbn [negb]. rewrite E.
  apply snprintf_s_fits.
  pose proof (length_scaled n 26 " MHz" ltac:(lia) Hn eq_refl) as Hlen.
  change (Z.to_nat 26) with 26%nat in Hlen. lia.
Qed.

(** C1. [FormatSizeKB] chooses its unit by strict comparisons: the text is
    a number with two decimals and the unit GiB exactly when the size
    exceeds 1,048,576 KiB, a number with two decimals and the unit MiB
    exactly when it exceeds 1,024 KiB without exceeding 1,048,576 KiB, and
    a whole number of KiB exactly when it is at most 1,024 KiB.  The number
    printed is the size divided by 1,048,576 (resp. 1,024) with two
    decimals, the last one rounded down or up; in KiB it is the size
    itself.  1,048,576 KiB itself is printed in MiB; 2,097,152 gives
    2.00 GiB, 2,048 gives 2.00 MiB and 512 gives 512 KiB. *)
Theorem FormatSizeKB_tiers (size_in_kb : NvU32) :
  is_u32 size_in_kb ->
  (GiB_text (FormatSizeKB size_in_kb) = true <-> 1048576 < size_in_kb) /\
  (MiB_text (FormatSizeKB size_in_kb) = true <-> 1024 < size_in_kb <= 1048576) /\
  (KiB_text (FormatSizeKB size_in_kb) = true <-> size_in_kb <= 1024) /\
  (1048576 < size_in_kb ->
   rendered_to_two_decimals size_in_kb 1048576 (number_part (FormatSizeKB size_in_kb))
   = true /\
   exists v' : Z,
     (size_in_kb < 2 ^ 24 -> v' = size_in_kb) /\ -256 <= v' - size_in_kb <= 256 /\
     FormatSizeKB size_in_kb
     = fixed2 false (round_div printf_ties (100 * v') 1048576) ++ " GiB") /\
  (1024 < size_in_kb <= 1048576 ->
   rendered_to_two_decimals size_in_kb 1024 (number_part (FormatSizeKB size_in_kb))
   = true /\
   FormatSizeKB size_in_kb
   = fixed2 false (round_div printf_ties (100 * size_in_kb) 1024) ++ " MiB") /\
  (size_in_kb <= 1024 ->
   FormatSizeKB size_in_kb = fmt_u size_in_kb ++ " KiB" /\
   dec_value (fmt_u size_in_kb) = size_in_kb) /\
  FormatSizeKB 1048576 = "1024.00 MiB" /\
  FormatSizeKB 2097152 = "2.00 GiB" /\
  FormatSizeKB 2048 = "2.00 MiB" /\
  FormatSizeKB 512 = "512 KiB".
Proof.
  intros Hv. pose proof Hv as [Hv0 Hv1].
  destruct (FormatSizeKB_shape size_in_kb Hv) as (SG & SM & SK).
  split; [rewrite SG; apply Z.ltb_lt | ].
  split; [rewrite SM, andb_true_iff, Z.ltb_lt, Z.leb_le; reflexivity | ].
  split; [rewrite SK; apply Z.leb_le | ].
  split.
  { intros Hc. destruct (FormatSizeKB_GiB size_in_kb Hv Hc) as (v' & Hsame & Hnear & E).
    split; [ | exists v'; split; [exact Hsame | split; [exact Hnear | exact E]]].
    rewrite E, number_part_append by reflexivity.
    apply rendered_nearby; [lia | lia | ].
    pose proof (round_div_bound printf_ties (100 * v') 1048576 ltac:(lia) ltac:(lia))
      as [_ Hb].
    lia. }
  split.
  { intros Hc. split; [ | apply FormatSizeKB_MiB; assumption].
    rewrite (FormatSizeKB_MiB size_in_kb Hc), number_part_append by reflexivity.
    apply rendered_nearby; [lia | lia | ].
    pose proof (round_div_bound printf_ties (100 * size_in_kb) 1024 ltac:(lia) ltac:(lia))
      as [_ Hb].
    lia. }
  split; [intros Hc; split; [apply FormatSizeKB_KiB; lia | apply fmt_u_value; lia] | ].
  split_and; vm_compute; reflexivity.
Qed.

(** C4, as the code has it.  An absent domain is printed as
    ["<not present>"] whatever its frequency field holds.  A present domain
    is printed as a number with two decimals followed by [" MHz"]; the
    number is the single-precision quotient of the frequency, converted to
    single precision, by 1000.  Below 2^24 kHz it is the exact quotient
    rounded to hundredths: it differs from frequency / 1000 by at most half
    a hundredth.  1,815,000 kHz is printed as 1815.00 MHz. *)
Theorem FormatClockSpeed_single_precision
  (frequencies : NV_GPU_CLOCK_FREQUENCIES) (d : NvU32) :
  let entry := domain_at frequencies d in
  (bIsPresent entry = false -> FormatClockSpeed frequencies d = "<not present>") /\
  (bIsPresent entry = true -> is_u32 (frequency entry) ->
   exists n : Z,
     0 <= n /\
     FormatClockSpeed frequencies d = fixed2 false n ++ " MHz" /\
     MHz_text (FormatClockSpeed frequencies d) = true /\
     fmt_f2 (Float32.div (Float32.of_u32 (frequency entry)) Float32.lit_1000)
     = fixed2 false n /\
     (frequency entry < 2 ^ 24 ->
      -5 <= 10 * n - frequency entry <= 5 /\
      rendered_to_two_decimals (frequency entry) 1000 (fixed2 false n) = true)) /\
  FormatClockSpeed
    (Sample.clock_table NV_GPU_CLOCK_FREQUENCIES_CURRENT_FREQ 1815000 7000000) 0
  = "1815.00 MHz".
Proof.
  intros entry. split; [apply FormatClockSpeed_absent | ]. split.
  - intros Hp Hf. unfold entry in *.
    destruct (FormatClockSpeed_present frequencies d Hp Hf) as (n & Hn & Etext & E & Hacc).
    exists n. split; [lia | ]. split; [exact Etext | ].
    split; [rewrite Etext; apply scaled_text_intro; [lia | reflexivity] | ].
    split; [exact E | ].
    intros Hlt. specialize (Hacc Hlt). split; [exact Hacc | ].
    apply rendered_nearby; [apply Hf | lia | lia].
  - vm_compute. reflexivity.
Qed.

(** C9. The formatters are total and stable: for every 32-bit input the
    text is well formed and short (the 128-byte buffer never overflows and
    nothing is cut off), formatting the same input again gives the same
    text, and nothing of the outside world is read or changed. *)
Theorem formatters_total_and_stable
  (size_in_kb : NvU32) (frequencies : NV_GPU_CLOCK_FREQUENCIES) (d : NvU32) :
  is_u32 size_in_kb -> is_u32 (frequency (domain_at frequencies d)) ->
  (String.length (FormatSizeKB size_in_kb) <= 30)%nat /\
  GiB_text (FormatSizeKB size_in_kb) || MiB_text (FormatSizeKB size_in_kb)
    || KiB_text (FormatSizeKB size_in_kb) = true /\
  (String.length (FormatClockSpeed frequencies d) <= 33)%nat /\
  (FormatClockSpeed frequencies d = "<not present>"
   \/ MHz_text (FormatClockSpeed frequencies d) = true) /\
  (forall size', size' = size_in_kb -> FormatSizeKB size' = FormatSizeKB size_in_kb) /\
  (forall frequencies' d',
     domain_at frequencies' d' = domain_at frequencies d ->
     FormatClockSpeed frequencies' d' = FormatClockSpeed frequencies d) /\
  (forall (world : Type) (w : world),
     ret (FormatSizeKB size_in_kb) w = (FormatSizeKB size_in_kb, w, []) /\
     ret (FormatClockSpeed frequencies d) w = (FormatClockSpeed frequencies d, w, [])).
Proof.
  intros Hs Hf.
  destruct (FormatSizeKB_shape size_in_kb Hs) as (SG & SM & SK).
  split; [apply FormatSizeKB_length; assumption | ].
  split.
  { rewrite SG, SM, SK.
    destruct (Z.ltb_spec 1048576 size_in_kb); [reflexivity | ].
    destruct (Z.ltb_spec 1024 size_in_kb); destruct (Z.leb_spec size_in_kb 1048576);
      destruct (Z.leb_spec size_in_kb 1024); try reflexivity; lia. }
  split; [ | split; [ | split; [ | split]]].
  - destruct (bIsPresent (domain_at frequencies d)) eqn:Hp.
    + destruct (FormatClockSpeed_present frequencies d Hp Hf) as (n & Hn & Etext & _).
      rewrite Etext.
      pose proof (length_scaled n 26 " MHz" ltac:(lia) Hn eq_refl) as Hlen.
      change (Z.to_nat 26) with 26%nat in Hlen. lia.
    + rewrite FormatClockSpeed_absent by assumption. simpl. lia.
  - destruct (bIsPresent (domain_at frequencies d)) eqn:Hp.
    + right.
      destruct (FormatClockSpeed_present frequencies d Hp Hf) as (n & Hn & Etext & _).
      rewrite Etext. apply scaled_text_intro; [lia | reflexivity].
    + left. apply FormatClockSpeed_absent. assumption.
  - intros size' ->. reflexivity.
  - intros frequencies' d' E. unfold FormatClockSpeed. rewrite E. reflexivity.
  - intros world w. split; reflexivity.
Qed.

End FormatterTheorems.

(** ** Traces of the reporter *)

Section TraceFacts.

Context {world : Type} {nv : Provider world} {crt : CRuntime}.

Import Observe.

Lemma run_bind {A B : Type} (m : M A) (k : A -> M B) (w : world) :
  bind m k w =
  (result_of (k (result_of m w)) (world_after m w),
   world_after (k (result_of m w)) (world_after m w),
   (trace_of m w ++ trace_of (k (result_of m w)) (world_after m w))%list).
Proof.
  unfold bind, result_of, world_after, trace_of.
  destruct (m w) as [[a w1] t1]. cbn [fst snd].
  destruct (k a w1) as [[b w2] t2]. reflexivity.
Qed.

Lemma trace_of_bind {A B : Type} (m : M A) (k : A -> M B) (w : world) :
  trace_of (bind m k) w =
  (trace_of m w ++ trace_of (k (result_of m w)) (world_after m w))%list.
Proof. unfold trace_of at 1. rewrite run_bind. reflexivity. Qed.

Lemma result_of_bind {A B : Type} (m : M A) (k : A -> M B) (w : world) :
  result_of (bind m k) w = result_of (k (result_of m w)) (world_after m w).
Proof. unfold result_of at 1. rewrite run_bind. reflexivity. Qed.

Lemma world_after_bind {A B : Type} (m : M A) (k : A -> M B) (w : world) :
  world_after (bind m k) w = world_after (k (result_of m w)) (world_after m w).
Proof. unfold world_after at 1. rewrite run_bind. reflexivity. Qed.

Lemma occurrences_app (p : event -> bool) (t1 t2 : trace) :
  occurrences p (t1 ++ t2)%list = (occurrences p t1 + occurrences p t2)%nat.
Proof. unfold occurrences. rewrite filter_app, length_app. reflexivity. Qed.

Lemma occurrences_le_length (p : event -> bool) (t : trace) :
  (occurrences p t <= List.length t)%nat.
Proof. unfold occurrences. apply filter_length_le. Qed.

Lemma trace_of_for_each_cons {A : Type} (x : A) (l : list A) (body : A -> M unit) (w : world) :
  trace_of (for_each (x :: l) body) w =
  (trace_of (body x) w ++ trace_of (for_each l body) (world_after (body x) w))%list.
Proof. cbn [for_each]. rewrite trace_of_bind. reflexivity. Qed.

Lemma PrintGPUCurrentClocks_trace (gpu : GPUInfo) (w : world) :
  trace_of (PrintGPUCurrentClocks gpu) w =
  match fst (NvAPI_GPU_GetAllClockFrequencies (physical_gpu gpu)
               NV_GPU_CLOCK_FREQUENCIES_CURRENT_FREQ w) with
  | NvErr status =>
      [ Called (ApiGetAllClockFrequencies (physical_gpu gpu)
                  NV_GPU_CLOCK_FREQUENCIES_CURRENT_FREQ) (Failed status);
        Stderr (PrintError_buf status "NvAPI_GPU_GetAllClockFrequencies failed:") ]
  | NvOk frequencies =>
      [ Called (ApiGetAllClockFrequencies (physical_gpu gpu)
                  NV_GPU_CLOCK_FREQUENCIES_CURRENT_FREQ) Succeeded;
        Stdout ("Graphics clock speed: "
                ++ FormatClockSpeed frequencies NVAPI_GPU_PUBLIC_CLOCK_GRAPHICS);
        Stdout tab;
        Stdout ("Memory clock speed: "
                ++ FormatClockSpeed frequencies NVAPI_GPU_PUBLIC_CLOCK_MEMORY);
        Stdout tab ]
  end.
Proof.
  unfold PrintGPUCurrentClocks, PrintError, trace_of, bind, call, emit.
  destruct (NvAPI_GPU_GetAllClockFrequencies _ _ w) as [[frequencies | status] w1];
    reflexivity.
Qed.

Lemma PrintGPUCurrentTemperature_trace (gpu : GPUInfo) (w : world) :
  trace_of (PrintGPUCurrentTemperature gpu) w =
  match fst (NvAPI_GPU_GetThermalSettings (physical_gpu gpu) w) with
  | NvErr status =>
      [ Called (ApiGetThermalSettings (physical_gpu gpu)) (Failed status);
        Stderr (PrintError_buf status "NvAPI_GPU_GetAllClockFrequencies failed:") ]
  | NvOk thermal =>
      if count thermal >? 0 then
        [ Called (ApiGetThermalSettings (physical_gpu gpu)) Succeeded;
          Stdout ("Temperature: "
                  ++ Text.fmt_d (to_int (currentTemp (nth 0 (sensor thermal) zero_sensor)))
                  ++ "C");
          Stdout tab ]
      else [ Called (ApiGetThermalSettings (physical_gpu gpu)) Succeeded ]
  end.
Proof.
  unfold PrintGPUCurrentTemperature, PrintError, trace_of, bind, call, emit, ret.
  destruct (NvAPI_GPU_GetThermalSettings _ w) as [[thermal | status] w1]; cbn [fst];
    [destruct (count thermal >? 0) | ]; reflexivity.
Qed.

Lemma PrintGPUCurrentFanSpeed_trace (gpu : GPUInfo) (w : world) :
  trace_of (PrintGPUCurrentFanSpeed gpu) w =
  [ Called (ApiGetTachReading (physical_gpu gpu))
      (outcome_of (fst (NvAPI_GPU_GetTachReading (physical_gpu gpu) w)));
    Stdout ("Fan speed: "
            ++ Text.fmt_u (to_unsigned
                 match fst (NvAPI_GPU_GetTachReading (physical_gpu gpu) w) with
                 | NvOk value => value
                 | NvErr _ => 0
                 end)
            ++ " RPM" ++ tab) ].
Proof.
  unfold PrintGPUCurrentFanSpeed, trace_of, bind, call, emit.
  destruct (NvAPI_GPU_GetTachReading _ w) as [[value | status] w1]; reflexivity.
Qed.

Lemma PrintGPUCurrentMemoryUsage_trace (gpu : GPUInfo) (w : world) :
  trace_of (PrintGPUCurrentMemoryUsage gpu) w =
  match fst (NvAPI_GPU_GetMemoryInfo (physical_gpu gpu) w) with
  | NvErr status =>
      [ Called (ApiGetMemoryInfo (physical_gpu gpu)) (Failed status);
        Stderr (PrintError_buf status "NvAPI_GPU_GetAllClockFrequencies failed:") ]
  | NvOk memory_info =>
      [ Called (ApiGetMemoryInfo (physical_gpu gpu)) Succeeded;
        Stdout ("Memory usage: "
                ++ FormatSizeKB (u32_sub (vram_in_kb gpu)
                                   (curAvailableDedicatedVideoMemory memory_info))
                ++ " / " ++ FormatSizeKB (vram_in_kb gpu));
        Stdout tab ]
  end.
Proof.
  unfold PrintGPUCurrentMemoryUsage, PrintError, trace_of, bind, call, emit.
  destruct (NvAPI_GPU_GetMemoryInfo _ w) as [[memory_info | status] w1]; reflexivity.
Qed.

(** A status report is the header, the four metrics one after the other,
    whatever each of them did, and the footer. *)
Lemma PrintGPUStatus_trace (gpu : GPUInfo) (w : world) :
  let w1 := world_after (PrintGPUCurrentClocks gpu) w in
  let w2 := world_after (PrintGPUCurrentTemperature gpu) w1 in
  let w3 := world_after (PrintGPUCurrentFanSpeed gpu) w2 in
  trace_of (PrintGPUStatus gpu) w =
  ([ Stdout ("GPU: " ++ name gpu ++ newline); Stdout divider ]
   ++ trace_of (PrintGPUCurrentClocks gpu) w
   ++ [ Stdout newline ]
   ++ trace_of (PrintGPUCurrentTemperature gpu) w1
   ++ trace_of (PrintGPUCurrentFanSpeed gpu) w2
   ++ [ Stdout newline ]
   ++ trace_of (PrintGPUCurrentMemoryUsage gpu) w3
   ++ [ Stdout newline; Stdout divider; Stdout newline ])%list.
Proof.
  unfold PrintGPUStatus, trace_of, world_after, bind, emit.
  destruct (PrintGPUCurrentClocks gpu w) as [[u1 w1] t1]. cbn [fst snd].
  destruct (PrintGPUCurrentTemperature gpu w1) as [[u2 w2] t2]. cbn [fst snd].
  destruct (PrintGPUCurrentFanSpeed gpu w2) as [[u3 w3] t3]. cbn [fst snd].
  destruct (PrintGPUCurrentMemoryUsage gpu w3) as [[u4 w4] t4]. reflexivity.
Qed.

Lemma status_report_counts (gpu : GPUInfo) (w : world) :
  let t := trace_of (PrintGPUStatus gpu) w in
  occurrences is_name_line t = 1%nat /\
  (forall m, occurrences (is_query m) t = 1%nat) /\
  occurrences is_fan_field t = 1%nat /\
  (occurrences is_graphics_clock_field t
   + occurrences (is_failed_query CurrentClocks) t = 1)%nat /\
  occurrences is_memory_clock_field t = occurrences is_graphics_clock_field t /\
  (occurrences is_temperature_field t
   + occurrences (is_failed_query Thermal) t <= 1)%nat /\
  (occurrences is_memory_usage_field t
   + occurrences (is_failed_query MemoryUsage) t = 1)%nat /\
  occurrences is_diagnostic t =
    (occurrences (is_failed_query CurrentClocks) t
     + occurrences (is_failed_query Thermal) t
     + occurrences (is_failed_query MemoryUsage) t)%nat.
Proof.
  intros t.
  assert (E : t = trace_of (PrintGPUStatus gpu) w) by reflexivity.
  clearbody t. revert E.
  rewrite PrintGPUStatus_trace. cbv zeta.
  rewrite PrintGPUCurrentClocks_trace, PrintGPUCurrentTemperature_trace,
    PrintGPUCurrentFanSpeed_trace, PrintGPUCurrentMemoryUsage_trace.
  destruct (fst (NvAPI_GPU_GetAllClockFrequencies _ _ _)) as [frequencies | s1];
    (destruct (fst (NvAPI_GPU_GetThermalSettings _ _)) as [thermal | s2];
      [destruct (count thermal >? 0) | ]);
    destruct (fst (NvAPI_GPU_GetTachReading _ _)) as [value | s3];
    destruct (fst (NvAPI_GPU_GetMemoryInfo _ _)) as [memory_info | s4];
    unfold PrintError_buf, Text.fmt_08X; forget_texts; intros ->;
    split_and; try (intros []); vm_compute; try reflexivity; lia.
Qed.

Lemma world_after_PrintGPUCurrentClocks (gpu : GPUInfo) (w : world) :
  world_after (PrintGPUCurrentClocks gpu) w
  = snd (NvAPI_GPU_GetAllClockFrequencies (physical_gpu gpu)
           NV_GPU_CLOCK_FREQUENCIES_CURRENT_FREQ w).
Proof.
  unfold PrintGPUCurrentClocks, PrintError, world_after, bind, call, emit.
  destruct (NvAPI_GPU_GetAllClockFrequencies _ _ w) as [[f | status] w1]; reflexivity.
Qed.

Lemma world_after_PrintGPUCurrentTemperature (gpu : GPUInfo) (w : world) :
  world_after (PrintGPUCurrentTemperature gpu) w
  = snd (NvAPI_GPU_GetThermalSettings (physical_gpu gpu) w).
Proof.
  unfold PrintGPUCurrentTemperature, PrintError, world_after, bind, call, emit, ret.
  destruct (NvAPI_GPU_GetThermalSettings _ w) as [[thermal | status] w1];
    [destruct (count thermal >? 0) | ]; reflexivity.
Qed.

Lemma world_after_PrintGPUCurrentFanSpeed (gpu : GPUInfo) (w : world) :
  world_after (PrintGPUCurrentFanSpeed gpu) w
  = snd (NvAPI_GPU_GetTachReading (physical_gpu gpu) w).
Proof.
  unfold PrintGPUCurrentFanSpeed, world_after, bind, call, emit.
  destruct (NvAPI_GPU_GetTachReading _ w) as [[value | status] w1]; reflexivity.
Qed.

Lemma world_after_PrintGPUCurrentMemoryUsage (gpu : GPUInfo) (w : world) :
  world_after (PrintGPUCurrentMemoryUsage gpu) w
  = snd (NvAPI_GPU_GetMemoryInfo (physical_gpu gpu) w).
Proof.
  unfold PrintGPUCurrentMemoryUsage, PrintError, world_after, bind, call, emit.
  destruct (NvAPI_GPU_GetMemoryInfo _ w) as [[info | status] w1]; reflexivity.
Qed.

Lemma world_after_PrintGPUStatus (gpu : GPUInfo) (w : world) :
  world_after (PrintGPUStatus gpu) w
  = world_after (PrintGPUCurrentMemoryUsage gpu)
      (world_after (PrintGPUCurrentFanSpeed gpu)
         (world_after (PrintGPUCurrentTemperature gpu)
            (world_after (PrintGPUCurrentClocks gpu) w))).
Proof.
  unfold PrintGPUStatus, world_after, bind, emit.
  destruct (PrintGPUCurrentClocks gpu w) as [[u1 w1] t1]. cbn [fst snd].
  destruct (PrintGPUCurrentTemperature gpu w1) as [[u2 w2] t2]. cbn [fst snd].
  destruct (PrintGPUCurrentFanSpeed gpu w2) as [[u3 w3] t3]. cbn [fst snd].
  destruct (PrintGPUCurrentMemoryUsage gpu w3) as [[u4 w4] t4]. reflexivity.
Qed.

Lemma world_after_PrintGPUStatus_queries (gpu : GPUInfo) (w : world) :
  world_after (PrintGPUStatus gpu) w = after_status_queries (physical_gpu gpu) w.
Proof.
  rewrite world_after_PrintGPUStatus, world_after_PrintGPUCurrentMemoryUsage,
    world_after_PrintGPUCurrentFanSpeed, world_after_PrintGPUCurrentTemperature,
    world_after_PrintGPUCurrentClocks.
  reflexivity.
Qed.

(** The diagnostic of the three metrics that have one: the message has no
    space in front of ["Error"]. *)
Lemma report_diagnostic_text (status : NvAPI_Status) :
  PrintError_buf status "NvAPI_GPU_GetAllClockFrequencies failed:"
  = "NvAPI_GPU_GetAllClockFrequencies failed:Error 0x"
    ++ Text.fmt_08X (to_unsigned status) ++ newline.
Proof.
  unfold PrintError_buf. rewrite snprintf_s_fits.
  - reflexivity.
  - rewrite length_append. unfold Text.fmt_08X. cbn. lia.
Qed.

End TraceFacts.

(** ** The reporter: C2, C5, C7, C10 *)

Section ReporterTheorems.

Context {world : Type} {nv : Provider world} {crt : CRuntime}.

Import Observe.

(** C2. A status report shows of each metric what the driver answered for
    it, and nothing of the others decides it.  Its output is the name line
    and the divider; the two clock fields, each with its tab, when the
    query of the current clocks succeeded; a line end; the temperature and
    its tab when the thermal query succeeded with a sensor; the fan field;
    a line end; the memory field and its tab when the memory query
    succeeded; a line end, the divider and an empty line.  Each failed
    query of the clocks, the thermal settings or the memory puts one line
    on [stderr], the same wording for the three, with the status in
    hexadecimal.  A pass is the reports of its devices one after the other
    in catalog order, each made from the state the one before left.  So
    every device has its name line and each metric is queried once per
    device; and when exactly one query of the current clocks fails, the
    pass has as many name lines as devices and one clock field less. *)
Theorem pass_survives_metric_failures (gpus : list GPUInfo) (w : world) :
  let t := trace_of (for_each gpus PrintGPUStatus) w in
  let n := List.length gpus in
  (forall (gpu : GPUInfo) (w0 : world),
     let h := physical_gpu gpu in
     let c1 := NvAPI_GPU_GetAllClockFrequencies h NV_GPU_CLOCK_FREQUENCIES_CURRENT_FREQ w0 in
     let c2 := NvAPI_GPU_GetThermalSettings h (snd c1) in
     let c3 := NvAPI_GPU_GetTachReading h (snd c2) in
     let c4 := NvAPI_GPU_GetMemoryInfo h (snd c3) in
     let diagnostic := fun (A : Type) (r : NvResult A) =>
       match r with
       | NvErr status =>
           [ "NvAPI_GPU_GetAllClockFrequencies failed:Error 0x"
             ++ Text.fmt_08X (to_unsigned status) ++ newline ]
       | NvOk _ => []
       end in
     stdout_of (trace_of (PrintGPUStatus gpu) w0) =
       ([ ("GPU: " ++ name gpu ++ newline)%string; divider ]
        ++ match fst c1 with
           | NvOk frequencies =>
               [ ("Graphics clock speed: "
                  ++ FormatClockSpeed frequencies NVAPI_GPU_PUBLIC_CLOCK_GRAPHICS)%string;
                 tab;
                 ("Memory clock speed: "
                  ++ FormatClockSpeed frequencies NVAPI_GPU_PUBLIC_CLOCK_MEMORY)%string;
                 tab ]
           | NvErr _ => []
           end
        ++ [ newline ]
        ++ match fst c2 with
           | NvOk thermal =>
               if count thermal >? 0 then
                 [ ("Temperature: "
                    ++ Text.fmt_d (to_int (currentTemp (nth 0 (sensor thermal) zero_sensor)))
                    ++ "C")%string;
                   tab ]
               else []
           | NvErr _ => []
           end
        ++ [ ("Fan speed: "
              ++ Text.fmt_u (to_unsigned match fst c3 with
                                         | NvOk value => value
                                         | NvErr _ => 0
                                         end)
              ++ " RPM" ++ tab)%string;
             newline ]
        ++ match fst c4 with
           | NvOk memory_info =>
               [ ("Memory usage: "
                  ++ FormatSizeKB (u32_sub (vram_in_kb gpu)
                                     (curAvailableDedicatedVideoMemory memory_info))
                  ++ " / " ++ FormatSizeKB (vram_in_kb gpu))%string;
                 tab ]
           | NvErr _ => []
           end
        ++ [ newline; divider; newline ])%list /\
     stderr_of (trace_of (PrintGPUStatus gpu) w0) =
       (diagnostic _ (fst c1) ++ diagnostic _ (fst c2) ++ diagnostic _ (fst c4))%list /\
     world_after (PrintGPUStatus gpu) w0 = snd c4) /\
  t = flat_map (fun at_state => trace_of (PrintGPUStatus (fst at_state)) (snd at_state))
        (report_states gpus w) /\
  map fst (report_states gpus w) = gpus /\
  occurrences is_name_line t = n /\
  (forall m, occurrences (is_query m) t = n) /\
  occurrences is_fan_field t = n /\
  (occurrences is_graphics_clock_field t
   + occurrences (is_failed_query CurrentClocks) t = n)%nat /\
  occurrences is_memory_clock_field t = occurrences is_graphics_clock_field t /\
  (occurrences is_temperature_field t
   + occurrences (is_failed_query Thermal) t <= n)%nat /\
  (occurrences is_memory_usage_field t
   + occurrences (is_failed_query MemoryUsage) t = n)%nat /\
  occurrences is_diagnostic t =
    (occurrences (is_failed_query CurrentClocks) t
     + occurrences (is_failed_query Thermal) t
     + occurrences (is_failed_query MemoryUsage) t)%nat /\
  (occurrences (is_failed_query CurrentClocks) t = 1%nat ->
   occurrences is_name_line t = n /\
   occurrences is_graphics_clock_field t = (n - 1)%nat /\
   occurrences is_memory_clock_field t = (n - 1)%nat).
Proof.
  cbv zeta.
  split; [ | split; [ | split]].
  - intros gpu w0. split; [ | split].
    + rewrite PrintGPUStatus_trace. cbv zeta.
      rewrite world_after_PrintGPUCurrentFanSpeed, world_after_PrintGPUCurrentTemperature,
        world_after_PrintGPUCurrentClocks.
      rewrite PrintGPUCurrentClocks_trace, PrintGPUCurrentTemperature_trace,
        PrintGPUCurrentFanSpeed_trace, PrintGPUCurrentMemoryUsage_trace.
      set (c1 := NvAPI_GPU_GetAllClockFrequencies (physical_gpu gpu)
                   NV_GPU_CLOCK_FREQUENCIES_CURRENT_FREQ w0).
      set (c2 := NvAPI_GPU_GetThermalSettings (physical_gpu gpu) (snd c1)).
      set (c3 := NvAPI_GPU_GetTachReading (physical_gpu gpu) (snd c2)).
      set (c4 := NvAPI_GPU_GetMemoryInfo (physical_gpu gpu) (snd c3)).
      destruct (fst c1) as [f | s1]; (destruct (fst c2) as [th | s2];
        [destruct (count th >? 0) | ]); destruct (fst c3) as [v | s3];
        destruct (fst c4) as [mi | s4]; reflexivity.
    + rewrite PrintGPUStatus_trace. cbv zeta.
      rewrite world_after_PrintGPUCurrentFanSpeed, world_after_PrintGPUCurrentTemperature,
        world_after_PrintGPUCurrentClocks.
      rewrite PrintGPUCurrentClocks_trace, PrintGPUCurrentTemperature_trace,
        PrintGPUCurrentFanSpeed_trace, PrintGPUCurrentMemoryUsage_trace.
      set (c1 := NvAPI_GPU_GetAllClockFrequencies (physical_gpu gpu)
                   NV_GPU_CLOCK_FREQUENCIES_CURRENT_FREQ w0).
      set (c2 := NvAPI_GPU_GetThermalSettings (physical_gpu gpu) (snd c1)).
      set (c3 := NvAPI_GPU_GetTachReading (physical_gpu gpu) (snd c2)).
      set (c4 := NvAPI_GPU_GetMemoryInfo (physical_gpu gpu) (snd c3)).
      destruct (fst c1) as [f | s1]; (destruct (fst c2) as [th | s2];
        [destruct (count th >? 0) | ]); destruct (fst c3) as [v | s3];
        destruct (fst c4) as [mi | s4];
        rewrite ?report_diagnostic_text; reflexivity.
    + apply world_after_PrintGPUStatus_queries.
  - revert w. induction gpus as [ | gpu rest IH]; intros w; [reflexivity | ].
    rewrite trace_of_for_each_cons, world_after_PrintGPUStatus_queries.
    cbn [report_states flat_map fst snd]. rewrite <- IH. reflexivity.
  - revert w. induction gpus as [ | gpu rest IH]; intros w; [reflexivity | ].
    cbn [report_states map fst]. rewrite IH. reflexivity.
  - assert (Hmain :
      occurrences is_name_line (trace_of (for_each gpus PrintGPUStatus) w) = List.length gpus /\
      (forall m, occurrences (is_query m) (trace_of (for_each gpus PrintGPUStatus) w)
                 = List.length gpus) /\
      occurrences is_fan_field (trace_of (for_each gpus PrintGPUStatus) w) = List.length gpus /\
      (occurrences is_graphics_clock_field (trace_of (for_each gpus PrintGPUStatus) w)
       + occurrences (is_failed_query CurrentClocks) (trace_of (for_each gpus PrintGPUStatus) w)
       = List.length gpus)%nat /\
      occurrences is_memory_clock_field (trace_of (for_each gpus PrintGPUStatus) w)
      = occurrences is_graphics_clock_field (trace_of (for_each gpus PrintGPUStatus) w) /\
      (occurrences is_temperature_field (trace_of (for_each gpus PrintGPUStatus) w)
       + occurrences (is_failed_query Thermal) (trace_of (for_each gpus PrintGPUStatus) w)
       <= List.length gpus)%nat /\
      (occurrences is_memory_usage_field (trace_of (for_each gpus PrintGPUStatus) w)
       + occurrences (is_failed_query MemoryUsage) (trace_of (for_each gpus PrintGPUStatus) w)
       = List.length gpus)%nat /\
      occurrences is_diagnostic (trace_of (for_each gpus PrintGPUStatus) w) =
        (occurrences (is_failed_query CurrentClocks) (trace_of (for_each gpus PrintGPUStatus) w)
         + occurrences (is_failed_query Thermal) (trace_of (for_each gpus PrintGPUStatus) w)
         + occurrences (is_failed_query MemoryUsage) (trace_of (for_each gpus PrintGPUStatus) w))%nat).
    { revert w. induction gpus as [ | gpu rest IH]; intros w.
      - change (trace_of (for_each [] PrintGPUStatus) w) with (@nil event).
        split_and; try (intros m); unfold occurrences; cbn [filter List.length]; lia.
      - rewrite trace_of_for_each_cons.
        pose proof (status_report_counts gpu w) as (D1 & D2 & D3 & D4 & D5 & D6 & D7 & D8).
        destruct (IH (world_after (PrintGPUStatus gpu) w))
          as (I1 & I2 & I3 & I4 & I5 & I6 & I7 & I8).
        set (t1 := trace_of (PrintGPUStatus gpu) w) in *.
        set (t2 := trace_of (for_each rest PrintGPUStatus) _) in *.
        clearbody t1 t2.
        rewrite !occurrences_app. cbn [List.length].
        split_and; try (intros m; rewrite occurrences_app, D2, I2); lia. }
    destruct Hmain as (M1 & M2 & M3 & M4 & M5 & M6 & M7 & M8).
    split_and; try assumption; intros; lia.
Qed.

(** C5. The fan speed has no failure path: [PrintGPUCurrentFanSpeed]
    returns nothing to its caller, writes nothing to [stderr], and prints
    the reading, or zero when the tachometer call failed; a failed call
    prints what a reading of zero prints. *)
Theorem fan_speed_failure_is_silent (gpu : GPUInfo) (w : world) :
  let answer := fst (NvAPI_GPU_GetTachReading (physical_gpu gpu) w) in
  let t := trace_of (PrintGPUCurrentFanSpeed gpu) w in
  result_of (PrintGPUCurrentFanSpeed gpu) w = tt /\
  stderr_of t = [] /\
  occurrences is_diagnostic t = 0%nat /\
  stdout_of t =
    [ "Fan speed: "
      ++ Text.fmt_u (to_unsigned match answer with NvOk value => value | NvErr _ => 0 end)
      ++ " RPM" ++ tab ] /\
  match answer with
  | NvErr status =>
      t = [ Called (ApiGetTachReading (physical_gpu gpu)) (Failed status);
            Stdout ("Fan speed: 0 RPM" ++ tab) ]
  | NvOk value =>
      t = [ Called (ApiGetTachReading (physical_gpu gpu)) Succeeded;
            Stdout ("Fan speed: " ++ Text.fmt_u (to_unsigned value) ++ " RPM" ++ tab) ]
  end.
Proof.
  cbv zeta. rewrite PrintGPUCurrentFanSpeed_trace.
  split; [destruct (result_of (PrintGPUCurrentFanSpeed gpu) w); reflexivity | ].
  destruct (fst (NvAPI_GPU_GetTachReading (physical_gpu gpu) w)) as [value | status];
    split_and; reflexivity.
Qed.

(** C7. When the memory query succeeds, the report prints
    ["Memory usage: used / total"], both sizes through [FormatSizeKB]; the
    used size is the capacity recorded at enumeration minus the memory
    currently available, computed modulo 2^32. *)
Theorem memory_usage_is_total_minus_available
  (gpu : GPUInfo) (w : world) (memory_info : NV_DISPLAY_DRIVER_MEMORY_INFO) :
  fst (NvAPI_GPU_GetMemoryInfo (physical_gpu gpu) w) = NvOk memory_info ->
  is_u32 (vram_in_kb gpu) -> is_u32 (curAvailableDedicatedVideoMemory memory_info) ->
  let available := curAvailableDedicatedVideoMemory memory_info in
  let used_memory := u32_sub (vram_in_kb gpu) available in
  trace_of (PrintGPUCurrentMemoryUsage gpu) w =
    [ Called (ApiGetMemoryInfo (physical_gpu gpu)) Succeeded;
      Stdout ("Memory usage: " ++ FormatSizeKB used_memory ++ " / "
              ++ FormatSizeKB (vram_in_kb gpu));
      Stdout tab ] /\
  is_u32 used_memory /\
  (used_memory - (vram_in_kb gpu - available)) mod 2 ^ 32 = 0 /\
  (available <= vram_in_kb gpu -> used_memory = vram_in_kb gpu - available) /\
  (vram_in_kb gpu < available -> used_memory = vram_in_kb gpu - available + 2 ^ 32).
Proof.
  intros Hq Hv Ha. cbv zeta.
  rewrite PrintGPUCurrentMemoryUsage_trace, Hq.
  unfold is_u32, u32_sub, u32_modulus in *.
  set (a := curAvailableDedicatedVideoMemory memory_info) in *.
  set (v := vram_in_kb gpu) in *.
  change (2 ^ 32) with 4294967296 in *.
  split; [reflexivity | ].
  split; [apply Z.mod_pos_bound; lia | ].
  split.
  - rewrite Zminus_mod, Zmod_mod, <- Zminus_mod, Z.sub_diag. reflexivity.
  - split; intros Hc.
    + apply Z.mod_small. lia.
    + symmetry. apply (Z.mod_unique (v - a) 4294967296 (-1)); lia.
Qed.

(** C10. A thermal query that succeeds with a sensor count of zero prints
    nothing at all, neither a temperature nor a diagnostic line; a thermal
    query that fails prints a diagnostic line; one that reports a sensor
    prints the temperature of the first sensor. *)
Theorem no_sensor_prints_nothing (gpu : GPUInfo) (w : world) :
  let t := trace_of (PrintGPUCurrentTemperature gpu) w in
  match fst (NvAPI_GPU_GetThermalSettings (physical_gpu gpu) w) with
  | NvOk thermal =>
      if count thermal >? 0 then
        stdout_of t =
          [ "Temperature: "
            ++ Text.fmt_d (to_int (currentTemp (nth 0 (sensor thermal) zero_sensor)))
            ++ "C"; tab ] /\
        stderr_of t = []
      else
        t = [ Called (ApiGetThermalSettings (physical_gpu gpu)) Succeeded ] /\
        stdout_of t = [] /\ stderr_of t = [] /\
        occurrences is_temperature_field t = 0%nat /\
        occurrences is_diagnostic t = 0%nat
  | NvErr status =>
      stdout_of t = [] /\
      stderr_of t = [ PrintError_buf status "NvAPI_GPU_GetAllClockFrequencies failed:" ] /\
      occurrences is_diagnostic t = 1%nat
  end.
Proof.
  cbv zeta. rewrite PrintGPUCurrentTemperature_trace.
  destruct (fst (NvAPI_GPU_GetThermalSettings (physical_gpu gpu) w)) as [thermal | status].
  - destruct (count thermal >? 0); split_and; reflexivity.
  - unfold PrintError_buf, Text.fmt_08X. forget_texts. split_and; reflexivity.
Qed.

End ReporterTheorems.

(** ** The enumerator *)

Section SubsequenceFacts.

Import Observe.

Lemma subsequence_tail_skip (l2 : list Z) :
  (forall x l1, subsequence (x :: l1) l2 = true -> subsequence l1 l2 = true) /\
  (forall l1 y, subsequence l1 l2 = true -> subsequence l1 (y :: l2) = true).
Proof.
  induction l2 as [ | z r [IHtail IHskip]].
  - split.
    + intros x l1 Hs. discriminate Hs.
    + intros [ | x l1] y Hs; [reflexivity | discriminate Hs].
  - assert (Htail : forall x l1,
              subsequence (x :: l1) (z :: r) = true -> subsequence l1 (z :: r) = true).
    { intros x l1 Hs. cbn [subsequence] in Hs. apply IHskip.
      destruct (x =? z); [exact Hs | exact (IHtail _ _ Hs)]. }
    split; [exact Htail | ].
    intros [ | x l1] y Hs; [reflexivity | ].
    change (subsequence (x :: l1) (y :: z :: r))
      with (if x =? y then subsequence l1 (z :: r) else subsequence (x :: l1) (z :: r)).
    destruct (x =? y); [exact (Htail _ _ Hs) | exact Hs].
Qed.

Lemma subsequence_skip (l1 l2 : list Z) (y : Z) :
  subsequence l1 l2 = true -> subsequence l1 (y :: l2) = true.
Proof. apply subsequence_tail_skip. Qed.

Lemma subsequence_keep (l1 l2 : list Z) (y : Z) :
  subsequence l1 l2 = true -> subsequence (y :: l1) (y :: l2) = true.
Proof. intros Hs. cbn [subsequence]. rewrite Z.eqb_refl. exact Hs. Qed.

End SubsequenceFacts.

Section EnumeratorFacts.

Context {world : Type} {nv : Provider world} {crt : CRuntime}.

Import Observe.

(** One turn of the loop of [EnumerateGPUs]. *)
Lemma EnumerateGPUs_body_run (handle : NvPhysicalGpuHandle) (gpus : list GPUInfo) (w : world) :
  EnumerateGPUs_body handle gpus w =
  match NvAPI_GPU_GetFullName handle w with
  | (NvErr status, w1) =>
      (gpus, w1,
       [ Called (ApiGetFullName handle) (Failed status);
         Stderr (PrintError_buf status "NvAPI_GPU_GetFullName failed: ") ])
  | (NvOk str, w1) =>
      match NvAPI_GPU_GetPhysicalFrameBufferSize handle w1 with
      | (NvErr status, w2) =>
          (gpus, w2,
           [ Called (ApiGetFullName handle) Succeeded;
             Called (ApiGetPhysicalFrameBufferSize handle) (Failed status);
             Stderr (PrintError_buf status
                       "NvAPI_GPU_GetPhysicalFrameBufferSize failed: ") ])
      | (NvOk vram_size_kb, w2) =>
          ((gpus ++ [ {| physical_gpu := handle; name := str;
                         vram_in_kb := vram_size_kb |} ])%list, w2,
           [ Called (ApiGetFullName handle) Succeeded;
             Called (ApiGetPhysicalFrameBufferSize handle) Succeeded ])
      end
  end.
Proof.
  unfold EnumerateGPUs_body, PrintError, bind, call, emit, ret.
  destruct (NvAPI_GPU_GetFullName handle w) as [[str | status] w1]; [ | reflexivity].
  destruct (NvAPI_GPU_GetPhysicalFrameBufferSize handle w1) as [[v | status] w2];
    reflexivity.
Qed.

(** The devices found so far are only ever extended at the end: the loop
    started with [gpus] gives [gpus] followed by what it gives when started
    with the empty vector. *)
Lemma enumeration_accumulates (handles : list NvPhysicalGpuHandle) :
  forall (gpus : list GPUInfo) (w : world),
  for_each_with handles EnumerateGPUs_body gpus w =
  ((gpus ++ result_of (for_each_with handles EnumerateGPUs_body []) w)%list,
   world_after (for_each_with handles EnumerateGPUs_body []) w,
   trace_of (for_each_with handles EnumerateGPUs_body []) w).
Proof.
  induction handles as [ | h rest IH]; intros gpus w.
  - cbn. rewrite app_nil_r. reflexivity.
  - cbn [for_each_with]. unfold result_of, world_after, trace_of, bind.
    rewrite !EnumerateGPUs_body_run.
    destruct (NvAPI_GPU_GetFullName h w) as [[str | status] w1].
    + destruct (NvAPI_GPU_GetPhysicalFrameBufferSize h w1) as [[v | status] w2].
      * rewrite (IH (gpus ++ _)%list w2), (IH ([] ++ _)%list w2).
        cbn [fst snd app]. rewrite <- app_assoc. reflexivity.
      * rewrite (IH gpus w2). unfold result_of, world_after, trace_of.
        destruct (for_each_with rest EnumerateGPUs_body [] w2) as [[r w3] t3].
        reflexivity.
    + rewrite (IH gpus w1). unfold result_of, world_after, trace_of.
      destruct (for_each_with rest EnumerateGPUs_body [] w1) as [[r w3] t3].
      reflexivity.
Qed.

(** What the loop of [EnumerateGPUs] guarantees for the listed handles. *)
Lemma enumeration_loop_facts (handles : list NvPhysicalGpuHandle) :
  forall w : world,
  let gpus := result_of (for_each_with handles EnumerateGPUs_body []) w in
  let t := trace_of (for_each_with handles EnumerateGPUs_body []) w in
  subsequence (map physical_gpu gpus) handles = true /\
  (List.length gpus + occurrences is_failed_resolution t = List.length handles)%nat /\
  (forall g, In g gpus ->
     In (Called (ApiGetFullName (physical_gpu g)) Succeeded) t /\
     In (Called (ApiGetPhysicalFrameBufferSize (physical_gpu g)) Succeeded) t) /\
  occurrences is_diagnostic t = occurrences is_failed_resolution t /\
  occurrences is_sampling t = 0%nat /\
  stdout_of t = [].
Proof.
  induction handles as [ | h rest IH]; intros w; cbv zeta.
  - cbn. split_and; try reflexivity. intros g [].
  - cbn [for_each_with]. unfold result_of, world_after, trace_of, bind.
    rewrite EnumerateGPUs_body_run.
    destruct (NvAPI_GPU_GetFullName h w) as [[str | status] w1].
    + destruct (NvAPI_GPU_GetPhysicalFrameBufferSize h w1) as [[v | status] w2].
      * rewrite enumeration_accumulates.
        specialize (IH w2). cbv zeta in IH. cbn [fst snd app].
        destruct IH as (I1 & I2 & I3 & I4 & I5 & I6).
        set (r := result_of (for_each_with rest EnumerateGPUs_body []) w2) in *.
        set (t := trace_of (for_each_with rest EnumerateGPUs_body []) w2) in *.
        clearbody r t. split_and.
        -- cbn [map physical_gpu]. apply subsequence_keep. exact I1.
        -- change (occurrences is_failed_resolution (_ :: _ :: t))
             with (occurrences is_failed_resolution t).
           cbn [List.length Nat.add]. rewrite ?Nat.add_succ_r. congruence.
        -- intros g [<- | Hg]; cbn [physical_gpu].
           ++ split; [left; reflexivity | right; left; reflexivity].
           ++ destruct (I3 g Hg). split; right; right; assumption.
        -- exact I4.
        -- exact I5.
        -- exact I6.
      * specialize (IH w2). cbv zeta in IH.
        destruct (for_each_with rest EnumerateGPUs_body [] w2) as [[r w3] t] eqn:E.
        unfold result_of, trace_of in IH. rewrite E in IH. cbn [fst snd] in *.
        destruct IH as (I1 & I2 & I3 & I4 & I5 & I6). cbn [app]. split_and.
        -- apply subsequence_skip. exact I1.
        -- change (occurrences is_failed_resolution (_ :: _ :: _ :: t))
             with (S (occurrences is_failed_resolution t)).
           cbn [List.length Nat.add]. rewrite ?Nat.add_succ_r. congruence.
        -- intros g Hg. destruct (I3 g Hg). split; right; right; right; assumption.
        -- unfold PrintError_buf, Text.fmt_08X. forget_texts.
           change (occurrences is_failed_resolution (_ :: _ :: _ :: t))
             with (S (occurrences is_failed_resolution t)).
           rewrite <- I4. reflexivity.
        -- exact I5.
        -- exact I6.
    + specialize (IH w1). cbv zeta in IH.
      destruct (for_each_with rest EnumerateGPUs_body [] w1) as [[r w3] t] eqn:E.
      unfold result_of, trace_of in IH. rewrite E in IH. cbn [fst snd] in *.
      destruct IH as (I1 & I2 & I3 & I4 & I5 & I6). cbn [app]. split_and.
      * apply subsequence_skip. exact I1.
      * change (occurrences is_failed_resolution (_ :: _ :: t))
          with (S (occurrences is_failed_resolution t)).
        cbn [List.length Nat.add]. rewrite ?Nat.add_succ_r. congruence.
      * intros g Hg. destruct (I3 g Hg). split; right; right; assumption.
      * unfold PrintError_buf, Text.fmt_08X. forget_texts.
        change (occurrences is_failed_resolution (_ :: _ :: t))
          with (S (occurrences is_failed_resolution t)).
        rewrite <- I4. reflexivity.
      * exact I5.
      * exact I6.
Qed.

End EnumeratorFacts.

(** ** The enumerator and [main]: C3, C6, C8 *)

Section MainFacts.

Context {world : Type} {nv : Provider world} {crt : CRuntime}.

Import Observe.

Lemma EnumerateGPUs_run (w : world) :
  EnumerateGPUs w =
  match NvAPI_EnumPhysicalGPUs w with
  | (NvErr status, w1) =>
      ([], w1,
       [ Called ApiEnumPhysicalGPUs (Failed status);
         Stderr (PrintError_buf status "NvAPI_EnumPhysicalGPUs failed: ") ])
  | (NvOk handles, w1) =>
      (result_of (for_each_with handles EnumerateGPUs_body []) w1,
       world_after (for_each_with handles EnumerateGPUs_body []) w1,
       Called ApiEnumPhysicalGPUs Succeeded
       :: trace_of (for_each_with handles EnumerateGPUs_body []) w1)
  end.
Proof.
  unfold EnumerateGPUs, PrintError, bind, call, emit, ret, result_of, world_after, trace_of.
  destruct (NvAPI_EnumPhysicalGPUs w) as [[handles | status] w1]; [ | reflexivity].
  destruct (for_each_with handles EnumerateGPUs_body [] w1) as [[r w2] t]. reflexivity.
Qed.

(** C3. [EnumerateGPUs] returns the empty vector when the listing call
    fails.  When it succeeds, the devices returned are listed devices, in
    the order of the listing; a device is left out exactly when the query
    of its name or of its memory size fails, so that the vector is empty
    when this happens for every device; a device that is returned had both
    queries succeed; one turn of the loop either leaves the vector as it
    is or appends one complete record, and the loop goes on with the
    remaining handles. *)
Theorem EnumerateGPUs_skips_failed_devices (w : world) :
  let gpus := result_of EnumerateGPUs w in
  let t := trace_of EnumerateGPUs w in
  match fst (NvAPI_EnumPhysicalGPUs w) with
  | NvErr status =>
      gpus = [] /\
      t = [ Called ApiEnumPhysicalGPUs (Failed status);
            Stderr (PrintError_buf status "NvAPI_EnumPhysicalGPUs failed: ") ]
  | NvOk handles =>
      subsequence (map physical_gpu gpus) handles = true /\
      (List.length gpus + occurrences is_failed_resolution t = List.length handles)%nat /\
      (occurrences is_failed_resolution t = List.length handles -> gpus = []) /\
      (forall g, In g gpus ->
         In (Called (ApiGetFullName (physical_gpu g)) Succeeded) t /\
         In (Called (ApiGetPhysicalFrameBufferSize (physical_gpu g)) Succeeded) t) /\
      occurrences is_diagnostic t = occurrences is_failed_resolution t
  end /\
  (forall (handle : NvPhysicalGpuHandle) (handles0 : list NvPhysicalGpuHandle)
          (gpus0 : list GPUInfo) (w0 : world),
     result_of (EnumerateGPUs_body handle gpus0) w0 =
     match fst (NvAPI_GPU_GetFullName handle w0) with
     | NvErr _ => gpus0
     | NvOk str =>
         match fst (NvAPI_GPU_GetPhysicalFrameBufferSize handle
                      (snd (NvAPI_GPU_GetFullName handle w0))) with
         | NvErr _ => gpus0
         | NvOk vram_size_kb =>
             (gpus0 ++ [ {| physical_gpu := handle; name := str;
                            vram_in_kb := vram_size_kb |} ])%list
         end
     end /\
     result_of (for_each_with (handle :: handles0) EnumerateGPUs_body gpus0) w0 =
     result_of (for_each_with handles0 EnumerateGPUs_body
                  (result_of (EnumerateGPUs_body handle gpus0) w0))
       (world_after (EnumerateGPUs_body handle gpus0) w0)).
Proof.
  cbv zeta. split.
  - unfold result_of, trace_of. rewrite EnumerateGPUs_run.
    destruct (NvAPI_EnumPhysicalGPUs w) as [[handles | status] w1]; cbn [fst snd].
    + pose proof (enumeration_loop_facts handles w1) as (I1 & I2 & I3 & I4 & I5 & I6).
      set (r := result_of (for_each_with handles EnumerateGPUs_body []) w1) in *.
      set (t := trace_of (for_each_with handles EnumerateGPUs_body []) w1) in *.
      clearbody r t.
      change (occurrences is_failed_resolution (Called ApiEnumPhysicalGPUs Succeeded :: t))
        with (occurrences is_failed_resolution t).
      change (occurrences is_diagnostic (Called ApiEnumPhysicalGPUs Succeeded :: t))
        with (occurrences is_diagnostic t).
      split_and.
      * exact I1.
      * exact I2.
      * intros Hall. rewrite Hall in I2. destruct r; [reflexivity | ].
        cbn [List.length] in I2. lia.
      * intros g Hg. destruct (I3 g Hg). split; right; assumption.
      * exact I4.
    + split; reflexivity.
  - intros handle handles0 gpus0 w0. split.
    + unfold result_of. rewrite EnumerateGPUs_body_run.
      destruct (NvAPI_GPU_GetFullName handle w0) as [[str | status] w1]; cbn [fst snd];
        [ | reflexivity].
      destruct (NvAPI_GPU_GetPhysicalFrameBufferSize handle w1) as [[v | status] w2];
        reflexivity.
    + cbn [for_each_with]. apply result_of_bind.
Qed.

Lemma EnumerateGPUs_no_sampling (w : world) :
  occurrences is_sampling (trace_of EnumerateGPUs w) = 0%nat.
Proof.
  unfold trace_of. rewrite EnumerateGPUs_run.
  destruct (NvAPI_EnumPhysicalGPUs w) as [[handles | status] w1]; cbn [snd].
  - pose proof (enumeration_loop_facts handles w1) as (_ & _ & _ & _ & I5 & _).
    exact I5.
  - reflexivity.
Qed.

Lemma main_steps_exited (n : nat) (code : Z) (w : world) :
  main_steps n (Exited code) w = (Exited code, w, []).
Proof. destruct n; reflexivity. Qed.

Lemma result_of_main_steps_exited (n : nat) (code : Z) (w : world) :
  result_of (main_steps n (Exited code)) w = Exited code.
Proof. unfold result_of. rewrite main_steps_exited. reflexivity. Qed.

Lemma trace_of_main_steps_exited (n : nat) (code : Z) (w : world) :
  trace_of (main_steps n (Exited code)) w = [].
Proof. unfold trace_of. rewrite main_steps_exited. reflexivity. Qed.

Lemma main_startup_run (w : world) :
  main_startup w =
  match NvAPI_Initialize w with
  | (NvErr status, w1) =>
      (Exited EXIT_FAILURE, w1,
       [ Called ApiInitialize (Failed status);
         Stderr (PrintError_buf status "NVAPI_Initialize failed: ") ])
  | (NvOk _, w1) =>
      match result_of EnumerateGPUs w1 with
      | [] =>
          (Exited EXIT_FAILURE,
           snd (NvAPI_Unload (world_after EnumerateGPUs w1)),
           (Called ApiInitialize Succeeded :: trace_of EnumerateGPUs w1
            ++ [ Stderr ("No GPUs found." ++ newline);
                 Called ApiUnload
                   (outcome_of (fst (NvAPI_Unload (world_after EnumerateGPUs w1)))) ])%list)
      | gpu :: rest =>
          (InLoop (gpu :: rest),
           world_after (for_each (gpu :: rest) PrintGPUInfo) (world_after EnumerateGPUs w1),
           (Called ApiInitialize Succeeded :: trace_of EnumerateGPUs w1
            ++ trace_of (for_each (gpu :: rest) PrintGPUInfo)
                 (world_after EnumerateGPUs w1))%list)
      end
  end.
Proof.
  unfold main_startup, PrintError, bind, call, emit, ret, result_of, world_after, trace_of.
  destruct (NvAPI_Initialize w) as [[u | status] w1]; [ | reflexivity].
  destruct (EnumerateGPUs w1) as [[gpus w2] t2]. cbn [fst snd].
  destruct gpus as [ | gpu rest].
  - destruct (NvAPI_Unload w2) as [r w3]. cbn [fst snd app].
    rewrite ?app_nil_r. reflexivity.
  - destruct (for_each (gpu :: rest) PrintGPUInfo w2) as [[u3 w3] t3]. cbn [fst snd app].
    rewrite ?app_nil_r. reflexivity.
Qed.

(** C6. When [NvAPI_Initialize] fails, and when the enumeration yields no
    device, [main] returns [EXIT_FAILURE], which is not zero, and no
    sampling pass takes place: no live metric is queried and the process
    never sleeps.  With no device, ["No GPUs found."] is written to
    [stderr] after the enumeration and before the driver is released. *)
Theorem startup_failure_exits (w : world) (n : nat) :
  let t := trace_of (main (S n)) w in
  let w1 := snd (NvAPI_Initialize w) in
  match fst (NvAPI_Initialize w) with
  | NvErr status =>
      result_of (main (S n)) w = Exited EXIT_FAILURE /\
      t = [ Called ApiInitialize (Failed status);
            Stderr (PrintError_buf status "NVAPI_Initialize failed: ") ] /\
      occurrences is_sampling t = 0%nat
  | NvOk _ =>
      result_of EnumerateGPUs w1 = [] ->
      result_of (main (S n)) w = Exited EXIT_FAILURE /\
      t = (Called ApiInitialize Succeeded :: trace_of EnumerateGPUs w1
           ++ [ Stderr ("No GPUs found." ++ newline);
                Called ApiUnload
                  (outcome_of (fst (NvAPI_Unload (world_after EnumerateGPUs w1)))) ])%list /\
      stdout_of t = [] /\
      occurrences is_sampling t = 0%nat
  end /\
  EXIT_FAILURE <> EXIT_SUCCESS /\ EXIT_FAILURE <> 0.
Proof.
  cbv zeta. split; [ | split; discriminate].
  unfold main. cbn [main_steps terminal main_step].
  rewrite result_of_bind, trace_of_bind.
  pose proof (main_startup_run w) as Hs.
  destruct (NvAPI_Initialize w) as [[u | status] w1]; cbn [fst snd].
  - intros Hnone. rewrite Hnone in Hs.
    assert (R : result_of main_startup w = Exited EXIT_FAILURE)
      by (unfold result_of; rewrite Hs; reflexivity).
    assert (T : trace_of main_startup w = snd (main_startup w)) by reflexivity.
    rewrite Hs in T. cbn [snd] in T. rewrite R, T.
    rewrite result_of_main_steps_exited, trace_of_main_steps_exited, app_nil_r.
    pose proof (EnumerateGPUs_no_sampling w1) as Hq.
    assert (Hout : stdout_of (trace_of EnumerateGPUs w1) = []).
    { unfold trace_of. rewrite EnumerateGPUs_run.
      destruct (NvAPI_EnumPhysicalGPUs w1) as [[handles | status] w2]; cbn [snd].
      - pose proof (enumeration_loop_facts handles w2) as (_ & _ & _ & _ & _ & I6).
        exact I6.
      - reflexivity. }
    set (t := trace_of EnumerateGPUs w1) in *. clearbody t.
    split_and; try reflexivity.
    + unfold stdout_of in *. cbn [flat_map app]. rewrite flat_map_app, Hout. reflexivity.
    + change (occurrences is_sampling (Called ApiInitialize Succeeded :: ?x))
        with (occurrences is_sampling x).
      rewrite occurrences_app, Hq. reflexivity.
  - assert (R : result_of main_startup w = Exited EXIT_FAILURE)
      by (unfold result_of; rewrite Hs; reflexivity).
    assert (T : trace_of main_startup w = snd (main_startup w)) by reflexivity.
    rewrite Hs in T. cbn [snd] in T. rewrite R, T.
    rewrite result_of_main_steps_exited, trace_of_main_steps_exited.
    split_and; reflexivity.
Qed.

Lemma status_report_quiet (gpu : GPUInfo) (w : world) :
  occurrences is_sleep (trace_of (PrintGPUStatus gpu) w) = 0%nat /\
  occurrences is_teardown (trace_of (PrintGPUStatus gpu) w) = 0%nat.
Proof.
  rewrite PrintGPUStatus_trace. cbv zeta.
  rewrite PrintGPUCurrentClocks_trace, PrintGPUCurrentTemperature_trace,
    PrintGPUCurrentFanSpeed_trace, PrintGPUCurrentMemoryUsage_trace.
  destruct (fst (NvAPI_GPU_GetAllClockFrequencies _ _ _)) as [frequencies | s1];
    (destruct (fst (NvAPI_GPU_GetThermalSettings _ _)) as [thermal | s2];
      [destruct (count thermal >? 0) | ]);
    destruct (fst (NvAPI_GPU_GetTachReading _ _)) as [value | s3];
    destruct (fst (NvAPI_GPU_GetMemoryInfo _ _)) as [memory_info | s4];
    split; reflexivity.
Qed.

Lemma sampling_pass_counts (gpus : list GPUInfo) (w : world) :
  occurrences is_sleep (trace_of (sampling_pass gpus) w) = 1%nat /\
  occurrences is_teardown (trace_of (sampling_pass gpus) w) = 0%nat.
Proof.
  unfold sampling_pass. rewrite trace_of_bind.
  change (trace_of (sleep 1000) ?x) with [Slept 1000].
  rewrite !occurrences_app.
  change (occurrences is_sleep [Slept 1000]) with 1%nat.
  change (occurrences is_teardown [Slept 1000]) with 0%nat.
  assert (Hq : forall w0,
            occurrences is_sleep (trace_of (for_each gpus PrintGPUStatus) w0) = 0%nat /\
            occurrences is_teardown (trace_of (for_each gpus PrintGPUStatus) w0) = 0%nat).
  { induction gpus as [ | gpu rest IH]; intros w0.
    - split; reflexivity.
    - rewrite trace_of_for_each_cons, !occurrences_app.
      destruct (status_report_quiet gpu w0) as [-> ->].
      destruct (IH (world_after (PrintGPUStatus gpu) w0)) as [-> ->].
      split; reflexivity. }
  destruct (Hq w) as [-> ->]. split; reflexivity.
Qed.

Lemma main_steps_in_loop (gpus : list GPUInfo) (n : nat) (w : world) :
  main_steps (S n) (InLoop gpus) w =
  (result_of (main_steps n (InLoop gpus)) (world_after (sampling_pass gpus) w),
   world_after (main_steps n (InLoop gpus)) (world_after (sampling_pass gpus) w),
   (trace_of (sampling_pass gpus) w
    ++ trace_of (main_steps n (InLoop gpus)) (world_after (sampling_pass gpus) w))%list).
Proof.
  cbn [main_steps terminal main_step].
  unfold bind, ret, result_of, world_after, trace_of.
  destruct (sampling_pass gpus w) as [[u w1] t1]. cbn [fst snd].
  destruct (main_steps n (InLoop gpus) w1) as [[pc w2] t2]. cbn [fst snd].
  rewrite app_nil_r. reflexivity.
Qed.

(** Where [main] can be: never behind its loop. *)
Lemma main_steps_stay_in_front (n : nat) :
  forall (pc : program_point) (w : world),
  match pc with
  | AfterLoop => False
  | Exited code => code = EXIT_FAILURE
  | _ => True
  end ->
  match result_of (main_steps n pc) w with
  | AfterLoop => False
  | Exited code => code = EXIT_FAILURE
  | _ => True
  end.
Proof.
  induction n as [ | n IH]; intros pc w Hpc.
  - exact Hpc.
  - destruct pc as [ | gpus | | code]; try contradiction.
    + cbn [main_steps terminal main_step]. rewrite result_of_bind. apply IH.
      unfold result_of. rewrite main_startup_run.
      destruct (NvAPI_Initialize w) as [[u | status] w1]; [ | reflexivity].
      destruct (result_of EnumerateGPUs w1); [reflexivity | exact I].
    + unfold result_of. rewrite main_steps_in_loop. cbn [fst]. apply IH. exact I.
    + rewrite result_of_main_steps_exited. exact Hpc.
Qed.

(** C8. Once [main] is in its loop it stays there: after any number of
    transitions the program is at the head of the loop again, having slept
    once per pass and never released the driver, and one more pass follows.
    The statements after the loop and the exit status [EXIT_SUCCESS] are
    reached from the entry of [main] by no number of transitions. *)
Theorem sampling_loop_never_exits (gpus : list GPUInfo) (w : world) (n : nat) :
  result_of (main_steps n (InLoop gpus)) w = InLoop gpus /\
  terminal (result_of (main_steps n (InLoop gpus)) w) = false /\
  occurrences is_sleep (trace_of (main_steps n (InLoop gpus)) w) = n /\
  occurrences is_teardown (trace_of (main_steps n (InLoop gpus)) w) = 0%nat /\
  trace_of (main_steps (S n) (InLoop gpus)) w =
    (trace_of (sampling_pass gpus) w
     ++ trace_of (main_steps n (InLoop gpus)) (world_after (sampling_pass gpus) w))%list /\
  (forall (w0 : world) (k : nat),
     result_of (main k) w0 <> AfterLoop /\
     result_of (main k) w0 <> Exited EXIT_SUCCESS).
Proof.
  assert (Hloop : forall k w0,
            result_of (main_steps k (InLoop gpus)) w0 = InLoop gpus /\
            occurrences is_sleep (trace_of (main_steps k (InLoop gpus)) w0) = k /\
            occurrences is_teardown (trace_of (main_steps k (InLoop gpus)) w0) = 0%nat).
  { induction k as [ | k IH]; intros w0.
    - split_and; reflexivity.
    - unfold result_of, trace_of. rewrite main_steps_in_loop. cbn [fst snd].
      destruct (IH (world_after (sampling_pass gpus) w0)) as (I1 & I2 & I3).
      destruct (sampling_pass_counts gpus w0) as [P1 P2].
      rewrite !occurrences_app, I1, I2, I3, P1, P2. split_and; reflexivity. }
  destruct (Hloop n w) as (L1 & L2 & L3).
  split; [exact L1 | ]. split; [rewrite L1; reflexivity | ].
  split; [exact L2 | ]. split; [exact L3 | ].
  split.
  - unfold trace_of at 1. rewrite main_steps_in_loop. reflexivity.
  - intros w0 k. pose proof (main_steps_stay_in_front k AtEntry w0 I) as Hfront.
    unfold main. destruct (result_of (main_steps k AtEntry) w0) as [ | g | | code].
    + split; discriminate.
    + split; discriminate.
    + contradiction.
    + subst code. split; discriminate.
Qed.

End MainFacts.

(** ** The theorems at work on the simulated driver *)

Section OnTheSimulatedDriver.

Import Sample Observe Shape.

(** The model of single precision gives the bit patterns of the hardware:
    [1015.0f / 1000.0f] is [0x3F81EB85], [4294967296.0f / 1000.0f] is
    [0x4A83126F], and 2^24 + 1 and 2^24 + 3 are rounded to the even
    neighbour. *)
Example single_precision_samples :
  Float32.div (Float32.of_u32 1015) Float32.lit_1000 = S754_finite false 8514437 (-23) /\
  Float32.div (Float32.of_u32 4294967295) Float32.lit_1000
  = S754_finite false 8589935 (-1) /\
  Float32.of_u32 16777217 = S754_finite false 8388608 1 /\
  Float32.of_u32 16777219 = S754_finite false 8388610 1.
Proof. split_and; reflexivity. Qed.

(** The two runtimes differ on a tie only: 1152 KiB is 1.125 MiB. *)
Example tie_between_two_renderings :
  FormatSizeKB (crt := current_crt) 1152 = "1.12 MiB" /\
  FormatSizeKB (crt := legacy_crt) 1152 = "1.13 MiB".
Proof. split; vm_compute; reflexivity. Qed.

Example three_boards_are_enumerated :
  result_of (EnumerateGPUs (nv := driver three_boards)) 0 = three_gpus.
Proof. vm_compute. reflexivity. Qed.

(** The third board has no sensor and no tachometer. *)
Example third_board_is_quiet :
  let gpu := {| physical_gpu := 33; name := "GeForce C"; vram_in_kb := 2097152 |} in
  trace_of (PrintGPUCurrentTemperature (nv := driver three_boards) gpu) 0
  = [ Called (ApiGetThermalSettings 33) Succeeded ] /\
  trace_of (PrintGPUCurrentFanSpeed (nv := driver three_boards) gpu) 0
  = [ Called (ApiGetTachReading 33) (Failed (-3)); Stdout ("Fan speed: 0 RPM" ++ tab) ].
Proof. split; vm_compute; reflexivity. Qed.

Example no_driver_no_loop :
  main (nv := driver no_driver) (crt := current_crt) 5 0
  = (Exited EXIT_FAILURE, 0,
     [ Called ApiInitialize (Failed (-2));
       Stderr ("NVAPI_Initialize failed: Error 0xFFFFFFFE" ++ newline) ]).
Proof. vm_compute. reflexivity. Qed.

(** Two transitions on three boards: the startup, then one pass; the
    process is at the head of its loop and one second has passed. *)
Example one_pass_on_three_boards :
  result_of (main (nv := driver three_boards) (crt := current_crt) 2) 0 = InLoop three_gpus /\
  world_after (main (nv := driver three_boards) (crt := current_crt) 2) 0 = 1000 /\
  stderr_of (trace_of (main (nv := driver three_boards) (crt := current_crt) 2) 0)
  = [ "NvAPI_GPU_GetAllClockFrequencies failed:Error 0xFFFFFFFF" ++ newline ].
Proof. split_and; vm_compute; reflexivity. Qed.

(** C1 at the boundary: 1,048,576 KiB is a 32-bit size and is printed in
    MiB. *)
Lemma FormatSizeKB_tiers_witness :
  is_u32 1048576 /\ MiB_text (FormatSizeKB (crt := current_crt) 1048576) = true.
Proof.
  assert (Hu : is_u32 1048576) by (unfold is_u32, u32_modulus; lia).
  split; [exact Hu | ].
  apply (proj1 (proj2 (FormatSizeKB_tiers (crt := current_crt) 1048576 Hu))). lia.
Defined.

(** C2 on three boards, the second of which refuses the query of its
    current clocks: three name lines, two clock fields. *)
Lemma pass_survives_metric_failures_witness :
  let t := trace_of
             (for_each three_gpus
                (PrintGPUStatus (nv := driver three_boards) (crt := current_crt))) 0 in
  occurrences (is_failed_query CurrentClocks) t = 1%nat /\
  occurrences is_name_line t = 3%nat /\
  occurrences is_graphics_clock_field t = 2%nat /\
  occurrences is_memory_clock_field t = 2%nat.
Proof.
  intros t.
  assert (Hone : occurrences (is_failed_query CurrentClocks) t = 1%nat)
    by (vm_compute; reflexivity).
  split; [exact Hone | ].
  pose proof (pass_survives_metric_failures (nv := driver three_boards)
                (crt := current_crt) three_gpus 0) as Hpass.
  cbv zeta in Hpass. fold t in Hpass.
  destruct Hpass as (_ & _ & _ & _ & _ & _ & _ & _ & _ & _ & _ & Hexact).
  exact (Hexact Hone).
Defined.

(** C3 on two boards of which none can be resolved: two failed queries,
    no device. *)
Lemma EnumerateGPUs_skips_failed_devices_witness :
  occurrences is_failed_resolution
    (trace_of (EnumerateGPUs (nv := driver unusable_boards)) 0) = 2%nat /\
  result_of (EnumerateGPUs (nv := driver unusable_boards)) 0 = [].
Proof.
  assert (Hall : occurrences is_failed_resolution
                   (trace_of (EnumerateGPUs (nv := driver unusable_boards)) 0) = 2%nat)
    by (vm_compute; reflexivity).
  split; [exact Hall | ].
  pose proof (proj1 (EnumerateGPUs_skips_failed_devices (nv := driver unusable_boards) 0))
    as Henum.
  cbv zeta in Henum.
  change (fst (NvAPI_EnumPhysicalGPUs 0)) with (NvOk (A := list Z) [11; 22]) in Henum.
  cbv iota in Henum.
  destruct Henum as (_ & _ & Hempty & _).
  exact (Hempty Hall).
Defined.

(** C4 on a clock of 1,815,000 kHz, present and below 2^24: the text is
    the exact quotient with two decimals. *)
Lemma FormatClockSpeed_single_precision_witness :
  let f := clock_table NV_GPU_CLOCK_FREQUENCIES_CURRENT_FREQ 1815000 7000000 in
  bIsPresent (domain_at f 0) = true /\
  is_u32 (frequency (domain_at f 0)) /\
  MHz_text (FormatClockSpeed (crt := current_crt) f 0) = true.
Proof.
  intros f.
  assert (Hp : bIsPresent (domain_at f 0) = true) by reflexivity.
  assert (Hu : is_u32 (frequency (domain_at f 0)))
    by (unfold is_u32, u32_modulus; simpl; lia).
  split; [exact Hp | ]. split; [exact Hu | ].
  destruct (proj1 (proj2 (FormatClockSpeed_single_precision (crt := current_crt) f 0)) Hp Hu)
    as (n & _ & _ & Hshape & _).
  exact Hshape.
Defined.

(** C4 as the specification words it fails on the largest frequency: the
    text is ["4294967.50 MHz"], which is not 4294967.295 with two
    decimals, rounded either way. *)
Lemma FormatClockSpeed_not_the_exact_quotient :
  bIsPresent (domain_at extreme_clocks 0) = true /\
  frequency (domain_at extreme_clocks 0) = 4294967295 /\
  FormatClockSpeed (crt := current_crt) extreme_clocks 0 = "4294967.50 MHz" /\
  FormatClockSpeed (crt := legacy_crt) extreme_clocks 0 = "4294967.50 MHz" /\
  rendered_to_two_decimals 4294967295 1000
    (number_part (FormatClockSpeed (crt := current_crt) extreme_clocks 0)) = false /\
  rendered_to_two_decimals 4294967295 1000
    (number_part (FormatClockSpeed (crt := legacy_crt) extreme_clocks 0)) = false.
Proof. split_and; vm_compute; reflexivity. Qed.

(** C6 on a driver that lists only unusable boards: no device, failure. *)
Lemma startup_failure_exits_witness :
  result_of (EnumerateGPUs (nv := driver unusable_boards)) 0 = [] /\
  result_of (main (nv := driver unusable_boards) (crt := current_crt) 3) 0
  = Exited EXIT_FAILURE.
Proof.
  assert (Hnone : result_of (EnumerateGPUs (nv := driver unusable_boards)) 0 = [])
    by (vm_compute; reflexivity).
  split; [exact Hnone | ].
  pose proof (proj1 (startup_failure_exits (nv := driver unusable_boards)
                       (crt := current_crt) 0 2)) as Hexit.
  cbv zeta in Hexit.
  change (fst (NvAPI_Initialize 0)) with (NvOk (A := unit) tt) in Hexit.
  cbv iota in Hexit.
  exact (proj1 (Hexit Hnone)).
Defined.

(** C7 on the first board: 8 GiB in all, 1 GiB available, 7 GiB used. *)
Lemma memory_usage_is_total_minus_available_witness :
  let gpu := {| physical_gpu := 11; name := "GeForce A"; vram_in_kb := 8388608 |} in
  let info := {| curAvailableDedicatedVideoMemory := 1048576 |} in
  fst (NvAPI_GPU_GetMemoryInfo (Provider := driver three_boards) (physical_gpu gpu) 0)
  = NvOk info /\
  is_u32 (vram_in_kb gpu) /\
  is_u32 (curAvailableDedicatedVideoMemory info) /\
  u32_sub (vram_in_kb gpu) (curAvailableDedicatedVideoMemory info) = 7340032.
Proof.
  intros gpu info.
  assert (Hq : fst (NvAPI_GPU_GetMemoryInfo (Provider := driver three_boards)
                      (physical_gpu gpu) 0) = NvOk info) by reflexivity.
  assert (Hv : is_u32 (vram_in_kb gpu)) by (unfold is_u32, u32_modulus; simpl; lia).
  assert (Ha : is_u32 (curAvailableDedicatedVideoMemory info))
    by (unfold is_u32, u32_modulus; simpl; lia).
  split; [exact Hq | ]. split; [exact Hv | ]. split; [exact Ha | ].
  pose proof (memory_usage_is_total_minus_available (nv := driver three_boards)
                (crt := current_crt) gpu 0 info Hq Hv Ha) as Hmem.
  cbv zeta in Hmem. destruct Hmem as (_ & _ & _ & Hexact & _).
  rewrite Hexact; [reflexivity | simpl; lia].
Defined.

(** C9 on 512 KiB and on a clock of 1,815,000 kHz. *)
Lemma formatters_total_and_stable_witness :
  let f := clock_table NV_GPU_CLOCK_FREQUENCIES_CURRENT_FREQ 1815000 7000000 in
  is_u32 512 /\ is_u32 (frequency (domain_at f 0)) /\
  (String.length (FormatSizeKB (crt := current_crt) 512%Z) <= 30)%nat /\
  (String.length (FormatClockSpeed (crt := current_crt) f 0%Z) <= 33)%nat.
Proof.
  intros f.
  assert (Hs : is_u32 512) by (unfold is_u32, u32_modulus; lia).
  assert (Hf : is_u32 (frequency (domain_at f 0)))
    by (unfold is_u32, u32_modulus; simpl; lia).
  split; [exact Hs | ]. split; [exact Hf | ].
  pose proof (formatters_total_and_stable (crt := current_crt) 512 f 0 Hs Hf)
    as (Hlen1 & _ & Hlen2 & _).
  split; [exact Hlen1 | exact Hlen2].
Defined.

End OnTheSimulatedDriver.

(** ** More of the program: diagnostics, the static report, whole runs *)

Section DiagnosticFacts.

Import Text Readback.

Lemma hex_digit_value_char (d : Z) : 0 <= d < 16 -> hex_digit_value (hex_char d) = d.
Proof.
  intros Hd.
  assert (H : d = 0 \/ d = 1 \/ d = 2 \/ d = 3 \/ d = 4 \/ d = 5 \/ d = 6 \/ d = 7 \/ d = 8
              \/ d = 9 \/ d = 10 \/ d = 11 \/ d = 12 \/ d = 13 \/ d = 14 \/ d = 15) by lia.
  repeat (destruct H as [-> | H]; [reflexivity | ]). subst d. reflexivity.
Qed.

Lemma hex_digit_at_value (n i : Z) :
  0 <= i -> hex_digit_value (hex_digit_at n i) = (n / 16 ^ i) mod 16.
Proof.
  intros Hi. unfold hex_digit_at.
  change 15 with (Z.ones 4). rewrite Z.land_ones by lia.
  rewrite Z.shiftr_div_pow2 by lia.
  replace (2 ^ (4 * i)) with (16 ^ i)
    by (change 16 with (2 ^ 4); rewrite <- Z.pow_mul_r by lia; reflexivity).
  change (2 ^ 4) with 16.
  apply hex_digit_value_char. apply Z.mod_pos_bound. lia.
Qed.

(** Reading the eight digits of ["%08X"] back gives the 32-bit value. *)
Lemma fmt_08X_value (n : Z) : 0 <= n < 2 ^ 32 -> hex_value (fmt_08X n) = n.
Proof.
  intros Hn. unfold hex_value, fmt_08X. cbn [hex_value_from].
  rewrite !hex_digit_at_value by lia.
  change (16 ^ 0) with 1. change (16 ^ 1) with 16. change (16 ^ 2) with 256.
  change (16 ^ 3) with 4096. change (16 ^ 4) with 65536. change (16 ^ 5) with 1048576.
  change (16 ^ 6) with 16777216. change (16 ^ 7) with 268435456.
  change (2 ^ 32) with 4294967296 in Hn.
  Z.div_mod_to_equations. lia.
Qed.

Lemma truncate_length (n : nat) (s : string) : (String.length (truncate n s) <= n)%nat.
Proof.
  revert s; induction n as [ | n IH]; intros [ | c s]; simpl; try lia.
  specialize (IH s). lia.
Qed.

Lemma truncate_long_prefix (n : nat) (a b : string) :
  (n <= String.length a)%nat -> truncate n (a ++ b) = truncate n a.
Proof.
  revert a; induction n as [ | n IH]; intros [ | c a] Hn; simpl in *; try reflexivity; try lia.
  rewrite IH by lia. reflexivity.
Qed.

(** X1. The buffer of [PrintError] holds the message, ["Error 0x"], the
    status as eight uppercase hexadecimal digits of its unsigned 32-bit
    value, and a line feed, as long as the message has at most 238
    characters: the text is 17 characters longer than the message and
    reading the digits back gives the status modulo 2^32. *)
Theorem PrintError_buf_format (error : NvAPI_Status) (msg : string) :
  (String.length msg <= 238)%nat ->
  PrintError_buf error msg
  = msg ++ "Error 0x" ++ fmt_08X (to_unsigned error) ++ newline /\
  String.length (PrintError_buf error msg) = (String.length msg + 17)%nat /\
  hex_value (fmt_08X (to_unsigned error)) = error mod 2 ^ 32 /\
  ends_with newline (PrintError_buf error msg) = true.
Proof.
  intros Hlen.
  assert (Hfull : String.length (msg ++ "Error 0x" ++ fmt_08X (to_unsigned error) ++ newline)
                  = (String.length msg + 17)%nat)
    by (rewrite length_append; reflexivity).
  assert (E : PrintError_buf error msg
              = msg ++ "Error 0x" ++ fmt_08X (to_unsigned error) ++ newline).
  { unfold PrintError_buf. apply snprintf_s_fits. rewrite Hfull. lia. }
  split; [exact E | ]. split; [rewrite E; exact Hfull | ].
  split.
  - apply fmt_08X_value. apply Z.mod_pos_bound. reflexivity.
  - rewrite E.
    replace (msg ++ "Error 0x" ++ fmt_08X (to_unsigned error) ++ newline)
      with ((msg ++ "Error 0x" ++ fmt_08X (to_unsigned error)) ++ newline)
      by (rewrite !append_assoc; reflexivity).
    rewrite ends_with_append by reflexivity. reflexivity.
Qed.

(** X2. The buffer of [PrintError] never holds more than 255 characters,
    and a message of 255 characters or more fills it alone: the status
    code and the line feed are cut off. *)
Theorem PrintError_buf_truncates (error : NvAPI_Status) (msg : string) :
  (String.length (PrintError_buf error msg) <= 255)%nat /\
  ((255 <= String.length msg)%nat ->
   PrintError_buf error msg = truncate 255 msg /\
   String.length (PrintError_buf error msg) = 255%nat /\
   starts_with (PrintError_buf error msg) msg = true).
Proof.
  unfold PrintError_buf, snprintf_s. change (256 - 1)%nat with 255%nat.
  split; [apply truncate_length | ].
  intros Hlong. rewrite truncate_long_prefix by assumption.
  split; [reflexivity | ]. split.
  - clear error. revert Hlong. generalize 255%nat.
    intros n; revert msg; induction n as [ | n IH]; intros [ | c s] Hn; simpl in *;
      try reflexivity; try lia.
    rewrite IH by lia. reflexivity.
  - clear error Hlong. generalize 255%nat.
    intros n; revert msg; induction n as [ | n IH]; intros [ | c s]; simpl;
      try reflexivity.
    rewrite Ascii.eqb_refl, IH. reflexivity.
Qed.

End DiagnosticFacts.

Section FormatterExtras.

Context {crt : CRuntime}.

Import Text Printf.

Lemma round_div_exact (ties : tie_break) (q b : Z) :
  0 <= q -> 0 < b -> round_div ties (q * b) b = q.
Proof.
  intros Hq Hb.
  pose proof (round_div_bound ties (q * b) b ltac:(nia) Hb) as [_ Hn].
  set (n := round_div ties (q * b) b) in *. nia.
Qed.

Lemma fixed2_whole (k : Z) : 0 <= k -> fixed2 false (100 * k) = fmt_u k ++ ".00".
Proof.
  intros Hk. unfold fixed2. cbn [append].
  replace (100 * k / 100) with k by (rewrite Z.mul_comm, Z.div_mul by lia; reflexivity).
  replace (100 * k / 10 mod 10) with 0
    by (replace (100 * k) with (10 * k * 10) by lia; rewrite Z.div_mul by lia;
        rewrite Z.mul_comm, Z.mod_mul by lia; reflexivity).
  replace (100 * k mod 10) with 0
    by (replace (100 * k) with (10 * k * 10) by lia; rewrite Z.mod_mul by lia; reflexivity).
  reflexivity.
Qed.

(** X3. Below 2^24 kHz a present clock whose last digit is not 5 is
    printed as the hundredth of a MHz nearest to it; in particular a clock
    that is a whole number of hundredths is printed exactly. *)
Theorem FormatClockSpeed_nearest_hundredth
  (frequencies : NV_GPU_CLOCK_FREQUENCIES) (d : NvU32) :
  let freq := frequency (domain_at frequencies d) in
  bIsPresent (domain_at frequencies d) = true ->
  0 <= freq < 2 ^ 24 -> freq mod 10 <> 5 ->
  FormatClockSpeed frequencies d = fixed2 false ((freq + 5) / 10) ++ " MHz" /\
  (freq mod 10 = 0 -> FormatClockSpeed frequencies d = fixed2 false (freq / 10) ++ " MHz").
Proof.
  intros freq Hp Hf Hmod. unfold freq in *.
  assert (Hu : is_u32 (frequency (domain_at frequencies d))).
  { unfold is_u32, u32_modulus. change (2 ^ 24) with 16777216 in Hf.
    change (2 ^ 32) with 4294967296. lia. }
  destruct (FormatClockSpeed_present frequencies d Hp Hu) as (n & Hn & Etext & _ & Hacc).
  specialize (Hacc ltac:(lia)).
  set (f := frequency (domain_at frequencies d)) in *.
  assert (En : n = (f + 5) / 10) by (Z.div_mod_to_equations; lia).
  split.
  - rewrite Etext, En. reflexivity.
  - intros H0. rewrite Etext. replace n with (f / 10); [reflexivity | ].
    Z.div_mod_to_equations. lia.
Qed.

(** X4. A size that is a whole number of MiB, from 2 to 1024 of them, is
    printed as that number followed by [".00 MiB"]; a size that is a whole
    number of GiB, from 2 to 4095 of them, as that number followed by
    [".00 GiB"]: the conversion to single precision never shows. *)
Theorem FormatSizeKB_whole_units (k : Z) :
  (2 <= k <= 1024 -> FormatSizeKB (1024 * k) = fmt_u k ++ ".00" ++ " MiB") /\
  (2 <= k <= 4095 -> FormatSizeKB (1048576 * k) = fmt_u k ++ ".00" ++ " GiB").
Proof.
  split; intros Hk.
  - rewrite FormatSizeKB_MiB by lia.
    replace (100 * (1024 * k)) with (100 * k * 1024) by lia.
    rewrite round_div_exact by lia. rewrite fixed2_whole by lia.
    rewrite append_assoc. reflexivity.
  - assert (Hv : is_u32 (1048576 * k)).
    { unfold is_u32, u32_modulus. change (2 ^ 32) with 4294967296. lia. }
    destruct (FormatSizeKB_GiB (1048576 * k) Hv ltac:(lia)) as (v' & _ & Hnear & E).
    rewrite E.
    pose proof (round_div_bound printf_ties (100 * v') 1048576 ltac:(lia) ltac:(lia))
      as [_ Hb].
    set (n := round_div printf_ties (100 * v') 1048576) in *.
    assert (En : n = 100 * k) by lia.
    rewrite En, fixed2_whole by lia. rewrite append_assoc. reflexivity.
Qed.

(** X5. The number [FormatSizeKB] prints is never below 1.00 in MiB or in
    GiB, never above 1024.00 in MiB and never above 4096.00 in GiB: the
    unit is always the largest one that keeps the number at 1 or more. *)
Theorem FormatSizeKB_number_range (size_in_kb : NvU32) :
  is_u32 size_in_kb ->
  (1048576 < size_in_kb ->
   exists n : Z, 100 <= n <= 409600 /\
     FormatSizeKB size_in_kb = fixed2 false n ++ " GiB") /\
  (1024 < size_in_kb <= 1048576 ->
   exists n : Z, 100 <= n <= 102400 /\
     FormatSizeKB size_in_kb = fixed2 false n ++ " MiB").
Proof.
  intros Hv. pose proof Hv as [Hv0 Hv1]. unfold u32_modulus in Hv1.
  change (2 ^ 32) with 4294967296 in Hv1.
  split; intros Hc.
  - destruct (FormatSizeKB_GiB size_in_kb Hv Hc) as (v' & Hsame & Hnear & E).
    exists (round_div printf_ties (100 * v') 1048576). split; [ | exact E].
    pose proof (round_div_bound printf_ties (100 * v') 1048576 ltac:(lia) ltac:(lia))
      as [_ Hb].
    set (n := round_div printf_ties (100 * v') 1048576) in *.
    change (2 ^ 24) with 16777216 in Hsame.
    destruct (Z_lt_ge_dec size_in_kb 16777216) as [Hs | Hs].
    + rewrite (Hsame Hs) in Hb. lia.
    + lia.
  - exists (round_div printf_ties (100 * size_in_kb) 1024).
    split; [ | apply FormatSizeKB_MiB; exact Hc].
    pose proof (round_div_bound printf_ties (100 * size_in_kb) 1024 ltac:(lia) ltac:(lia))
      as [_ Hb].
    lia.
Qed.

End FormatterExtras.

Section ReporterExtras.

Context {world : Type} {nv : Provider world} {crt : CRuntime}.

Import Observe Calls.

Lemma PrintGPUClockInfo_trace (gpu : GPUInfo) (w : world) :
  trace_of (PrintGPUClockInfo gpu) w =
  match fst (NvAPI_GPU_GetAllClockFrequencies (physical_gpu gpu)
               NV_GPU_CLOCK_FREQUENCIES_BASE_CLOCK w) with
  | NvErr status =>
      [ Called (ApiGetAllClockFrequencies (physical_gpu gpu)
                  NV_GPU_CLOCK_FREQUENCIES_BASE_CLOCK) (Failed status);
        Stderr (PrintError_buf status "NvAPI_GPU_GetAllClockFrequencies failed:") ]
  | NvOk base_frequencies =>
      let boost :=
        fst (NvAPI_GPU_GetAllClockFrequencies (physical_gpu gpu)
               NV_GPU_CLOCK_FREQUENCIES_BOOST_CLOCK
               (snd (NvAPI_GPU_GetAllClockFrequencies (physical_gpu gpu)
                       NV_GPU_CLOCK_FREQUENCIES_BASE_CLOCK w))) in
      let note (domain : NvU32) : trace :=
        match boost with
        | NvOk boost_frequencies =>
            [ Stdout (" (boost " ++ FormatClockSpeed boost_frequencies domain ++ ")") ]
        | NvErr _ => []
        end in
      (Called (ApiGetAllClockFrequencies (physical_gpu gpu)
                 NV_GPU_CLOCK_FREQUENCIES_BASE_CLOCK) Succeeded
       :: Called (ApiGetAllClockFrequencies (physical_gpu gpu)
                    NV_GPU_CLOCK_FREQUENCIES_BOOST_CLOCK) (outcome_of boost)
       :: Stdout ("Graphics clock speed: "
                  ++ FormatClockSpeed base_frequencies NVAPI_GPU_PUBLIC_CLOCK_GRAPHICS)
       :: note NVAPI_GPU_PUBLIC_CLOCK_GRAPHICS
       ++ Stdout newline
       :: Stdout ("Memory clock speed: "
                  ++ FormatClockSpeed base_frequencies NVAPI_GPU_PUBLIC_CLOCK_MEMORY)
       :: note NVAPI_GPU_PUBLIC_CLOCK_MEMORY
       ++ [ Stdout newline ])%list
  end.
Proof.
  unfold PrintGPUClockInfo, PrintError, trace_of, bind, call, emit, ret.
  destruct (NvAPI_GPU_GetAllClockFrequencies _ NV_GPU_CLOCK_FREQUENCIES_BASE_CLOCK w)
    as [[base | status] w1]; [ | reflexivity].
  cbn [fst snd].
  destruct (NvAPI_GPU_GetAllClockFrequencies _ NV_GPU_CLOCK_FREQUENCIES_BOOST_CLOCK w1)
    as [[boost | status] w2]; reflexivity.
Qed.

(** X6. The static clock report asks for the base clocks first.  When that
    fails it writes one diagnostic line, prints nothing and does not ask
    for the boost clocks.  When it succeeds it asks for the boost clocks
    once and prints the graphics line and the memory line; a failed boost
    query is silent: the two lines merely lack their boost part and
    nothing goes to [stderr]. *)
Theorem static_clock_report (gpu : GPUInfo) (w : world) :
  let h := physical_gpu gpu in
  let base_call := NvAPI_GPU_GetAllClockFrequencies h NV_GPU_CLOCK_FREQUENCIES_BASE_CLOCK w in
  let boost_call :=
    NvAPI_GPU_GetAllClockFrequencies h NV_GPU_CLOCK_FREQUENCIES_BOOST_CLOCK (snd base_call) in
  let t := trace_of (PrintGPUClockInfo gpu) w in
  match fst base_call with
  | NvErr status =>
      calls_of t
      = [ (ApiGetAllClockFrequencies h NV_GPU_CLOCK_FREQUENCIES_BASE_CLOCK, Failed status) ] /\
      stdout_of t = [] /\
      stderr_of t = [ PrintError_buf status "NvAPI_GPU_GetAllClockFrequencies failed:" ]
  | NvOk base =>
      calls_of t
      = [ (ApiGetAllClockFrequencies h NV_GPU_CLOCK_FREQUENCIES_BASE_CLOCK, Succeeded);
          (ApiGetAllClockFrequencies h NV_GPU_CLOCK_FREQUENCIES_BOOST_CLOCK,
           outcome_of (fst boost_call)) ] /\
      stderr_of t = [] /\
      stdout_of t =
        match fst boost_call with
        | NvOk boost =>
            [ "Graphics clock speed: "
              ++ FormatClockSpeed base NVAPI_GPU_PUBLIC_CLOCK_GRAPHICS;
              " (boost " ++ FormatClockSpeed boost NVAPI_GPU_PUBLIC_CLOCK_GRAPHICS ++ ")";
              newline;
              "Memory clock speed: "
              ++ FormatClockSpeed base NVAPI_GPU_PUBLIC_CLOCK_MEMORY;
              " (boost " ++ FormatClockSpeed boost NVAPI_GPU_PUBLIC_CLOCK_MEMORY ++ ")";
              newline ]
        | NvErr _ =>
            [ "Graphics clock speed: "
              ++ FormatClockSpeed base NVAPI_GPU_PUBLIC_CLOCK_GRAPHICS;
              newline;
              "Memory clock speed: "
              ++ FormatClockSpeed base NVAPI_GPU_PUBLIC_CLOCK_MEMORY;
              newline ]
        end
  end.
Proof.
  cbv zeta. rewrite PrintGPUClockInfo_trace.
  destruct (fst (NvAPI_GPU_GetAllClockFrequencies (physical_gpu gpu)
                   NV_GPU_CLOCK_FREQUENCIES_BASE_CLOCK w)) as [base | status].
  - cbv zeta.
    destruct (fst (NvAPI_GPU_GetAllClockFrequencies (physical_gpu gpu)
                     NV_GPU_CLOCK_FREQUENCIES_BOOST_CLOCK _)) as [boost | status];
      split_and; reflexivity.
  - split_and; reflexivity.
Qed.

Lemma PrintGPUInfo_trace (gpu : GPUInfo) (w : world) :
  trace_of (PrintGPUInfo gpu) w
  = (name_line gpu :: Stdout divider :: trace_of (PrintGPUClockInfo gpu) w)%list.
Proof.
  unfold PrintGPUInfo, trace_of, bind, emit.
  destruct (PrintGPUClockInfo gpu w) as [[u w1] t1]. reflexivity.
Qed.

(** The counts of one static report. *)
Lemma static_report_counts (gpu : GPUInfo) (w : world) :
  let t := trace_of (PrintGPUInfo gpu) w in
  filter is_name_line t = [ name_line gpu ] /\
  occurrences (is_call base_clock_api) t = 1%nat /\
  (occurrences (is_call boost_clock_api) t
   + occurrences (is_failed_call base_clock_api) t = 1)%nat /\
  (occurrences is_graphics_clock_field t
   + occurrences (is_failed_call base_clock_api) t = 1)%nat /\
  occurrences is_memory_clock_field t = occurrences is_graphics_clock_field t /\
  occurrences is_stdout_line_end t = (2 * occurrences is_graphics_clock_field t)%nat /\
  (occurrences is_boost_note t + 2 * occurrences (is_failed_call boost_clock_api) t
   = 2 * occurrences (is_call boost_clock_api) t)%nat /\
  occurrences is_diagnostic t = occurrences (is_failed_call base_clock_api) t /\
  occurrences is_sampling t = 0%nat /\
  occurrences is_teardown t = 0%nat.
Proof.
  intros t.
  assert (E : t = trace_of (PrintGPUInfo gpu) w) by reflexivity.
  clearbody t. revert E.
  rewrite PrintGPUInfo_trace, PrintGPUClockInfo_trace. unfold name_line.
  destruct (fst (NvAPI_GPU_GetAllClockFrequencies (physical_gpu gpu)
                   NV_GPU_CLOCK_FREQUENCIES_BASE_CLOCK w)) as [base | status].
  - cbv zeta.
    destruct (fst (NvAPI_GPU_GetAllClockFrequencies (physical_gpu gpu)
                     NV_GPU_CLOCK_FREQUENCIES_BOOST_CLOCK _)) as [boost | status];
      forget_texts; intros ->; split_and; vm_compute; reflexivity.
  - unfold PrintError_buf, Text.fmt_08X. forget_texts. intros ->.
    split_and; vm_compute; reflexivity.
Qed.

Lemma filter_for_each_cons {A : Type} (p : event -> bool) (x : A) (l : list A)
  (body : A -> M unit) (w : world) :
  filter p (trace_of (for_each (x :: l) body) w) =
  (filter p (trace_of (body x) w)
   ++ filter p (trace_of (for_each l body) (world_after (body x) w)))%list.
Proof. rewrite trace_of_for_each_cons, filter_app. reflexivity. Qed.

(** X7. The static reports of the startup: every device of the catalog
    gets its name line, in catalog order, also when its clocks cannot be
    read; the base clocks are asked once per device and the boost clocks
    once per device whose base clocks were read; only a failed base query
    writes a diagnostic line; no live metric is queried. *)
Theorem static_reports_cover_the_catalog (gpus : list GPUInfo) (w : world) :
  let t := trace_of (for_each gpus PrintGPUInfo) w in
  let n := List.length gpus in
  filter is_name_line t = map name_line gpus /\
  occurrences (is_call base_clock_api) t = n /\
  (occurrences (is_call boost_clock_api) t
   + occurrences (is_failed_call base_clock_api) t = n)%nat /\
  (occurrences is_graphics_clock_field t
   + occurrences (is_failed_call base_clock_api) t = n)%nat /\
  occurrences is_memory_clock_field t = occurrences is_graphics_clock_field t /\
  occurrences is_stdout_line_end t = (2 * occurrences is_graphics_clock_field t)%nat /\
  (occurrences is_boost_note t + 2 * occurrences (is_failed_call boost_clock_api) t
   = 2 * occurrences (is_call boost_clock_api) t)%nat /\
  occurrences is_diagnostic t = occurrences (is_failed_call base_clock_api) t /\
  occurrences is_sampling t = 0%nat /\
  occurrences is_teardown t = 0%nat.
Proof.
  cbv zeta. revert w. induction gpus as [ | gpu rest IH]; intros w.
  - change (trace_of (for_each [] PrintGPUInfo) w) with (@nil event).
    split_and; unfold occurrences; cbn [filter List.length map]; lia || reflexivity.
  - rewrite filter_for_each_cons, trace_of_for_each_cons.
    pose proof (static_report_counts gpu w) as (D1 & D2 & D3 & D4 & D5 & D6 & D7 & D8 & D9 & D10).
    destruct (IH (world_after (PrintGPUInfo gpu) w))
      as (I1 & I2 & I3 & I4 & I5 & I6 & I7 & I8 & I9 & I10).
    set (t1 := trace_of (PrintGPUInfo gpu) w) in *.
    set (t2 := trace_of (for_each rest PrintGPUInfo) _) in *.
    clearbody t1 t2.
    rewrite !occurrences_app. cbn [List.length map].
    split_and; try lia.
    rewrite D1, I1. reflexivity.
Qed.

End ReporterExtras.

Section StatusReportExtras.

Context {world : Type} {nv : Provider world} {crt : CRuntime}.

Import Observe Calls.

Lemma calls_of_app (t1 t2 : trace) :
  calls_of (t1 ++ t2)%list = (calls_of t1 ++ calls_of t2)%list.
Proof. unfold calls_of. apply flat_map_app. Qed.

(** X8. A status report makes exactly four driver calls, all for the
    handle of its own device and always in the same order: current clocks,
    thermal settings, tachometer, memory.  Each call is made whatever the
    calls before it returned, and the report does nothing else to the
    driver. *)
Theorem status_report_calls (gpu : GPUInfo) (w : world) :
  let h := physical_gpu gpu in
  let c1 := NvAPI_GPU_GetAllClockFrequencies h NV_GPU_CLOCK_FREQUENCIES_CURRENT_FREQ w in
  let c2 := NvAPI_GPU_GetThermalSettings h (snd c1) in
  let c3 := NvAPI_GPU_GetTachReading h (snd c2) in
  let c4 := NvAPI_GPU_GetMemoryInfo h (snd c3) in
  calls_of (trace_of (PrintGPUStatus gpu) w)
  = [ (ApiGetAllClockFrequencies h NV_GPU_CLOCK_FREQUENCIES_CURRENT_FREQ,
       outcome_of (fst c1));
      (ApiGetThermalSettings h, outcome_of (fst c2));
      (ApiGetTachReading h, outcome_of (fst c3));
      (ApiGetMemoryInfo h, outcome_of (fst c4)) ] /\
  world_after (PrintGPUStatus gpu) w = snd c4.
Proof.
  cbv zeta. split.
  - rewrite PrintGPUStatus_trace. cbv zeta.
    rewrite world_after_PrintGPUCurrentFanSpeed, world_after_PrintGPUCurrentTemperature,
      world_after_PrintGPUCurrentClocks.
    rewrite PrintGPUCurrentClocks_trace, PrintGPUCurrentTemperature_trace,
      PrintGPUCurrentFanSpeed_trace, PrintGPUCurrentMemoryUsage_trace.
    set (c1 := NvAPI_GPU_GetAllClockFrequencies (physical_gpu gpu)
                 NV_GPU_CLOCK_FREQUENCIES_CURRENT_FREQ w).
    set (c2 := NvAPI_GPU_GetThermalSettings (physical_gpu gpu) (snd c1)).
    set (c3 := NvAPI_GPU_GetTachReading (physical_gpu gpu) (snd c2)).
    set (c4 := NvAPI_GPU_GetMemoryInfo (physical_gpu gpu) (snd c3)).
    destruct (fst c1) as [f | s1]; (destruct (fst c2) as [th | s2];
      [destruct (count th >? 0) | ]); destruct (fst c3) as [v | s3];
      destruct (fst c4) as [mi | s4]; reflexivity.
  - rewrite world_after_PrintGPUStatus, world_after_PrintGPUCurrentMemoryUsage,
      world_after_PrintGPUCurrentFanSpeed, world_after_PrintGPUCurrentTemperature,
      world_after_PrintGPUCurrentClocks.
    reflexivity.
Qed.

Lemma status_report_name_line (gpu : GPUInfo) (w : world) :
  filter is_name_line (trace_of (PrintGPUStatus gpu) w) = [ name_line gpu ].
Proof.
  rewrite PrintGPUStatus_trace. cbv zeta.
  rewrite PrintGPUCurrentClocks_trace, PrintGPUCurrentTemperature_trace,
    PrintGPUCurrentFanSpeed_trace, PrintGPUCurrentMemoryUsage_trace.
  unfold name_line.
  destruct (fst (NvAPI_GPU_GetAllClockFrequencies _ _ _)) as [frequencies | s1];
    (destruct (fst (NvAPI_GPU_GetThermalSettings _ _)) as [thermal | s2];
      [destruct (count thermal >? 0) | ]);
    destruct (fst (NvAPI_GPU_GetTachReading _ _)) as [value | s3];
    destruct (fst (NvAPI_GPU_GetMemoryInfo _ _)) as [memory_info | s4];
    unfold PrintError_buf, Text.fmt_08X; forget_texts; vm_compute; reflexivity.
Qed.

(** X9. The name lines of a pass are the names recorded at enumeration, one
    per device and in catalog order, whatever the driver answers during the
    pass. *)
Theorem pass_prints_the_catalog_names (gpus : list GPUInfo) (w : world) :
  filter is_name_line (trace_of (for_each gpus PrintGPUStatus) w) = map name_line gpus.
Proof.
  revert w. induction gpus as [ | gpu rest IH]; intros w.
  - reflexivity.
  - rewrite filter_for_each_cons, status_report_name_line, IH. reflexivity.
Qed.

Lemma to_int_range (x : Z) :
  - 2 ^ 31 <= to_int x < 2 ^ 31 /\ (to_int x - x) mod 2 ^ 32 = 0.
Proof.
  unfold to_int, u32_modulus. cbv zeta.
  change (2 ^ 32) with 4294967296. change (2 ^ 31) with 2147483648.
  pose proof (Z.mod_pos_bound x 4294967296 ltac:(lia)) as Hb.
  pose proof (Z.div_mod x 4294967296 ltac:(lia)) as Hd.
  destruct (Z.ltb_spec (x mod 4294967296) 2147483648) as [Hlt | Hge].
  - split; [lia | ].
    replace (x mod 4294967296 - x) with ((- (x / 4294967296)) * 4294967296) by lia.
    apply Z.mod_mul. lia.
  - split; [lia | ].
    replace (x mod 4294967296 - 4294967296 - x)
      with ((- (x / 4294967296) - 1) * 4294967296) by lia.
    apply Z.mod_mul. lia.
Qed.

(** X10. The temperature is printed as a signed number: the digits after
    ["Temperature: "], with a minus sign in front when the reading of the
    first sensor has its top bit set, read back as the absolute value of
    that reading taken as a 32-bit two's complement integer. *)
Theorem temperature_reads_back
  (gpu : GPUInfo) (w : world) (thermal : NV_GPU_THERMAL_SETTINGS) :
  fst (NvAPI_GPU_GetThermalSettings (physical_gpu gpu) w) = NvOk thermal ->
  0 < count thermal ->
  let raw := currentTemp (nth 0 (sensor thermal) zero_sensor) in
  let temp := to_int raw in
  exists digits : string,
    stdout_of (trace_of (PrintGPUCurrentTemperature gpu) w)
    = [ "Temperature: " ++ (if temp <? 0 then "-" else "") ++ digits ++ "C"; tab ] /\
    Text.all_digits digits = true /\
    Text.dec_value digits = Z.abs temp /\
    - 2 ^ 31 <= temp < 2 ^ 31 /\
    (temp - raw) mod 2 ^ 32 = 0.
Proof.
  intros Hq Hcount. cbv zeta.
  rewrite PrintGPUCurrentTemperature_trace, Hq.
  destruct (Z.gtb_spec (count thermal) 0) as [_ | Hno]; [ | lia].
  set (temp := to_int (currentTemp (nth 0 (sensor thermal) zero_sensor))).
  destruct (to_int_range (currentTemp (nth 0 (sensor thermal) zero_sensor))) as [Hr Hm].
  fold temp in Hr, Hm.
  exists (Text.fmt_u (Z.abs temp)).
  split_and; try assumption; try lia.
  - cbn [stdout_of flat_map app]. unfold Text.fmt_d.
    destruct (Z.ltb_spec temp 0) as [Hneg | Hpos].
    + rewrite Z.abs_neq by lia. rewrite !append_assoc. reflexivity.
    + rewrite Z.abs_eq by lia. reflexivity.
  - apply fmt_u_all_digits. lia.
  - apply fmt_u_value. lia.
Qed.

(** X11. The fan speed is printed as an unsigned number: the digits
    between ["Fan speed: "] and [" RPM"] read back as the tachometer
    reading modulo 2^32. *)
Theorem fan_speed_reads_back (gpu : GPUInfo) (w : world) (value : NvU32) :
  fst (NvAPI_GPU_GetTachReading (physical_gpu gpu) w) = NvOk value ->
  exists digits : string,
    stdout_of (trace_of (PrintGPUCurrentFanSpeed gpu) w)
    = [ "Fan speed: " ++ digits ++ " RPM" ++ tab ] /\
    Text.all_digits digits = true /\
    Text.dec_value digits = value mod 2 ^ 32 /\
    stderr_of (trace_of (PrintGPUCurrentFanSpeed gpu) w) = [].
Proof.
  intros Hq. rewrite PrintGPUCurrentFanSpeed_trace, Hq.
  pose proof (Z.mod_pos_bound value (2 ^ 32) ltac:(lia)) as Hb.
  exists (Text.fmt_u (to_unsigned value)). unfold to_unsigned, u32_modulus.
  split_and; try reflexivity.
  - apply fmt_u_all_digits. lia.
  - apply fmt_u_value. lia.
Qed.

Lemma tabs_follow_fields_app (t2 : trace) (n : nat) :
  forall t1 : trace,
  (List.length t1 <= n)%nat ->
  tabs_follow_fields t1 = true ->
  tabs_follow_fields (t1 ++ t2)%list = tabs_follow_fields t2.
Proof.
  induction n as [ | n IH]; intros t1 Hlen Hok.
  - destruct t1; [reflexivity | cbn [List.length] in Hlen; lia].
  - destruct t1 as [ | e r]; [reflexivity | ].
    cbn [List.length] in Hlen. cbn [tabs_follow_fields app] in Hok |- *.
    destruct (is_tabbed_field e).
    + destruct r as [ | e' r']; [discriminate Hok | ].
      cbn [List.length] in Hlen. cbn [app].
      apply andb_prop in Hok. destruct Hok as [-> Hok].
      cbn [andb]. apply IH; [lia | exact Hok].
    + apply andb_prop in Hok. destruct Hok as [-> Hok].
      cbn [andb]. apply IH; [lia | exact Hok].
Qed.

(** The layout of one status report. *)
Lemma status_report_layout (gpu : GPUInfo) (w : world) :
  let t := trace_of (PrintGPUStatus gpu) w in
  occurrences is_divider t = 2%nat /\
  occurrences is_stdout_line_end t = 4%nat /\
  tabs_follow_fields t = true /\
  occurrences is_tab_chunk t =
    (occurrences is_graphics_clock_field t + occurrences is_memory_clock_field t
     + occurrences is_temperature_field t + occurrences is_memory_usage_field t)%nat.
Proof.
  intros t.
  assert (E : t = trace_of (PrintGPUStatus gpu) w) by reflexivity.
  clearbody t. revert E.
  rewrite PrintGPUStatus_trace. cbv zeta.
  rewrite PrintGPUCurrentClocks_trace, PrintGPUCurrentTemperature_trace,
    PrintGPUCurrentFanSpeed_trace, PrintGPUCurrentMemoryUsage_trace.
  destruct (fst (NvAPI_GPU_GetAllClockFrequencies _ _ _)) as [frequencies | s1];
    (destruct (fst (NvAPI_GPU_GetThermalSettings _ _)) as [thermal | s2];
      [destruct (count thermal >? 0) | ]);
    destruct (fst (NvAPI_GPU_GetTachReading _ _)) as [value | s3];
    destruct (fst (NvAPI_GPU_GetMemoryInfo _ _)) as [memory_info | s4];
    unfold PrintError_buf, Text.fmt_08X; forget_texts; intros ->;
    split_and; vm_compute; reflexivity.
Qed.

(** X12. The layout of a pass does not depend on what the driver answers.
    Every status report has its two divider lines and its four line ends.
    What is written directly after a clock, temperature or memory field is
    a tab on its own, and a tab on its own is written nowhere else: each of
    these fields has its tab, and a field that is missing leaves no tab
    behind. *)
Theorem pass_layout (gpus : list GPUInfo) (w : world) :
  let t := trace_of (for_each gpus PrintGPUStatus) w in
  occurrences is_divider t = (2 * List.length gpus)%nat /\
  occurrences is_stdout_line_end t = (4 * List.length gpus)%nat /\
  tabs_follow_fields t = true /\
  occurrences is_tab_chunk t =
    (occurrences is_graphics_clock_field t + occurrences is_memory_clock_field t
     + occurrences is_temperature_field t + occurrences is_memory_usage_field t)%nat.
Proof.
  cbv zeta.
  revert w. induction gpus as [ | gpu rest IH]; intros w.
  - split_and; reflexivity.
  - rewrite trace_of_for_each_cons.
    pose proof (status_report_layout gpu w) as (D1 & D2 & D3 & D4).
    destruct (IH (world_after (PrintGPUStatus gpu) w)) as (I1 & I2 & I3 & I4).
    set (t1 := trace_of (PrintGPUStatus gpu) w) in *.
    set (t2 := trace_of (for_each rest PrintGPUStatus) _) in *.
    clearbody t1 t2.
    rewrite (tabs_follow_fields_app t2 (List.length t1) t1 (le_n _) D3).
    rewrite !occurrences_app. cbn [List.length]. split_and; try lia. exact I3.
Qed.

End StatusReportExtras.

Section EnumeratorExtras.

Context {world : Type} {nv : Provider world}.

Import Observe Calls.

Lemma subsequence_length (l2 l1 : list Z) :
  subsequence l1 l2 = true -> (List.length l1 <= List.length l2)%nat.
Proof.
  revert l1; induction l2 as [ | y r IH]; intros [ | x l1] Hs; cbn [List.length]; try lia.
  - discriminate Hs.
  - cbn [subsequence] in Hs. destruct (x =? y).
    + specialize (IH l1 Hs). lia.
    + specialize (IH (x :: l1) Hs). cbn [List.length] in IH. lia.
Qed.

Lemma subsequence_same_length (l2 l1 : list Z) :
  subsequence l1 l2 = true -> List.length l1 = List.length l2 -> l1 = l2.
Proof.
  revert l1; induction l2 as [ | y r IH]; intros [ | x l1] Hs Hl; cbn [List.length] in Hl;
    try reflexivity; try discriminate.
  cbn [subsequence] in Hs. destruct (Z.eqb_spec x y) as [-> | Hne].
  - f_equal. apply IH; [exact Hs | lia].
  - apply subsequence_length in Hs. cbn [List.length] in Hs. lia.
Qed.

Lemma existsb_self (handles : list NvPhysicalGpuHandle) (h : NvPhysicalGpuHandle) :
  In h handles -> existsb (Z.eqb h) handles = true.
Proof. intros Hin. apply existsb_exists. exists h. split; [exact Hin | apply Z.eqb_refl]. Qed.

Lemma trace_of_enumeration_loop (rest : list NvPhysicalGpuHandle) (acc : list GPUInfo)
  (w : world) :
  trace_of (for_each_with rest EnumerateGPUs_body acc) w
  = trace_of (for_each_with rest EnumerateGPUs_body []) w.
Proof. unfold trace_of at 1. rewrite enumeration_accumulates. reflexivity. Qed.

(** The calls of the loop of [EnumerateGPUs]: the name of every listed
    handle is asked, its memory size only when the name was given, and each
    failure leaves one line on [stderr]. *)
Lemma enumeration_loop_calls (handles : list NvPhysicalGpuHandle) :
  forall (known : list NvPhysicalGpuHandle) (w : world),
  (forall h, In h handles -> existsb (Z.eqb h) known = true) ->
  let t := trace_of (for_each_with handles EnumerateGPUs_body []) w in
  occurrences (is_call name_api) t = List.length handles /\
  (occurrences (is_call size_api) t + occurrences (is_failed_call name_api) t
   = List.length handles)%nat /\
  occurrences (is_call listing_api) t = 0%nat /\
  List.length (stderr_of t) = occurrences is_failed_resolution t /\
  forallb (enumeration_event known) t = true.
Proof.
  induction handles as [ | h rest IH]; intros known w Hknown; cbv zeta.
  - split_and; reflexivity.
  - cbn [for_each_with]. rewrite trace_of_bind.
    assert (Hh : existsb (Z.eqb h) known = true) by (apply Hknown; left; reflexivity).
    specialize (IH known (world_after (EnumerateGPUs_body h []) w)
                  (fun h' Hin => Hknown h' (or_intror Hin))).
    cbv zeta in IH.
    rewrite trace_of_enumeration_loop. destruct IH as (I1 & I2 & I3 & I4 & I5).
    set (t2 := trace_of (for_each_with rest EnumerateGPUs_body []) _) in *. clearbody t2.
    unfold stderr_of in *.
    rewrite !occurrences_app, forallb_app, flat_map_app, length_app, I1, I3, I4, I5.
    cbn [List.length].
    unfold trace_of. rewrite EnumerateGPUs_body_run.
    destruct (NvAPI_GPU_GetFullName h w) as [[str | status] w1].
    + destruct (NvAPI_GPU_GetPhysicalFrameBufferSize h w1) as [[v | status] w2];
        cbn [snd]; unfold PrintError_buf, Text.fmt_08X, Text.snprintf_s; forget_texts.
      * cbn [forallb enumeration_event listing_api name_api size_api about api_handle
               orb andb]. rewrite Hh.
        unfold occurrences in *. cbn. split_and; try reflexivity; lia.
      * cbn [forallb enumeration_event listing_api name_api size_api about api_handle
               orb andb]. rewrite Hh.
        unfold occurrences in *. cbn. split_and; try reflexivity; lia.
    + cbn [snd]. unfold PrintError_buf, Text.fmt_08X, Text.snprintf_s. forget_texts.
      cbn [forallb enumeration_event listing_api name_api size_api about api_handle
             orb andb]. rewrite Hh.
      unfold occurrences in *. cbn. split_and; try reflexivity; lia.
Qed.

(** The catalog of the loop of [EnumerateGPUs] on a driver whose answers
    about names and sizes do not change. *)
Lemma enumeration_loop_of_fixed_answers
  (name_of : NvPhysicalGpuHandle -> NvResult string)
  (size_of : NvPhysicalGpuHandle -> NvResult NvU32)
  (Hname : forall h w, fst (NvAPI_GPU_GetFullName h w) = name_of h)
  (Hsize : forall h w, fst (NvAPI_GPU_GetPhysicalFrameBufferSize h w) = size_of h)
  (handles : list NvPhysicalGpuHandle) :
  forall w : world,
  result_of (for_each_with handles EnumerateGPUs_body []) w
  = flat_map (resolved name_of size_of) handles.
Proof.
  induction handles as [ | h rest IH]; intros w; [reflexivity | ].
  cbn [for_each_with flat_map]. rewrite result_of_bind.
  unfold result_of at 1. rewrite enumeration_accumulates. cbn [fst]. rewrite IH.
  f_equal. unfold result_of, resolved. rewrite EnumerateGPUs_body_run.
  rewrite <- (Hname h w).
  destruct (NvAPI_GPU_GetFullName h w) as [[str | status] w1]; cbn [fst]; [ | reflexivity].
  rewrite <- (Hsize h w1).
  destruct (NvAPI_GPU_GetPhysicalFrameBufferSize h w1) as [[v | status] w2]; reflexivity.
Qed.

(** X13. When the listing succeeds and no query of a name or of a memory
    size fails, the catalog of [EnumerateGPUs] has exactly the listed
    handles, in the order of the listing and with their repetitions, and
    nothing is written to [stderr]. *)
Theorem enumeration_is_complete_without_failures
  (w : world) (handles : list NvPhysicalGpuHandle) :
  fst (NvAPI_EnumPhysicalGPUs w) = NvOk handles ->
  occurrences is_failed_resolution (trace_of EnumerateGPUs w) = 0%nat ->
  map physical_gpu (result_of EnumerateGPUs w) = handles /\
  List.length (result_of EnumerateGPUs w) = List.length handles /\
  stderr_of (trace_of EnumerateGPUs w) = [].
Proof.
  unfold result_of, trace_of. rewrite EnumerateGPUs_run.
  destruct (NvAPI_EnumPhysicalGPUs w) as [[hs | status] w1]; cbn [fst snd];
    [ | discriminate].
  intros [= ->].
  pose proof (enumeration_loop_facts handles w1) as (I1 & I2 & _).
  pose proof (enumeration_loop_calls handles handles w1 (existsb_self handles))
    as (_ & _ & _ & J4 & _).
  cbv zeta in I1, I2, J4.
  set (r := result_of (for_each_with handles EnumerateGPUs_body []) w1) in *.
  set (t := trace_of (for_each_with handles EnumerateGPUs_body []) w1) in *.
  clearbody r t.
  change (occurrences is_failed_resolution (Called ApiEnumPhysicalGPUs Succeeded :: t))
    with (occurrences is_failed_resolution t).
  change (stderr_of (Called ApiEnumPhysicalGPUs Succeeded :: t)) with (stderr_of t).
  intros Hnone. rewrite Hnone in I2, J4. rewrite Nat.add_0_r in I2.
  split; [ | split; [exact I2 | ]].
  - apply subsequence_same_length; [exact I1 | rewrite length_map; exact I2].
  - destruct (stderr_of t); [reflexivity | discriminate J4].
Qed.

(** X14. [EnumerateGPUs] asks for the list of devices once.  When that
    fails it makes no other call.  Otherwise it asks the name of every listed handle and the
    memory size of those whose name it got, writes one diagnostic per
    failed query, and does nothing else: no other call, no call about
    another handle, nothing on [stdout], no wait. *)
Theorem enumeration_queries (w : world) :
  let t := trace_of EnumerateGPUs w in
  occurrences (is_call listing_api) t = 1%nat /\
  match fst (NvAPI_EnumPhysicalGPUs w) with
  | NvErr status => calls_of t = [ (ApiEnumPhysicalGPUs, Failed status) ]
  | NvOk handles =>
      occurrences (is_call name_api) t = List.length handles /\
      (occurrences (is_call size_api) t + occurrences (is_failed_call name_api) t
       = List.length handles)%nat /\
      List.length (stderr_of t) = occurrences is_failed_resolution t /\
      forallb (enumeration_event handles) t = true
  end.
Proof.
  cbv zeta. unfold result_of, trace_of. rewrite EnumerateGPUs_run.
  destruct (NvAPI_EnumPhysicalGPUs w) as [[handles | status] w1]; cbn [fst snd].
  - pose proof (enumeration_loop_calls handles handles w1 (existsb_self handles))
      as (J1 & J2 & J3 & J4 & J5).
    cbv zeta in J1, J2, J3, J4, J5.
    set (t := trace_of (for_each_with handles EnumerateGPUs_body []) w1) in *.
    clearbody t.
    change (occurrences (is_call listing_api) (Called ApiEnumPhysicalGPUs Succeeded :: t))
      with (S (occurrences (is_call listing_api) t)).
    change (occurrences (is_call name_api) (Called ApiEnumPhysicalGPUs Succeeded :: t))
      with (occurrences (is_call name_api) t).
    change (occurrences (is_call size_api) (Called ApiEnumPhysicalGPUs Succeeded :: t))
      with (occurrences (is_call size_api) t).
    change (occurrences (is_failed_call name_api) (Called ApiEnumPhysicalGPUs Succeeded :: t))
      with (occurrences (is_failed_call name_api) t).
    change (occurrences is_failed_resolution (Called ApiEnumPhysicalGPUs Succeeded :: t))
      with (occurrences is_failed_resolution t).
    change (stderr_of (Called ApiEnumPhysicalGPUs Succeeded :: t)) with (stderr_of t).
    change (forallb (enumeration_event handles) (Called ApiEnumPhysicalGPUs Succeeded :: t))
      with (forallb (enumeration_event handles) t).
    rewrite J3. split_and; try assumption. reflexivity.
  - split_and; reflexivity.
Qed.

(** X15. On a driver whose answers about names and memory sizes do not
    change over time, the catalog of [EnumerateGPUs] is the listing with
    every handle replaced by its record when both answers are there, and
    left out otherwise. *)
Theorem enumeration_of_fixed_answers
  (name_of : NvPhysicalGpuHandle -> NvResult string)
  (size_of : NvPhysicalGpuHandle -> NvResult NvU32)
  (w : world) (handles : list NvPhysicalGpuHandle) :
  (forall h w', fst (NvAPI_GPU_GetFullName h w') = name_of h) ->
  (forall h w', fst (NvAPI_GPU_GetPhysicalFrameBufferSize h w') = size_of h) ->
  fst (NvAPI_EnumPhysicalGPUs w) = NvOk handles ->
  result_of EnumerateGPUs w = flat_map (resolved name_of size_of) handles.
Proof.
  intros Hname Hsize. unfold result_of. rewrite EnumerateGPUs_run.
  destruct (NvAPI_EnumPhysicalGPUs w) as [[hs | status] w1]; cbn [fst]; [ | discriminate].
  intros [= ->]. apply enumeration_loop_of_fixed_answers; assumption.
Qed.

(** What [EnumerateGPUs] does, whatever the listing answers. *)
Lemma EnumerateGPUs_events (w : world) :
  exists handles : list NvPhysicalGpuHandle,
  occurrences (is_call listing_api) (trace_of EnumerateGPUs w) = 1%nat /\
  forallb (enumeration_event handles) (trace_of EnumerateGPUs w) = true.
Proof.
  unfold trace_of. rewrite EnumerateGPUs_run.
  destruct (NvAPI_EnumPhysicalGPUs w) as [[handles | status] w1]; cbn [fst snd].
  - exists handles.
    pose proof (enumeration_loop_calls handles handles w1 (existsb_self handles))
      as (_ & _ & J3 & _ & J5).
    cbv zeta in J3, J5.
    set (t := trace_of (for_each_with handles EnumerateGPUs_body []) w1) in *.
    clearbody t.
    change (occurrences (is_call listing_api) (Called ApiEnumPhysicalGPUs Succeeded :: t))
      with (S (occurrences (is_call listing_api) t)).
    change (forallb (enumeration_event handles) (Called ApiEnumPhysicalGPUs Succeeded :: t))
      with (forallb (enumeration_event handles) t).
    rewrite J3. split; [reflexivity | exact J5].
  - exists []. unfold PrintError_buf, Text.fmt_08X. forget_texts. split; reflexivity.
Qed.

End EnumeratorExtras.

Section WholeRunExtras.

Context {world : Type} {nv : Provider world} {crt : CRuntime}.

Import Observe Calls.

Lemma occurrences_excluded (c p : event -> bool) (t : trace) :
  forallb c t = true -> (forall e, c e = true -> p e = false) ->
  occurrences p t = 0%nat.
Proof.
  intros Hall Hex. unfold occurrences. induction t as [ | e t IH]; [reflexivity | ].
  cbn [forallb] in Hall. apply andb_prop in Hall. destruct Hall as [He Ht].
  cbn [filter]. rewrite (Hex e He). apply IH. exact Ht.
Qed.

Lemma filter_excluded (c p : event -> bool) (t : trace) :
  forallb c t = true -> (forall e, c e = true -> p e = false) -> filter p t = [].
Proof.
  intros Hall Hex. pose proof (occurrences_excluded c p t Hall Hex) as Hz.
  unfold occurrences in Hz. destruct (filter p t); [reflexivity | discriminate Hz].
Qed.

Lemma about_own (gpus : list GPUInfo) (g : GPUInfo) :
  In g gpus -> existsb (Z.eqb (physical_gpu g)) (map physical_gpu gpus) = true.
Proof.
  intros Hin. apply existsb_exists. exists (physical_gpu g).
  split; [apply in_map; exact Hin | apply Z.eqb_refl].
Qed.

Lemma about_one_of (gpus : list GPUInfo) (a : api) :
  about (map physical_gpu gpus) a = true ->
  exists g, In g gpus /\ api_handle a = Some (physical_gpu g).
Proof.
  unfold about. destruct (api_handle a) as [h | ]; [ | discriminate].
  intros Hex. apply existsb_exists in Hex. destruct Hex as (h' & Hin & Heq).
  apply Z.eqb_eq in Heq. subst h'. apply in_map_iff in Hin.
  destruct Hin as (g & <- & Hg). exists g. split; [exact Hg | reflexivity].
Qed.

(** One static report: base and boost clocks of its device, [stdout], and
    the diagnostic of the clock query. *)
Lemma static_report_events (known : list NvPhysicalGpuHandle) (gpu : GPUInfo) (w : world) :
  existsb (Z.eqb (physical_gpu gpu)) known = true ->
  forallb (static_report_event known) (trace_of (PrintGPUInfo gpu) w) = true.
Proof.
  intros Hh. rewrite PrintGPUInfo_trace, PrintGPUClockInfo_trace. unfold name_line.
  destruct (fst (NvAPI_GPU_GetAllClockFrequencies (physical_gpu gpu)
                   NV_GPU_CLOCK_FREQUENCIES_BASE_CLOCK w)) as [base | status].
  - cbv zeta.
    destruct (fst (NvAPI_GPU_GetAllClockFrequencies (physical_gpu gpu)
                     NV_GPU_CLOCK_FREQUENCIES_BOOST_CLOCK _)) as [boost | status];
      forget_texts;
      cbn [forallb app static_report_event base_clock_api boost_clock_api about api_handle
             orb andb];
      rewrite Hh; reflexivity.
  - unfold PrintError_buf, Text.fmt_08X. forget_texts.
    cbn [forallb app static_report_event base_clock_api boost_clock_api about api_handle
           orb andb].
    rewrite Hh. reflexivity.
Qed.

(** One status report: the four live metrics of its device, [stdout], and
    the diagnostic that the three failing metrics share. *)
Lemma status_report_events (known : list NvPhysicalGpuHandle) (gpu : GPUInfo) (w : world) :
  existsb (Z.eqb (physical_gpu gpu)) known = true ->
  forallb (pass_event known) (trace_of (PrintGPUStatus gpu) w) = true.
Proof.
  intros Hh. rewrite PrintGPUStatus_trace. cbv zeta.
  rewrite PrintGPUCurrentClocks_trace, PrintGPUCurrentTemperature_trace,
    PrintGPUCurrentFanSpeed_trace, PrintGPUCurrentMemoryUsage_trace.
  destruct (fst (NvAPI_GPU_GetAllClockFrequencies _ _ _)) as [frequencies | s1];
    (destruct (fst (NvAPI_GPU_GetThermalSettings _ _)) as [thermal | s2];
      [destruct (count thermal >? 0) | ]);
    destruct (fst (NvAPI_GPU_GetTachReading _ _)) as [value | s3];
    destruct (fst (NvAPI_GPU_GetMemoryInfo _ _)) as [memory_info | s4];
    unfold PrintError_buf, Text.fmt_08X; forget_texts;
    cbn [forallb app pass_event live_metric_api metric_of about api_handle andb];
    rewrite Hh; reflexivity.
Qed.

Lemma static_reports_events (known : list NvPhysicalGpuHandle) (gpus : list GPUInfo) :
  forall w : world,
  (forall g, In g gpus -> existsb (Z.eqb (physical_gpu g)) known = true) ->
  let t := trace_of (for_each gpus PrintGPUInfo) w in
  filter is_name_line t = map name_line gpus /\
  occurrences (is_call base_clock_api) t = List.length gpus /\
  forallb (static_report_event known) t = true.
Proof.
  induction gpus as [ | gpu rest IH]; intros w Hknown; cbv zeta.
  - split_and; reflexivity.
  - rewrite filter_for_each_cons, trace_of_for_each_cons, occurrences_app, forallb_app.
    pose proof (static_report_counts gpu w) as (D1 & D2 & _).
    pose proof (static_report_events known gpu w (Hknown gpu (or_introl eq_refl))) as D3.
    destruct (IH (world_after (PrintGPUInfo gpu) w) (fun g Hg => Hknown g (or_intror Hg)))
      as (I1 & I2 & I3).
    cbv zeta in D1, D2. rewrite D1, D2, D3, I1, I2, I3. split_and; reflexivity.
Qed.

Lemma pass_reports_events (known : list NvPhysicalGpuHandle) (gpus : list GPUInfo) :
  forall w : world,
  (forall g, In g gpus -> existsb (Z.eqb (physical_gpu g)) known = true) ->
  let t := trace_of (for_each gpus PrintGPUStatus) w in
  filter is_name_line t = map name_line gpus /\
  (forall m, occurrences (is_query m) t = List.length gpus) /\
  forallb (pass_event known) t = true.
Proof.
  induction gpus as [ | gpu rest IH]; intros w Hknown; cbv zeta.
  - split_and; reflexivity.
  - rewrite filter_for_each_cons, trace_of_for_each_cons, forallb_app.
    pose proof (status_report_counts gpu w) as (_ & D2 & _).
    pose proof (status_report_events known gpu w (Hknown gpu (or_introl eq_refl))) as D3.
    destruct (IH (world_after (PrintGPUStatus gpu) w) (fun g Hg => Hknown g (or_intror Hg)))
      as (I1 & I2 & I3).
    cbv zeta in D2. rewrite status_report_name_line, D3, I1, I3.
    split_and; try reflexivity.
    intros m. rewrite occurrences_app, D2, I2. reflexivity.
Qed.

Lemma sampling_pass_trace (gpus : list GPUInfo) (w : world) :
  trace_of (sampling_pass gpus) w
  = (trace_of (for_each gpus PrintGPUStatus) w ++ [ Slept 1000 ])%list.
Proof. unfold sampling_pass. rewrite trace_of_bind. reflexivity. Qed.

(** Any number of passes of the loop of [main]. *)
Lemma loop_events (gpus : list GPUInfo) (n : nat) :
  forall w : world,
  let t := trace_of (main_steps n (InLoop gpus)) w in
  result_of (main_steps n (InLoop gpus)) w = InLoop gpus /\
  filter is_name_line t = List.concat (repeat (map name_line gpus) n) /\
  (forall m, occurrences (is_query m) t = (n * List.length gpus)%nat) /\
  occurrences is_sleep t = n /\
  forallb (pass_event (map physical_gpu gpus)) t = true.
Proof.
  induction n as [ | n IH]; intros w; cbv zeta.
  - split_and; reflexivity.
  - unfold result_of, trace_of. rewrite main_steps_in_loop. cbn [fst snd].
    destruct (IH (world_after (sampling_pass gpus) w)) as (I0 & I1 & I2 & I3 & I4).
    destruct (pass_reports_events (map physical_gpu gpus) gpus w (about_own gpus))
      as (P1 & P2 & P3).
    pose proof (proj1 (sampling_pass_counts gpus w)) as S1.
    rewrite sampling_pass_trace in S1 |- *.
    set (t1 := trace_of (for_each gpus PrintGPUStatus) w) in *.
    set (t2 := trace_of (main_steps n (InLoop gpus)) _) in *.
    clearbody t1 t2.
    rewrite !filter_app, !forallb_app, !occurrences_app, P1, P3, I1, I3, I4.
    split_and.
    + exact I0.
    + cbn [repeat List.concat filter is_name_line stdout_starting app]. rewrite app_nil_r.
      reflexivity.
    + intros m. rewrite !occurrences_app, P2, I2.
      change (occurrences (is_query m) [Slept 1000]) with 0%nat. cbn [Nat.mul]. lia.
    + rewrite occurrences_app in S1. lia.
    + reflexivity.
Qed.

Lemma forallb_In (c : event -> bool) (t : trace) (e : event) :
  forallb c t = true -> In e t -> c e = true.
Proof. intros Hall Hin. rewrite forallb_forall in Hall. apply Hall. exact Hin. Qed.

(** X16. The reports stay with their devices.  The static reports of the
    startup call the driver only for base and boost clocks, a sampling pass
    only for the four live metrics, and both only for handles of the
    catalog they are given.  The static reports never wait; a pass waits
    for 1000 milliseconds and for nothing else.  Every diagnostic of
    either, also that of a failed thermal or memory query, begins with
    ["NvAPI_GPU_GetAllClockFrequencies failed:"]. *)
Theorem reports_stay_with_their_devices (gpus : list GPUInfo) (w : world) :
  let static := trace_of (for_each gpus PrintGPUInfo) w in
  let pass := trace_of (sampling_pass gpus) w in
  (forall a o, In (Called a o) static ->
     base_clock_api a || boost_clock_api a = true /\
     exists g, In g gpus /\ api_handle a = Some (physical_gpu g)) /\
  (forall a o, In (Called a o) pass ->
     live_metric_api a = true /\
     exists g, In g gpus /\ api_handle a = Some (physical_gpu g)) /\
  (forall ms, ~ In (Slept ms) static) /\
  (forall ms, In (Slept ms) pass -> ms = 1000) /\
  (forall s, In (Stderr s) static \/ In (Stderr s) pass ->
     Text.starts_with "NvAPI_GPU_GetAllClockFrequencies failed:" s = true).
Proof.
  cbv zeta.
  destruct (static_reports_events (map physical_gpu gpus) gpus w (about_own gpus))
    as (_ & _ & Hstatic).
  assert (Hpass : forallb (pass_event (map physical_gpu gpus))
                    (trace_of (sampling_pass gpus) w) = true).
  { rewrite sampling_pass_trace, forallb_app.
    destruct (pass_reports_events (map physical_gpu gpus) gpus w (about_own gpus))
      as (_ & _ & ->).
    reflexivity. }
  set (static := trace_of (for_each gpus PrintGPUInfo) w) in *.
  set (pass := trace_of (sampling_pass gpus) w) in *.
  clearbody static pass.
  split_and.
  - intros a o Hin. pose proof (forallb_In _ _ _ Hstatic Hin) as He.
    cbn [static_report_event] in He. apply andb_prop in He. destruct He as [Hk Ha].
    split; [exact Hk | apply about_one_of; exact Ha].
  - intros a o Hin. pose proof (forallb_In _ _ _ Hpass Hin) as He.
    cbn [pass_event] in He. apply andb_prop in He. destruct He as [Hk Ha].
    split; [exact Hk | apply about_one_of; exact Ha].
  - intros ms Hin. pose proof (forallb_In _ _ _ Hstatic Hin) as He. discriminate He.
  - intros ms Hin. pose proof (forallb_In _ _ _ Hpass Hin) as He.
    cbn [pass_event] in He. apply Z.eqb_eq in He. exact He.
  - intros s [Hin | Hin].
    + exact (forallb_In _ _ _ Hstatic Hin).
    + exact (forallb_In _ _ _ Hpass Hin).
Qed.

Lemma enumeration_event_excludes (handles : list NvPhysicalGpuHandle) (e : event) :
  enumeration_event handles e = true ->
  is_call initialize_api e = false /\ is_call base_clock_api e = false /\
  (forall m, is_query m e = false) /\ is_sleep e = false /\ is_name_line e = false /\
  is_teardown e = false /\ is_no_gpus_found e = false.
Proof.
  destruct e as [a o | s | s | ms]; cbn [enumeration_event]; try discriminate.
  - destruct a; cbn; intros He; try discriminate He; split_and; try reflexivity;
      intros m; reflexivity.
  - intros He. split_and; try reflexivity. cbn [is_no_gpus_found].
    destruct (String.eqb_spec s ("No GPUs found." ++ newline)) as [-> | Hne];
      [discriminate He | reflexivity].
Qed.

Lemma static_report_event_excludes (handles : list NvPhysicalGpuHandle) (e : event) :
  static_report_event handles e = true ->
  is_call initialize_api e = false /\ is_call listing_api e = false /\
  (forall m, is_query m e = false) /\ is_sleep e = false /\
  is_teardown e = false /\ is_no_gpus_found e = false.
Proof.
  destruct e as [a o | s | s | ms]; cbn [static_report_event]; try discriminate.
  - destruct a as [ | | | h | h | h c | h | h | h]; cbn; intros He; try discriminate He;
      destruct c; try discriminate He; split_and; try reflexivity; intros m; reflexivity.
  - intros _. split_and; reflexivity.
  - intros He. split_and; try reflexivity. cbn [is_no_gpus_found].
    destruct (String.eqb_spec s ("No GPUs found." ++ newline)) as [-> | Hne];
      [discriminate He | reflexivity].
Qed.

Lemma pass_event_excludes (handles : list NvPhysicalGpuHandle) (e : event) :
  pass_event handles e = true ->
  is_call initialize_api e = false /\ is_call listing_api e = false /\
  is_call base_clock_api e = false /\
  is_teardown e = false /\ is_no_gpus_found e = false.
Proof.
  destruct e as [a o | s | s | ms]; cbn [pass_event].
  - destruct a as [ | | | h | h | h c | h | h | h]; cbn; intros He; try discriminate He;
      try destruct c; try discriminate He; split_and; reflexivity.
  - intros _. split_and; reflexivity.
  - intros He. split_and; try reflexivity. cbn [is_no_gpus_found].
    destruct (String.eqb_spec s ("No GPUs found." ++ newline)) as [-> | Hne];
      [discriminate He | reflexivity].
  - intros _. split_and; reflexivity.
Qed.

(** X17. A run of [main] on a working driver.  When the driver initializes
    and the enumeration finds a device, [main] is at the head of its loop
    with the enumerated catalog after the startup and any number [n] of
    passes.  Up to there it has initialized the driver once, asked for the
    list of devices once, read the base clocks once per device, queried
    each live metric once per device and pass, waited once per pass, and
    printed the name lines of the catalog once at startup and once per
    pass; it has not released the driver nor written ["No GPUs found."]. *)
Theorem run_of_main_on_a_working_driver (n : nat) (w : world) :
  outcome_of (fst (NvAPI_Initialize w)) = Succeeded ->
  result_of EnumerateGPUs (snd (NvAPI_Initialize w)) <> [] ->
  let catalog := result_of EnumerateGPUs (snd (NvAPI_Initialize w)) in
  let t := trace_of (main (S n)) w in
  result_of (main (S n)) w = InLoop catalog /\
  occurrences (is_call initialize_api) t = 1%nat /\
  occurrences (is_call listing_api) t = 1%nat /\
  occurrences (is_call base_clock_api) t = List.length catalog /\
  (forall m, occurrences (is_query m) t = (n * List.length catalog)%nat) /\
  occurrences is_sleep t = n /\
  filter is_name_line t = List.concat (repeat (map name_line catalog) (S n)) /\
  occurrences is_teardown t = 0%nat /\
  occurrences is_no_gpus_found t = 0%nat.
Proof.
  intros Hinit Hsome. cbv zeta.
  unfold main. cbn [main_steps terminal main_step].
  rewrite result_of_bind, trace_of_bind.
  pose proof (main_startup_run w) as Hs.
  destruct (NvAPI_Initialize w) as [[u | status] w1]; cbn [fst snd] in *;
    [ | discriminate Hinit].
  destruct (EnumerateGPUs_events w1) as (handles & E1 & E2).
  set (catalog := result_of EnumerateGPUs w1) in *.
  destruct catalog as [ | gpu rest] eqn:Ecat; [contradiction Hsome; reflexivity | ].
  rewrite <- Ecat in *. clear Ecat Hsome.
  assert (R : result_of main_startup w = InLoop catalog)
    by (unfold result_of; rewrite Hs; reflexivity).
  assert (W : world_after main_startup w
              = world_after (for_each catalog PrintGPUInfo) (world_after EnumerateGPUs w1))
    by (unfold world_after at 1; rewrite Hs; reflexivity).
  assert (T : trace_of main_startup w = snd (main_startup w)) by reflexivity.
  rewrite Hs in T. cbn [snd] in T. rewrite R, W, T. clear Hs R W T.
  destruct (static_reports_events (map physical_gpu catalog) catalog
              (world_after EnumerateGPUs w1) (about_own catalog)) as (S1 & S2 & S3).
  destruct (loop_events catalog n
              (world_after (for_each catalog PrintGPUInfo) (world_after EnumerateGPUs w1)))
    as (L0 & L1 & L2 & L3 & L4).
  set (te := trace_of EnumerateGPUs w1) in *.
  set (ts := trace_of (for_each catalog PrintGPUInfo) _) in *.
  set (tl := trace_of (main_steps n (InLoop catalog)) _) in *.
  clearbody te ts tl catalog.
  pose proof (fun p H => occurrences_excluded (enumeration_event handles) p te E2 H) as Xe.
  pose proof (fun p H =>
                occurrences_excluded (static_report_event (map physical_gpu catalog)) p ts S3 H)
    as Xs.
  pose proof (fun p H =>
                occurrences_excluded (pass_event (map physical_gpu catalog)) p tl L4 H)
    as Xl.
  split; [exact L0 | ].
  change (Called ApiInitialize Succeeded :: te ++ ts)%list
    with ([Called ApiInitialize Succeeded] ++ te ++ ts)%list.
  rewrite !filter_app, !occurrences_app. cbn [repeat List.concat].
  split_and.
  - rewrite (Xe (is_call initialize_api)), (Xs (is_call initialize_api)),
      (Xl (is_call initialize_api)); [reflexivity | | | ].
    + intros e He. apply (pass_event_excludes _ e He).
    + intros e He. apply (static_report_event_excludes _ e He).
    + intros e He. apply (enumeration_event_excludes _ e He).
  - rewrite E1, (Xs (is_call listing_api)), (Xl (is_call listing_api)); [reflexivity | | ].
    + intros e He. apply (pass_event_excludes _ e He).
    + intros e He. apply (static_report_event_excludes _ e He).
  - rewrite S2, (Xe (is_call base_clock_api)), (Xl (is_call base_clock_api));
      [cbn; lia | | ].
    + intros e He. apply (pass_event_excludes _ e He).
    + intros e He. apply (enumeration_event_excludes _ e He).
  - intros m. rewrite !occurrences_app, L2, (Xe (is_query m)), (Xs (is_query m));
      [reflexivity | | ].
    + intros e He. apply (static_report_event_excludes _ e He).
    + intros e He. apply (enumeration_event_excludes _ e He).
  - rewrite L3, (Xe is_sleep), (Xs is_sleep); [reflexivity | | ].
    + intros e He. apply (static_report_event_excludes _ e He).
    + intros e He. apply (enumeration_event_excludes _ e He).
  - rewrite S1, L1, (filter_excluded (enumeration_event handles) is_name_line te E2);
      [reflexivity | ].
    intros e He. apply (enumeration_event_excludes _ e He).
  - rewrite (Xe is_teardown), (Xs is_teardown), (Xl is_teardown); [reflexivity | | | ].
    + intros e He. apply (pass_event_excludes _ e He).
    + intros e He. apply (static_report_event_excludes _ e He).
    + intros e He. apply (enumeration_event_excludes _ e He).
  - rewrite (Xe is_no_gpus_found), (Xs is_no_gpus_found), (Xl is_no_gpus_found);
      [reflexivity | | | ].
    + intros e He. apply (pass_event_excludes _ e He).
    + intros e He. apply (static_report_event_excludes _ e He).
    + intros e He. apply (enumeration_event_excludes _ e He).
Qed.

End WholeRunExtras.

(** ** These properties on the simulated driver *)

Section ExtrasOnTheSimulatedDriver.

Import Sample Observe Calls.

(** The whole run of the cold board: startup, then two passes. *)
Example two_passes_in_the_cold :
  let t := trace_of (main (nv := driver cold_board) (crt := current_crt) 3) 0 in
  let heading := "GPU: GeForce D" ++ newline in
  let fan := "Fan speed: 4294967295 RPM" ++ tab in
  stdout_of t
  = ([ heading; divider;
       "Graphics clock speed: 300.00 MHz"; " (boost 300.00 MHz)"; newline;
       "Memory clock speed: 405.00 MHz"; " (boost 405.00 MHz)"; newline ]
     ++ [ heading; divider;
          "Graphics clock speed: 300.00 MHz"; tab; "Memory clock speed: 405.00 MHz"; tab;
          newline;
          "Temperature: -10C"; tab; fan; newline;
          "Memory usage: 0 KiB / 4.00 GiB"; tab; newline; divider; newline ]
     ++ [ heading; divider;
          "Graphics clock speed: 300.00 MHz"; tab; "Memory clock speed: 405.00 MHz"; tab;
          newline;
          "Temperature: -10C"; tab; fan; newline;
          "Memory usage: 0 KiB / 4.00 GiB"; tab; newline; divider; newline ])%list /\
  stderr_of t = [] /\
  world_after (main (nv := driver cold_board) (crt := current_crt) 3) 0 = 2000.
Proof. cbv zeta. split_and; vm_compute; reflexivity. Qed.

(** X1 on the diagnostic of a failed name query with status -6. *)
Lemma PrintError_buf_format_witness :
  (String.length "NvAPI_GPU_GetFullName failed: " <= 238)%nat /\
  PrintError_buf (-6) "NvAPI_GPU_GetFullName failed: "
  = "NvAPI_GPU_GetFullName failed: Error 0xFFFFFFFA" ++ newline /\
  Readback.hex_value "FFFFFFFA" = 4294967290.
Proof.
  assert (Hlen : (String.length "NvAPI_GPU_GetFullName failed: " <= 238)%nat)
    by (simpl; lia).
  split; [exact Hlen | ].
  pose proof (PrintError_buf_format (-6) "NvAPI_GPU_GetFullName failed: " Hlen)
    as (Htext & _ & Hvalue & _).
  split; [exact Htext | exact Hvalue].
Defined.

(** X2 on a message of 300 characters. *)
Lemma PrintError_buf_truncates_witness :
  (255 <= String.length long_message)%nat /\
  String.length (PrintError_buf (-1) long_message) = 255%nat.
Proof.
  assert (Hlong : (255 <= String.length long_message)%nat) by (vm_compute; lia).
  split; [exact Hlong | ].
  exact (proj1 (proj2 (proj2 (PrintError_buf_truncates (-1) long_message) Hlong))).
Defined.

(** X3 on a clock of 1,815,004 kHz. *)
Lemma FormatClockSpeed_nearest_hundredth_witness :
  let f := clock_table NV_GPU_CLOCK_FREQUENCIES_CURRENT_FREQ 1815004 7000000 in
  bIsPresent (domain_at f 0) = true /\
  0 <= frequency (domain_at f 0) < 2 ^ 24 /\
  frequency (domain_at f 0) mod 10 <> 5 /\
  FormatClockSpeed (crt := current_crt) f 0 = "1815.00 MHz".
Proof.
  intros f.
  assert (Hp : bIsPresent (domain_at f 0) = true) by reflexivity.
  assert (Hf : 0 <= frequency (domain_at f 0) < 2 ^ 24) by (simpl; lia).
  assert (Hm : frequency (domain_at f 0) mod 10 <> 5) by (vm_compute; lia).
  split; [exact Hp | ]. split; [exact Hf | ]. split; [exact Hm | ].
  exact (proj1 (FormatClockSpeed_nearest_hundredth (crt := current_crt) f 0 Hp Hf Hm)).
Defined.

(** X4 on 8 GiB. *)
Lemma FormatSizeKB_whole_units_witness :
  2 <= 8 <= 4095 /\ FormatSizeKB (crt := current_crt) 8388608 = "8.00 GiB".
Proof.
  assert (Hk : 2 <= 8 <= 4095) by lia.
  split; [exact Hk | ].
  exact (proj2 (FormatSizeKB_whole_units (crt := current_crt) 8) Hk).
Defined.

(** X5 on 1.5 GiB. *)
Lemma FormatSizeKB_number_range_witness :
  is_u32 1572864 /\ 1048576 < 1572864 /\
  exists n : Z, 100 <= n <= 409600 /\
    FormatSizeKB (crt := current_crt) 1572864 = Printf.fixed2 false n ++ " GiB".
Proof.
  assert (Hu : is_u32 1572864) by (unfold is_u32, u32_modulus; lia).
  assert (Hc : 1048576 < 1572864) by lia.
  split; [exact Hu | ]. split; [exact Hc | ].
  exact (proj1 (FormatSizeKB_number_range (crt := current_crt) 1572864 Hu) Hc).
Defined.

(** X10 on the cold board: ten degrees below zero. *)
Lemma temperature_reads_back_witness :
  let thermal := {| count := 2;
                    sensor := [ {| currentTemp := -10 |}; {| currentTemp := 35 |} ] |} in
  fst (NvAPI_GPU_GetThermalSettings (Provider := driver cold_board)
         (physical_gpu cold_gpu) 0) = NvOk thermal /\
  0 < count thermal /\
  exists digits : string,
    stdout_of (trace_of (PrintGPUCurrentTemperature (nv := driver cold_board) cold_gpu) 0)
    = [ "Temperature: -" ++ digits ++ "C"; tab ] /\
    Text.dec_value digits = 10.
Proof.
  intros thermal.
  assert (Hq : fst (NvAPI_GPU_GetThermalSettings (Provider := driver cold_board)
                      (physical_gpu cold_gpu) 0) = NvOk thermal) by reflexivity.
  assert (Hc : 0 < count thermal) by (simpl; lia).
  split; [exact Hq | ]. split; [exact Hc | ].
  destruct (temperature_reads_back (nv := driver cold_board) cold_gpu 0 thermal Hq Hc)
    as (digits & Htext & _ & Hvalue & _).
  exists digits. split; [exact Htext | exact Hvalue].
Defined.

(** X11 on the cold board: the largest reading. *)
Lemma fan_speed_reads_back_witness :
  fst (NvAPI_GPU_GetTachReading (Provider := driver cold_board) (physical_gpu cold_gpu) 0)
  = NvOk 4294967295 /\
  exists digits : string,
    stdout_of (trace_of (PrintGPUCurrentFanSpeed (nv := driver cold_board) cold_gpu) 0)
    = [ "Fan speed: " ++ digits ++ " RPM" ++ tab ] /\
    Text.dec_value digits = 4294967295.
Proof.
  assert (Hq : fst (NvAPI_GPU_GetTachReading (Provider := driver cold_board)
                      (physical_gpu cold_gpu) 0) = NvOk 4294967295) by reflexivity.
  split; [exact Hq | ].
  destruct (fan_speed_reads_back (nv := driver cold_board) cold_gpu 0 4294967295 Hq)
    as (digits & Htext & _ & Hvalue & _).
  exists digits. split; [exact Htext | exact Hvalue].
Defined.

(** X13 on three boards that all resolve. *)
Lemma enumeration_is_complete_without_failures_witness :
  fst (NvAPI_EnumPhysicalGPUs (Provider := driver three_boards) 0) = NvOk [11; 22; 33] /\
  occurrences is_failed_resolution
    (trace_of (EnumerateGPUs (nv := driver three_boards)) 0) = 0%nat /\
  map physical_gpu (result_of (EnumerateGPUs (nv := driver three_boards)) 0) = [11; 22; 33].
Proof.
  assert (Hl : fst (NvAPI_EnumPhysicalGPUs (Provider := driver three_boards) 0)
               = NvOk [11; 22; 33]) by reflexivity.
  assert (Hn : occurrences is_failed_resolution
                 (trace_of (EnumerateGPUs (nv := driver three_boards)) 0) = 0%nat)
    by (vm_compute; reflexivity).
  split; [exact Hl | ]. split; [exact Hn | ].
  exact (proj1 (enumeration_is_complete_without_failures
                  (nv := driver three_boards) 0 [11; 22; 33] Hl Hn)).
Defined.

(** X15 on the boards that cannot be used: the simulated driver answers
    the same at all times, and none of the two handles resolves. *)
Lemma enumeration_of_fixed_answers_witness :
  (forall h w, fst (NvAPI_GPU_GetFullName (Provider := driver unusable_boards) h w)
               = full_name unusable_boards h) /\
  (forall h w, fst (NvAPI_GPU_GetPhysicalFrameBufferSize
                      (Provider := driver unusable_boards) h w)
               = frame_buffer unusable_boards h) /\
  fst (NvAPI_EnumPhysicalGPUs (Provider := driver unusable_boards) 0) = NvOk [11; 22] /\
  result_of (EnumerateGPUs (nv := driver unusable_boards)) 0 = [].
Proof.
  assert (Hname : forall h w,
            fst (NvAPI_GPU_GetFullName (Provider := driver unusable_boards) h w)
            = full_name unusable_boards h) by reflexivity.
  assert (Hsize : forall h w,
            fst (NvAPI_GPU_GetPhysicalFrameBufferSize
                   (Provider := driver unusable_boards) h w)
            = frame_buffer unusable_boards h) by reflexivity.
  assert (Hl : fst (NvAPI_EnumPhysicalGPUs (Provider := driver unusable_boards) 0)
               = NvOk [11; 22]) by reflexivity.
  split; [exact Hname | ]. split; [exact Hsize | ]. split; [exact Hl | ].
  exact (enumeration_of_fixed_answers (nv := driver unusable_boards)
           (full_name unusable_boards) (frame_buffer unusable_boards) 0 [11; 22]
           Hname Hsize Hl).
Defined.

(** X16 on three boards: the thermal query of the second board is part of
    a pass, and it is a live metric of a board of the catalog. *)
Lemma reports_stay_with_their_devices_witness :
  let pass := trace_of (sampling_pass (nv := driver three_boards) (crt := current_crt)
                          three_gpus) 0 in
  In (Called (ApiGetThermalSettings 22) Succeeded) pass /\
  live_metric_api (ApiGetThermalSettings 22) = true /\
  exists g, In g three_gpus /\ api_handle (ApiGetThermalSettings 22) = Some (physical_gpu g).
Proof.
  intros pass.
  assert (Hin : In (Called (ApiGetThermalSettings 22) Succeeded) pass).
  { vm_compute. repeat (try (left; reflexivity); right). }
  split; [exact Hin | ].
  pose proof (reports_stay_with_their_devices (nv := driver three_boards)
                (crt := current_crt) three_gpus 0) as Hreports.
  cbv zeta in Hreports. destruct Hreports as (_ & Hcalls & _).
  exact (Hcalls (ApiGetThermalSettings 22) Succeeded Hin).
Defined.

(** X17 on three boards, startup and four passes. *)
Lemma run_of_main_on_a_working_driver_witness :
  let t := trace_of (main (nv := driver three_boards) (crt := current_crt) 5) 0 in
  outcome_of (fst (NvAPI_Initialize (Provider := driver three_boards) 0)) = Succeeded /\
  result_of (EnumerateGPUs (nv := driver three_boards)) 0 <> [] /\
  result_of (main (nv := driver three_boards) (crt := current_crt) 5) 0 = InLoop three_gpus /\
  occurrences (is_query Thermal) t = 12%nat /\
  occurrences is_sleep t = 4%nat /\
  occurrences is_teardown t = 0%nat.
Proof.
  intros t.
  assert (Hi : outcome_of (fst (NvAPI_Initialize (Provider := driver three_boards) 0))
               = Succeeded) by reflexivity.
  assert (Hs : result_of (EnumerateGPUs (nv := driver three_boards)) 0 <> [])
    by (vm_compute; discriminate).
  split; [exact Hi | ]. split; [exact Hs | ].
  pose proof (run_of_main_on_a_working_driver (nv := driver three_boards)
                (crt := current_crt) 4 0 Hi Hs) as Hrun.
  cbv zeta in Hrun. destruct Hrun as (Hpc & _ & _ & _ & Hq & Hsl & _ & Ht & _).
  split; [exact Hpc | ]. split; [exact (Hq Thermal) | ]. split; [exact Hsl | exact Ht].
Defined.

End ExtrasOnTheSimulatedDriver.
